(** * Analysis and alerting engine of the aquaponics monitor

    A shallow embedding of three Python classes of the repository,

    - [AlertManager]       (src/hydroponics/alerts/manager.py),
    - [TrendAnalyzer]      (src/hydroponics/analysis/trend_analyzer.py),
    - [ParameterAnalyzer]  (src/hydroponics/analysis/parameter_analyzer.py),

    followed by the properties of the specification that concern them.

    Conventions of the embedding.

    - Numbers.  Sensor values, thresholds and slopes are Python floats (or
      ints).  A float is modelled by the rational [Q] that it denotes, a
      decimal literal of the source by its decimal value.  Comparisons of
      finite floats are exact, so every branch below is taken by the model
      exactly when the Python code takes it on the same values.  The
      arithmetic of the trend computation and of the projections
      ([_calculate_trend], [_predict_future], [_assess_concern]) is in
      double precision: every operation gives the exact result rounded to
      the nearest double ([Float.binary64]), and [sum] adds from the left
      as CPython does up to version 3.11.  [statistics.mean] and [stdev]
      work on exact fractions, in Python as here; the arithmetic that is
      left (the coefficient of variation, the figures quoted in
      explanations) is exact.  Infinities and NaN are not modelled.
    - None.  An [Optional[float]] is an [option Q]; comparing, formatting
      or doing arithmetic on [None] raises [TypeError] as in Python.
    - Dictionaries.  [dict]s keyed by strings are stdpp [gmap]s; a dict
      whose iteration order matters is the list of its items.  Dicts with
      a fixed set of keys are records; a key that may be missing is an
      [option] field.
    - Exceptions.  Code that can raise lives in the [result] monad; code
      that can also miss a dict key or a list element lives in the wider
      [attempt] monad.
    - Time.  [datetime.now()] reads a clock: the k-th reading of a run is
      [clock k], in microseconds, the resolution of [datetime].
    - Text.  An f-string is kept as the list of its literal fragments and
      formatted fields ([text]), in source order.
    - Environment.  [math.sqrt] and the database query of
      [_get_historical_data] are taken as given (section variables); the
      notification channels are outside, and the model logs the alerts
      handed to [_send_notifications].

    The file has three parts: the embedding, one module per class; the
    vocabulary in which the properties are stated, with the sample inputs;
    the properties, each claim of the specification under its number,
    followed by further properties of the three classes (X1, X2, ...). *)

From Stdlib Require Import QArith Qpower Qabs Qround Lqa ZArith Lia Sorted.
From stdpp Require Import gmap strings list fin_maps.

(* ===================================================================== *)
(** * Python runtime                                                      *)
(* ===================================================================== *)

Module Py.

Inductive exn : Type :=
| TypeError
| ZeroDivisionError
| IndexError
| StatisticsError.

Inductive result (A : Type) : Type :=
| Ok (a : A)
| Raise (e : exn).

Arguments Ok {A} a.
Arguments Raise {A} e.

#[export] Instance result_ret : MRet result := @Ok.

#[export] Instance result_bind : MBind result :=
  fun A B f m => match m with Ok a => f a | Raise e => Raise e end.

(** ** Numbers *)

Definition Qltb (x y : Q) : bool := negb (Qle_bool y x).
Definition Qgtb (x y : Q) : bool := Qltb y x.
Definition Qleb (x y : Q) : bool := Qle_bool x y.
Definition Qgeb (x y : Q) : bool := Qle_bool y x.
Definition Qeqb (x y : Q) : bool := Qeq_bool x y.

(** [x / y] on numbers: a zero divisor raises. *)
Definition truediv (x y : Q) : result Q :=
  if Qeqb y 0 then Raise ZeroDivisionError else Ok (x / y)%Q.

(** [sum(xs)]: left to right, starting from [0]. *)
Definition sum (xs : list Q) : Q := fold_left Qplus xs 0%Q.

(** [zip(xs, ys)] stops at the shorter list. *)
Fixpoint zip {A B : Type} (xs : list A) (ys : list B) : list (A * B) :=
  match xs, ys with
  | x :: xs', y :: ys' => (x, y) :: zip xs' ys'
  | _, _ => []
  end.

(** Nearest integer, ties to the even one. *)
Definition round_half_even (x : Q) : Z :=
  let n := Qfloor x in
  match (x - inject_Z n ?= 1 # 2)%Q with
  | Lt => n
  | Gt => (n + 1)%Z
  | Eq => if Z.even n then n else (n + 1)%Z
  end.

(** [round(x, ndigits)]. *)
Definition round (x : Q) (ndigits : nat) : Q :=
  let scale := inject_Z (10 ^ Z.of_nat ndigits) in
  (inject_Z (round_half_even (x * scale)) / scale)%Q.

(** ** Optional numbers *)

(** A value used as a number: [None] raises [TypeError]. *)
Definition num (v : option Q) : result Q :=
  match v with
  | Some x => Ok x
  | None => Raise TypeError
  end.

(** [a < b] on values that may be [None]. *)
Definition lt (a b : option Q) : result bool :=
  x ← num a; y ← num b; Ok (Qltb x y).

Definition gt (a b : option Q) : result bool := lt b a.

Definition le (a b : option Q) : result bool :=
  x ← num a; y ← num b; Ok (Qleb x y).

Definition ge (a b : option Q) : result bool := le b a.

(** [min(a, b)]: the second argument wins only when it is strictly
    smaller; the comparison raises on [None]. *)
Definition min (a b : option Q) : result (option Q) :=
  smaller ← lt b a; Ok (if smaller : bool then b else a).

(** [p and q]: [q] is evaluated only when [p] holds. *)
Definition and_then (p q : result bool) : result bool :=
  b ← p; if b : bool then q else Ok false.

(** ** Strings and text *)

Definition upper_ascii (c : Ascii.ascii) : Ascii.ascii :=
  let n := Ascii.nat_of_ascii c in
  if Nat.leb 97 n && Nat.leb n 122 then Ascii.ascii_of_nat (n - 32) else c.

(** [s.upper()] on ASCII text. *)
Fixpoint upper (s : string) : string :=
  match s with
  | EmptyString => EmptyString
  | String c s' => String (upper_ascii c) (upper s')
  end.

(** One fragment of an f-string. *)
Inductive fpart : Type :=
| Lit (s : string)               (* literal text, or [{s}] for a str [s] *)
| Fixed (prec : nat) (x : Q)     (* [{x:.<prec>f}] *)
| Repr (x : Q).                  (* [{x}] for a number [x] *)

Definition text : Type := list fpart.

(** [{v:.<prec>f}]: formatting [None] raises [TypeError]. *)
Definition fmt_f (prec : nat) (v : option Q) : result fpart :=
  x ← num v; Ok (Fixed prec x).

End Py.

Import Py.

Infix "<?" := Qltb (at level 70, no associativity) : Q_scope.
Infix ">?" := Qgtb (at level 70, no associativity) : Q_scope.
Infix "<=?" := Qleb (at level 70, no associativity) : Q_scope.
Infix ">=?" := Qgeb (at level 70, no associativity) : Q_scope.
Infix "=?" := Qeqb (at level 70, no associativity) : Q_scope.

(* ===================================================================== *)
(** * Python runtime: further errors and builtins                         *)
(* ===================================================================== *)

Module Builtins.

(** What the code can raise beyond [exn]: a dict key that is missing, a
    value that a list does not hold. *)
Inductive error : Type :=
| Builtin (e : exn)
| KeyError
| ValueError.

Inductive attempt (A : Type) : Type :=
| Done (a : A)
| Fail (e : error).

Arguments Done {A} a.
Arguments Fail {A} e.

#[export] Instance attempt_ret : MRet attempt := @Done.

#[export] Instance attempt_bind : MBind attempt :=
  fun A B f m => match m with Done a => f a | Fail e => Fail e end.

Definition lift {A : Type} (r : result A) : attempt A :=
  match r with
  | Ok a => Done a
  | Raise e => Fail (Builtin e)
  end.

(** [d[key]] *)
Definition item {A : Type} (field : option A) : attempt A :=
  match field with
  | Some v => Done v
  | None => Fail KeyError
  end.

(** [xs.index(x)] *)
Fixpoint index (xs : list string) (x : string) : attempt nat :=
  match xs with
  | [] => Fail ValueError
  | y :: rest => if String.eqb y x then Done 0%nat
                 else i ← index rest x; Done (S i)
  end.

(** [x in xs] for a list [xs] *)
Definition contains (xs : list string) (x : string) : bool :=
  existsb (String.eqb x) xs.

(** [p in s] for a str [s] *)
Fixpoint is_infix (p s : string) : bool :=
  String.prefix p s
  || match s with
     | EmptyString => false
     | String _ s' => is_infix p s'
     end.

(** The line feed. *)
Definition LF : string := String (Ascii.ascii_of_nat 10) EmptyString.

(** [xs.sort(key=key)]: a stable sort that compares keys with [<].  The
    insertion sort below returns the same list, and fails on the same
    inputs: with two elements or more every key takes part in a
    comparison. *)
Fixpoint insert_by {A : Type} (key : A -> option Q) (x : A)
    (sorted : list A) : result (list A) :=
  match sorted with
  | [] => Ok [x]
  | y :: rest =>
      smaller ← lt (key y) (key x);
      if smaller : bool
      then rest' ← insert_by key x rest; Ok (y :: rest')
      else Ok (x :: sorted)
  end.

Fixpoint sort_by {A : Type} (key : A -> option Q) (xs : list A)
    : result (list A) :=
  match xs with
  | [] => Ok []
  | x :: rest => sorted ← sort_by key rest; insert_by key x sorted
  end.

End Builtins.

Import Builtins.

(* ===================================================================== *)
(** * Python runtime: double-precision arithmetic                         *)
(* ===================================================================== *)

Module Float.

(** The largest [e] with [2 ^ e <= x], for a positive [x]. *)
Definition floor_log2 (x : Q) : Z :=
  let e := (Z.log2 (Qnum x) - Z.log2 (Zpos (Qden x)))%Z in
  if Qle_bool (2 ^ e) x then e else (e - 1)%Z.

(** The double nearest to [x], ties to the even mantissa, as a fraction
    in lowest terms: 53 bits of precision, and steps of 2^-1074 near
    zero.  A result beyond the largest double, which Python turns into
    [inf], is not modelled. *)
Definition binary64 (x : Q) : Q :=
  if Qeq_bool x 0 then 0%Q
  else
    let e := Z.max (floor_log2 (Qabs x) - 52) (-1074) in
    Qred (inject_Z (round_half_even (x / 2 ^ e)) * 2 ^ e).

(** [x + y], [x - y], [x * y] on floats: the exact result, rounded. *)
Definition add (x y : Q) : Q := binary64 (x + y).
Definition sub (x y : Q) : Q := binary64 (x - y).
Definition mul (x y : Q) : Q := binary64 (x * y).

(** [x / y] on floats, for a divisor that is not zero. *)
Definition div (x y : Q) : Q := binary64 (x / y).

(** [x / y] on floats: a zero divisor raises. *)
Definition truediv (x y : Q) : result Q :=
  if Qeqb y 0 then Raise ZeroDivisionError else Ok (div x y).

(** [sum(xs)] on floats: one addition after the other, from the left,
    starting at [0] (CPython up to 3.11; later versions compensate the
    rounding errors of the additions). *)
Definition sum (xs : list Q) : Q := fold_left add xs 0%Q.

End Float.

(* ===================================================================== *)
(** * alerts/manager.py                                                   *)
(* ===================================================================== *)

Module AlertManager.

(** The alert dict built by [_check_sensor_threshold]. ['timestamp'] is
    the instant read from the clock (its ISO rendering is not modelled). *)
Record Alert : Type := {
  timestamp : Z;
  level : string;
  sensor : string;
  value : Q;
  threshold : Q;
  message : text
}.

(** [self.thresholds] *)
Definition thresholds : gmap string (gmap string Q) :=
  list_to_map [
    ("ph", list_to_map [
       ("critical_low", 5.0); ("warning_low", 5.5);
       ("warning_high", 7.5); ("critical_high", 8.0);
       ("optimal_min", 6.0); ("optimal_max", 7.0)]);
    ("ec", list_to_map [
       ("critical_low", 0.5); ("warning_low", 0.8);
       ("warning_high", 2.5); ("critical_high", 3.0);
       ("optimal_min", 1.0); ("optimal_max", 1.8)]);
    ("do", list_to_map [
       ("critical_low", 4.0); ("warning_low", 5.0);
       ("warning_high", 12.0); ("critical_high", 15.0);
       ("optimal_min", 6.0); ("optimal_max", 9.0)]);
    ("temp_reservoir", list_to_map [
       ("critical_low", 10.0); ("warning_low", 16.0);
       ("warning_high", 24.0); ("critical_high", 28.0);
       ("optimal_min", 18.0); ("optimal_max", 22.0)]);
    ("temp_fish_tank", list_to_map [
       ("critical_low", 8.0); ("warning_low", 10.0);
       ("warning_high", 18.0); ("critical_high", 20.0);
       ("optimal_min", 12.0); ("optimal_max", 15.0)]);
    ("water_level_percent", list_to_map [
       ("critical_low", 20.0); ("warning_low", 30.0);
       ("optimal_min", 50.0); ("optimal_max", 90.0)])
  ]%Q.

(** [self.cooldown_minutes] *)
Definition cooldown_minutes : Z := 30.

(** [timedelta(minutes=m)], in microseconds. *)
Definition timedelta_minutes (m : Z) : Z := (m * 60 * 1000000)%Z.

(** The mutable part of an [AlertManager], the position of the clock, and
    the alerts handed to [_send_notifications] so far (the channels
    themselves are external). *)
Record State : Type := {
  alert_history : gmap string Z;
  ticks : nat;
  dispatched : list Alert
}.

Definition M (A : Type) : Type := State -> A * State.

#[export] Instance M_ret : MRet M := fun A a st => (a, st).

#[export] Instance M_bind : MBind M :=
  fun A B f m st => let (a, st') := m st in f a st'.

Section WithClock.

(** [clock k] is the value of the k-th call of [datetime.now()]. *)
Variable clock : nat -> Z.

Definition now : M Z := fun st =>
  (clock (ticks st),
   {| alert_history := alert_history st;
      ticks := S (ticks st);
      dispatched := dispatched st |}).

(** ['key' in thresholds and test(thresholds['key'])], with the bound. *)
Definition crossed (thresholds : gmap string Q) (key : string)
    (test : Q -> bool) : option Q :=
  match thresholds !! key with
  | Some bound => if test bound then Some bound else None
  | None => None
  end.

Definition _check_sensor_threshold (sensor_name : string) (value : Q)
    (thresholds : gmap string Q) : M (option Alert) :=
  (* Critical low *)
  match crossed thresholds "critical_low" (fun b => value <? b)%Q with
  | Some bound =>
      t ← now;
      mret (Some {| timestamp := t; level := "critical";
                    sensor := sensor_name; value := value;
                    threshold := bound;
                    message := [Lit "CRITICAL: "; Lit sensor_name;
                                Lit " is dangerously low (";
                                Fixed 2 value; Lit ")"] |})
  | None =>
  (* Critical high *)
  match crossed thresholds "critical_high" (fun b => value >? b)%Q with
  | Some bound =>
      t ← now;
      mret (Some {| timestamp := t; level := "critical";
                    sensor := sensor_name; value := value;
                    threshold := bound;
                    message := [Lit "CRITICAL: "; Lit sensor_name;
                                Lit " is dangerously high (";
                                Fixed 2 value; Lit ")"] |})
  | None =>
  (* Warning low *)
  match crossed thresholds "warning_low" (fun b => value <? b)%Q with
  | Some bound =>
      t ← now;
      mret (Some {| timestamp := t; level := "warning";
                    sensor := sensor_name; value := value;
                    threshold := bound;
                    message := [Lit "WARNING: "; Lit sensor_name;
                                Lit " is low (";
                                Fixed 2 value; Lit ")"] |})
  | None =>
  (* Warning high *)
  match crossed thresholds "warning_high" (fun b => value >? b)%Q with
  | Some bound =>
      t ← now;
      mret (Some {| timestamp := t; level := "warning";
                    sensor := sensor_name; value := value;
                    threshold := bound;
                    message := [Lit "WARNING: "; Lit sensor_name;
                                Lit " is high (";
                                Fixed 2 value; Lit ")"] |})
  | None => mret None
  end end end end.

(** [f"{alert['sensor']}_{alert['level']}"] *)
Definition alert_key (alert : Alert) : string :=
  sensor alert +:+ "_" +:+ level alert.

Definition _is_in_cooldown (alert : Alert) : M bool := fun st =>
  match alert_history st !! alert_key alert with
  | Some last_sent =>
      let (t, st') := now st in
      let time_since := (t - last_sent)%Z in
      if (time_since <? timedelta_minutes cooldown_minutes)%Z
      then (true, st')
      else (false, st')
  | None => (false, st)
  end.

Definition _record_alert (alert : Alert) : M unit := fun st =>
  let (t, st') := now st in
  (tt, {| alert_history := <[alert_key alert := t]> (alert_history st');
          ticks := ticks st';
          dispatched := dispatched st' |}).

Definition _send_notifications (alert : Alert) : M unit := fun st =>
  (tt, {| alert_history := alert_history st;
          ticks := ticks st;
          dispatched := dispatched st ++ [alert] |}).

(** The loop of [check_thresholds] over [sensors.items()], with the list
    [alerts] built so far. *)
Fixpoint check_thresholds_loop (items : list (string * option Q))
    (alerts : list Alert) : M (list Alert) :=
  match items with
  | [] => mret alerts
  | (sensor_name, value) :: rest =>
      match value with
      | None => check_thresholds_loop rest alerts
      | Some value =>
          match thresholds !! sensor_name with
          | None => check_thresholds_loop rest alerts
          | Some thresholds =>
              alert ← _check_sensor_threshold sensor_name value thresholds;
              match alert with
              | Some alert =>
                  cooling ← _is_in_cooldown alert;
                  if negb cooling then
                    _ ← _record_alert alert;
                    _ ← (if String.eqb (level alert) "critical"
                         then _send_notifications alert
                         else mret tt);
                    check_thresholds_loop rest (alerts ++ [alert])
                  else check_thresholds_loop rest alerts
              | None => check_thresholds_loop rest alerts
              end
          end
      end
  end.

Definition check_thresholds (sensors : list (string * option Q))
    : M (list Alert) :=
  check_thresholds_loop sensors [].

End WithClock.

(** The list [recommendations] that [_get_recommendations_html] builds
    for an alert. *)
Definition recommendations (alert : Alert) : attempt (list string) :=
  let sensor := sensor alert in
  let value := value alert in
  let optimal_min (name : string) : attempt Q :=
    thresholds ← item (thresholds !! name);
    item (thresholds !! "optimal_min") in
  if String.eqb sensor "ph" then
    bound ← optimal_min "ph";
    if (value <? bound)%Q then
      Done ["Add pH Up solution slowly (0.2 units at a time)";
            "Wait 30 minutes and retest";
            "Check if nutrient solution is old (replace if needed)";
            "Verify calibration of pH sensor"]
    else
      Done ["Add pH Down solution slowly (0.2 units at a time)";
            "Wait 30 minutes and retest";
            "Check aeration (high pH can indicate CO2 depletion)";
            "Verify calibration of pH sensor"]
  else if String.eqb sensor "do" then
    bound ← optimal_min "do";
    if (value <? bound)%Q then
      Done ["IMMEDIATE: Increase aeration (add air stones)";
            "Check water temperature (warmer = less DO)";
            "Reduce feeding if fish present";
            "Check for dead organisms in system";
            "Verify air pump is working";
            "If fish gasping at surface: 50% water change NOW"]
    else Done []
  else if String.eqb sensor "ec" then
    bound ← optimal_min "ec";
    if (value <? bound)%Q then
      Done ["Add nutrient solution";
            "Check plants for deficiency symptoms";
            "Verify EC sensor calibration"]
    else
      Done ["Add fresh water to dilute";
            "Check for salt buildup";
            "Flush system if EC very high";
            "Reduce nutrient dosing"]
  else if is_infix "temp" sensor then
    bound ← optimal_min sensor;
    if (value <? bound)%Q then
      Done ["Turn on water heater";
            "Check heater is functioning";
            "Insulate reservoir/tanks";
            "Check ambient temperature"]
    else
      Done ["Turn off heater";
            "Increase ventilation/cooling";
            "Add ice packs if emergency";
            "Consider chiller for long-term solution"]
  else if String.eqb sensor "water_level_percent" then
    Done ["Check for leaks";
          "Refill reservoir";
          "Verify auto top-off system working";
          "Check pump for proper operation"]
  else Done [].

Definition _get_recommendations_html (alert : Alert) : attempt string :=
  recommendations ← recommendations alert;
  let html :=
    fold_left (fun html rec => html +:+ "<li>" +:+ rec +:+ "</li>" +:+ LF)
              recommendations EmptyString in
  Done (if String.eqb html EmptyString
        then "<li>Monitor situation closely</li>"
        else html).

End AlertManager.

(* ===================================================================== *)
(** * analysis/trend_analyzer.py                                          *)
(* ===================================================================== *)

Module TrendAnalyzer.

(** A row of [_get_historical_data]: [{'timestamp', 'value'}].  The
    timestamp is the instant that [datetime.fromisoformat] parses, in
    microseconds. *)
Record Reading : Type := {
  timestamp : Z;
  value : Q
}.

(** The dict returned by [_predict_future]. *)
Record Prediction : Type := {
  hours_ahead : Z;
  predicted_value : Q;
  confidence : string
}.

(** The dict returned by [_assess_concern]; ['time_to_threshold'] is a key
    that may be missing ([None]), present with the value [None]
    ([Some None]) or present with a number. *)
Record Concern : Type := {
  level : string;
  recommendation : text;
  time_to_threshold : option (option Q)
}.

(** The dict returned by [analyze_parameter_trend]; every key is optional
    because the short form (too little data) has only three of them. *)
Record TrendDict : Type := {
  td_parameter : option string;
  td_current_value : option Q;
  td_trend : option string;
  td_rate_of_change : option Q;
  td_volatility : option string;
  td_prediction : option Prediction;
  td_concern_level : option string;
  td_time_to_threshold : option (option Q);
  td_recommendation : option text;
  td_historical_data : option (list Reading)
}.

(** The six bounds of one parameter in [_assess_concern]. *)
Record Thresh : Type := {
  critical_low : Q;
  warning_low : Q;
  optimal_low : Q;
  optimal_high : Q;
  warning_high : Q;
  critical_high : Q
}.

(** [timedelta.total_seconds()] of a difference in microseconds. *)
Definition total_seconds (delta : Z) : Q :=
  Float.div (inject_Z delta) 1000000.

(** The direction block that ends [_calculate_trend]. *)
Definition direction_of (slope : Q) : string :=
  if (Qabs slope <? 0.01)%Q then "stable"         (* Very small change *)
  else if (slope >? 0.05)%Q then "rising"
  else if (slope <? -0.05)%Q then "falling"
  else "stable".

Definition _calculate_trend (values : list Q) (timestamps : list Z)
    : result (string * Q) :=
  if (length values <? 2)%nat then Ok ("stable", 0.0%Q)
  else
    (* Convert timestamps to hours from first reading *)
    first_time ← match timestamps with
                 | t :: _ => Ok t
                 | [] => Raise IndexError
                 end;
    let hours :=
      map (fun t => Float.div (total_seconds (t - first_time)) 3600)
          timestamps in
    (* Simple linear regression *)
    let n := inject_Z (Z.of_nat (length values)) in
    let sum_x := Float.sum hours in
    let sum_y := Float.sum values in
    let sum_xy :=
      Float.sum (map (fun hv => Float.mul (fst hv) (snd hv))
                     (zip hours values)) in
    let sum_x2 := Float.sum (map (fun h => Float.mul h h) hours) in
    (* Slope (rate of change per hour) *)
    slope ← (if (Float.sub (Float.mul n sum_x2) (Float.mul sum_x sum_x)
                 =? 0)%Q
             then Ok 0%Q
             else Float.truediv
                    (Float.sub (Float.mul n sum_xy) (Float.mul sum_x sum_y))
                    (Float.sub (Float.mul n sum_x2) (Float.mul sum_x sum_x)));
    Ok (direction_of slope, slope).

Definition _predict_future (parameter : string) (current rate : Q)
    (hours : Z) : Prediction :=
  let predicted_value :=
    Float.add current (Float.mul rate (inject_Z hours)) in
  {| hours_ahead := hours;
     predicted_value := round predicted_value 2;
     confidence := if (Qabs rate >? 0.01)%Q then "high" else "low" |}.

(** The table [thresholds] local to [_assess_concern]. *)
Definition thresholds : gmap string Thresh :=
  list_to_map [
    ("ph", {| critical_low := 6.0; warning_low := 6.5; optimal_low := 6.8;
              optimal_high := 7.5; warning_high := 8.0;
              critical_high := 8.5 |});
    ("temperature",
           {| critical_low := 15; warning_low := 18; optimal_low := 20;
              optimal_high := 24; warning_high := 26;
              critical_high := 28 |});
    ("do", {| critical_low := 4; warning_low := 6; optimal_low := 7;
              optimal_high := 10; warning_high := 12;
              critical_high := 15 |})
  ]%Q.

(** [h and h < bound] for an optional number [h]: [None] and [0] are
    falsy.  Returns the number when the test holds. *)
Definition truthy_below (h : option Q) (bound : Q) : option Q :=
  match h with
  | Some x => if negb (x =? 0)%Q && (x <? bound)%Q then Some x else None
  | None => None
  end.

Definition _assess_concern (parameter : string) (current : Q)
    (trend : string) (rate : Q) (prediction : Prediction)
    : result Concern :=
  match thresholds !! parameter with
  | None =>
      Ok {| level := "none";
            recommendation := [Lit "No thresholds defined"];
            time_to_threshold := None |}
  | Some thresh =>
      let concern :=
        {| level := "none";
           recommendation := [Lit "Continue monitoring"];
           time_to_threshold := Some None |} in
      (* Check if falling and approaching critical low *)
      if String.eqb trend "falling" && (rate <? 0)%Q then
        hours_to_warning ←
          (if (current >? warning_low thresh)%Q
           then h ← Float.truediv (Float.sub current (warning_low thresh))
                                  (Qabs rate);
                Ok (Some h)
           else Ok None);
        hours_to_critical ←
          (if (current >? critical_low thresh)%Q
           then h ← Float.truediv (Float.sub current (critical_low thresh))
                                  (Qabs rate);
                Ok (Some h)
           else Ok None);
        match truthy_below hours_to_critical 12 with
        | Some hours_to_critical =>
            (* Critical: Will hit critical threshold in < 12 hours *)
            Ok {| level := "critical";
                  time_to_threshold := Some (Some (round hours_to_critical 1));
                  recommendation :=
                    [Lit "⚠️ URGENT: "; Lit (upper parameter);
                     Lit " dropping fast! Will reach critical threshold (";
                     Repr (critical_low thresh); Lit ") in ";
                     Fixed 1 hours_to_critical;
                     Lit " hours. Take action NOW to reverse trend."] |}
        | None =>
        match truthy_below hours_to_warning 24 with
        | Some hours_to_warning =>
            (* Warning: Will hit warning threshold in < 24 hours *)
            Ok {| level := "warning";
                  time_to_threshold := Some (Some (round hours_to_warning 1));
                  recommendation :=
                    [Lit "⚠️ "; Lit (upper parameter);
                     Lit " declining. Will reach warning threshold (";
                     Repr (warning_low thresh); Lit ") in ";
                     Fixed 1 hours_to_warning;
                     Lit " hours. Prepare to intervene."] |}
        | None =>
            (* Watch: Falling but not immediate concern *)
            if (current >? optimal_low thresh)%Q then
              Ok {| level := "watch";
                    recommendation :=
                      [Lit "📉 "; Lit (upper parameter);
                       Lit " trending down at "; Fixed 3 (Qabs rate);
                       Lit "/hour. Monitor closely."];
                    time_to_threshold := None |}
            else Ok concern
        end end
      (* Check if rising and approaching critical high *)
      else if String.eqb trend "rising" && (rate >? 0)%Q then
        hours_to_warning ←
          (if (current <? warning_high thresh)%Q
           then h ← Float.truediv (Float.sub (warning_high thresh) current)
                                  rate;
                Ok (Some h)
           else Ok None);
        hours_to_critical ←
          (if (current <? critical_high thresh)%Q
           then h ← Float.truediv (Float.sub (critical_high thresh) current)
                                  rate;
                Ok (Some h)
           else Ok None);
        match truthy_below hours_to_critical 12 with
        | Some hours_to_critical =>
            Ok {| level := "critical";
                  time_to_threshold := Some (Some (round hours_to_critical 1));
                  recommendation :=
                    [Lit "⚠️ URGENT: "; Lit (upper parameter);
                     Lit " rising fast! Will reach critical threshold (";
                     Repr (critical_high thresh); Lit ") in ";
                     Fixed 1 hours_to_critical;
                     Lit " hours. Take action NOW."] |}
        | None =>
        match truthy_below hours_to_warning 24 with
        | Some hours_to_warning =>
            Ok {| level := "warning";
                  time_to_threshold := Some (Some (round hours_to_warning 1));
                  recommendation :=
                    [Lit "⚠️ "; Lit (upper parameter);
                     Lit " increasing. Will reach warning threshold (";
                     Repr (warning_high thresh); Lit ") in ";
                     Fixed 1 hours_to_warning;
                     Lit " hours."] |}
        | None =>
            if (current <? optimal_high thresh)%Q then
              Ok {| level := "watch";
                    recommendation :=
                      [Lit "📈 "; Lit (upper parameter);
                       Lit " trending up at "; Fixed 3 rate;
                       Lit "/hour. Monitor closely."];
                    time_to_threshold := None |}
            else Ok concern
        end end
      (* Stable or in optimal range *)
      else
        if (optimal_low thresh <=? current)%Q
           && (current <=? optimal_high thresh)%Q then
          Ok {| level := "none";
                recommendation :=
                  [Lit "✅ "; Lit (upper parameter);
                   Lit " stable in optimal range. Continue current management."];
                time_to_threshold := None |}
        else
          Ok {| level := "watch";
                recommendation :=
                  [Lit "👁️ "; Lit (upper parameter);
                   Lit " outside optimal but stable. Watch for changes."];
                time_to_threshold := None |}
  end.

Section WithEnvironment.

(** [math.sqrt], which [statistics.stdev] ends with; irrational in
    general, so the embedding takes it as given. *)
Variable sqrt : Q -> Q.

(** The database query behind [_get_historical_data(parameter, hours)]
    (on an error the method returns the empty list). *)
Variable _get_historical_data : string -> Z -> list Reading.

(** [statistics.mean(data)] *)
Definition mean (data : list Q) : result Q :=
  if (length data <? 1)%nat then Raise StatisticsError
  else truediv (sum data) (inject_Z (Z.of_nat (length data))).

(** [statistics.stdev(data)]: the square root of the sample variance. *)
Definition stdev (data : list Q) : result Q :=
  if (length data <? 2)%nat then Raise StatisticsError
  else
    m ← mean data;
    let ss := sum (map (fun x => (x - m) * (x - m))%Q data) in
    var ← truediv ss (inject_Z (Z.of_nat (length data)) - 1)%Q;
    Ok (sqrt var).

Definition _calculate_volatility (values : list Q) : result string :=
  if (length values <? 3)%nat then Ok "unknown"%string
  else
    std_dev ← stdev values;
    mean ← mean values;
    (* Coefficient of variation *)
    cv ← (if negb (mean =? 0)%Q
          then q ← truediv std_dev mean; Ok (q * 100)%Q
          else Ok 0%Q);
    if (cv <? 2)%Q then Ok "stable"%string
    else if (cv <? 5)%Q then Ok "moderate"%string
    else Ok "volatile"%string.

(** [values[-1]] *)
Definition last_value (values : list Q) : result Q :=
  match last values with
  | Some v => Ok v
  | None => Raise IndexError
  end.

Definition analyze_parameter_trend (parameter : string) (hours : Z)
    : result TrendDict :=
  (* Get historical data *)
  let data := _get_historical_data parameter hours in
  if (length data <? 5)%nat then
    Ok {| td_parameter := None; td_current_value := None;
          td_trend := Some "insufficient_data"%string;
          td_rate_of_change := None; td_volatility := None;
          td_prediction := None;
          td_concern_level := Some "none"%string;
          td_time_to_threshold := None;
          td_recommendation :=
            Some [Lit "Need more data points (collecting...)"];
          td_historical_data := None |}
  else
    (* Calculate trend *)
    let values := map value data in
    let timestamps := map timestamp data in
    (* Linear regression to find trend *)
    '(trend_direction, rate_of_change) ← _calculate_trend values timestamps;
    (* Detect volatility *)
    volatility ← _calculate_volatility values;
    (* Predict future *)
    current_value ← last_value values;
    let prediction :=
      _predict_future parameter current_value rate_of_change 24 in
    (* Assess concern level *)
    concern ← _assess_concern parameter current_value trend_direction
                rate_of_change prediction;
    Ok {| td_parameter := Some parameter;
          td_current_value := Some current_value;
          td_trend := Some trend_direction;
          td_rate_of_change := Some rate_of_change;
          td_volatility := Some volatility;
          td_prediction := Some prediction;
          td_concern_level := Some (level concern);
          td_time_to_threshold :=
            Some (default None (time_to_threshold concern));
          td_recommendation := Some (recommendation concern);
          (* Last 10 points for visualization *)
          td_historical_data :=
            Some (drop (length data - 10) data) |}.

End WithEnvironment.

(** ** [analyze_all_trends] *)

(** An entry of [urgent_actions]. *)
Record Action : Type := {
  ua_parameter : string;
  ua_level : string;
  ua_action : text;
  ua_time_to_threshold : option Q
}.

(** The dict returned by [analyze_all_trends]. *)
Record Report : Type := {
  overall_concern : string;
  trends : gmap string TrendDict;
  urgent_actions : list Action;
  report_timestamp : Z
}.

Definition concern_levels : list string :=
  ["none"; "watch"; "warning"; "critical"]%string.

Section AllTrends.

Variable sqrt : Q -> Q.
Variable _get_historical_data : string -> Z -> list Reading.

(** [datetime.now()] when the report is stamped. *)
Variable now : Z.

(** One turn of the loop over the parameters. *)
Definition analyze_all_trends_body (param : string)
    (state : gmap string TrendDict * string * list Action)
    : attempt (gmap string TrendDict * string * list Action) :=
  let '(trends, highest_concern, urgent_actions) := state in
  trend ← lift (analyze_parameter_trend sqrt _get_historical_data param 24);
  let trends := <[param := trend]> trends in
  (* Track highest concern *)
  concern_level ← item (td_concern_level trend);
  i ← index concern_levels concern_level;
  j ← index concern_levels highest_concern;
  let highest_concern :=
    if (j <? i)%nat then concern_level else highest_concern in
  (* Collect urgent actions *)
  if contains ["warning"; "critical"]%string concern_level then
    action ← item (td_recommendation trend);
    Done (trends, highest_concern,
          urgent_actions ++
          [{| ua_parameter := param;
              ua_level := concern_level;
              ua_action := action;
              ua_time_to_threshold :=
                default None (td_time_to_threshold trend) |}])
  else Done (trends, highest_concern, urgent_actions).

Fixpoint analyze_all_trends_loop (parameters : list string)
    (state : gmap string TrendDict * string * list Action)
    : attempt (gmap string TrendDict * string * list Action) :=
  match parameters with
  | [] => Done state
  | param :: rest =>
      state ← analyze_all_trends_body param state;
      analyze_all_trends_loop rest state
  end.

Definition analyze_all_trends : attempt Report :=
  let parameters := ["ph"; "temperature"; "do"]%string in
  '(trends, highest_concern, urgent_actions) ←
    analyze_all_trends_loop parameters (∅, "none"%string, []);
  (* Sort actions by urgency (shortest time first); every entry has the
     key, so the fallback 999 of the sort key is never used *)
  urgent_actions ← lift (sort_by ua_time_to_threshold urgent_actions);
  Done {| overall_concern := highest_concern;
          trends := trends;
          urgent_actions := urgent_actions;
          report_timestamp := now |}.

End AllTrends.

End TrendAnalyzer.

(* ===================================================================== *)
(** * analysis/parameter_analyzer.py                                      *)
(* ===================================================================== *)

Module ParameterAnalyzer.

Import TrendAnalyzer.

(** One entry of ['intervention_priority']. *)
Record Intervention : Type := {
  order : Z;
  action : text;
  why : string;
  method : string
}.

(** The dict [analysis] of [analyze_correlations_advanced]. *)
Record Analysis : Type := {
  root_cause : option string;
  cascading_effects : list text;
  intervention_priority : list Intervention;
  system_state : string;
  explanation : text;
  predicted_outcome : text
}.

(** The empty dict [{}] as a trend. *)
Definition no_trend : TrendDict :=
  {| td_parameter := None; td_current_value := None; td_trend := None;
     td_rate_of_change := None; td_volatility := None;
     td_prediction := None; td_concern_level := None;
     td_time_to_threshold := None; td_recommendation := None;
     td_historical_data := None |}.

(** [d.get(key) == s] for a str-valued key: a missing key gives [None],
    which equals no string. *)
Definition get_is (field : option string) (s : string) : bool :=
  match field with
  | Some v => String.eqb v s
  | None => false
  end.

(** [d.get('time_to_threshold', fallback)]: the fallback stands in for a
    missing key only; a key present with [None] yields [None]. *)
Definition get_time_to_threshold (d : TrendDict) (fallback : Q)
    : option Q :=
  match td_time_to_threshold d with
  | Some v => v
  | None => Some fallback
  end.

Definition analyze_correlations_advanced
    (readings : gmap string (option Q)) (trends : gmap string TrendDict)
    : result Analysis :=
  let ph := default (Some 7.0%Q) (readings !! "ph") in
  let temp := default (Some 22.0%Q) (readings !! "temperature") in
  let do := default (Some 7.5%Q) (readings !! "do") in
  let ph_trend := default no_trend (trends !! "ph") in
  let temp_trend := default no_trend (trends !! "temperature") in
  let do_trend := default no_trend (trends !! "do") in
  let analysis :=
    {| root_cause := None;
       cascading_effects := [];
       intervention_priority := [];
       system_state := "unknown";
       explanation := [Lit ""];
       predicted_outcome := [Lit ""] |} in
  (* PATTERN 1: Biofilter Crash in Progress *)
  pattern1 ←
    and_then (lt ph (Some 6.5%Q))
   (and_then (Ok (get_is (td_trend ph_trend) "falling"))
   (and_then (lt do (Some 7%Q))
             (Ok (get_is (td_trend do_trend) "falling"))));
  if pattern1 : bool then
    (* Calculate time to system failure *)
    let ph_hours := get_time_to_threshold ph_trend 999 in
    let do_hours := get_time_to_threshold do_trend 999 in
    critical_hours ← min ph_hours do_hours;
    explained ← fmt_f 1 critical_hours;
    predicted ← fmt_f 1 critical_hours;
    Ok {| root_cause := Some "Biofilter collapse cascade";
          system_state := "critical_cascade";
          cascading_effects := [
            [Lit "1. Low pH inhibits nitrifying bacteria"];
            [Lit "2. Bacteria produce less, consume less O2"];
            [Lit "3. Incomplete nitrification â†’ excess CO2"];
            [Lit "4. CO2 further lowers pH (positive feedback loop)"];
            [Lit "5. DO drops as CO2 displaces oxygen"];
            [Lit "6. Fish stress â†’ stop eating â†’ less waste"];
            [Lit "7. Bacteria starve â†’ die off accelerates"];
            [Lit "âš ï¸ DOWNWARD SPIRAL ACTIVE"]];
          intervention_priority := [
            {| order := 1;
               action := [Lit "IMMEDIATE: Raise pH to 7.0+"];
               why := "Breaks the cascade at root cause";
               method := "Add 3 tsp sodium bicarbonate per 5 gal" |};
            {| order := 2;
               action := [Lit "IMMEDIATE: Maximize aeration"];
               why := "Prevents fish death while pH recovers";
               method := "Add extra air stones, increase pump flow" |};
            {| order := 3;
               action := [Lit "Stop feeding for 24-48h"];
               why := "Reduces CO2 production, gives bacteria time to recover";
               method := "No food until pH stable above 6.8" |};
            {| order := 4;
               action := [Lit "Monitor ammonia every 2 hours"];
               why := "Biofilter compromised, ammonia may spike";
               method := "Test kit, be ready for emergency water change" |}];
          explanation := [Lit "
ðŸš¨ CRITICAL SYSTEM FAILURE IN PROGRESS

Your system is in a biofilter collapse cascade. This is a self-reinforcing
failure where low pH causes bacteria to fail, which lowers pH further.

Time to system failure: ~"; explained; Lit " hours

Root cause: pH dropped below biofilter threshold
Effect chain: pH â†“ â†’ Bacteria fail â†’ CO2 â†‘ â†’ pH â†“â†“ â†’ DO â†“ â†’ Crisis

The ONLY way to stop this is to break the cycle by raising pH immediately.
Everything else is secondary.
            "];
          predicted_outcome := [Lit "
WITHOUT intervention: System failure in "; predicted; Lit "h, fish death likely
WITH intervention: 48-72h recovery if pH raised within next 6 hours
            "] |}
  else
  (* PATTERN 2: Temperature-Induced Oxygen Crisis *)
  pattern2 ←
    and_then (gt temp (Some 25%Q))
   (and_then (Ok (get_is (td_trend temp_trend) "rising"))
   (and_then (lt do (Some 7%Q))
             (Ok (get_is (td_trend do_trend) "falling"))));
  if pattern2 : bool then
    temp1 ← fmt_f 1 temp;
    temp3 ← fmt_f 1 temp;
    capacity ← (t ← num temp; Ok (Fixed 1 (9 - (t - 20) * 0.2)%Q));
    do4 ← fmt_f 1 do;
    let temp_hours := get_time_to_threshold temp_trend 999 in
    let do_hours := get_time_to_threshold do_trend 999 in
    soonest ← min temp_hours do_hours;
    explained ← fmt_f 1 soonest;
    Ok {| root_cause := Some "Temperature rising â†’ Oxygen capacity falling";
          system_state := "temperature_oxygen_cascade";
          cascading_effects := [
            [Lit "1. Water temp at "; temp1; Lit "Â°C (high)"];
            [Lit "2. Oxygen saturation capacity decreasing"];
            [Lit "3. At "; temp3; Lit "Â°C, max DO only ~"; capacity; Lit " mg/L"];
            [Lit "4. Current DO: "; do4; Lit " mg/L"];
            [Lit "5. Fish metabolism increases with temp (need MORE O2)"];
            [Lit "6. Available oxygen decreases (can provide LESS O2)"];
            [Lit "7. Mismatch growing â†’ stress increasing"]];
          intervention_priority := [
            {| order := 1;
               action := [Lit "Cool water immediately"];
               why := "Root cause - fixes DO capacity";
               method := "Add frozen water bottles, shade reservoir, reduce light hours" |};
            {| order := 2;
               action := [Lit "Increase aeration 50%"];
               why := "Compensates while cooling";
               method := "Additional air stones or venturi" |};
            {| order := 3;
               action := [Lit "Reduce feeding by 50%"];
               why := "Lowers oxygen demand";
               method := "Feed less until temp below 24Â°C" |}];
          explanation := [Lit "
âš ï¸ TEMPERATURE-OXYGEN CRISIS DEVELOPING

Temperature is rising, which DECREASES how much oxygen water can hold.
At the same time, warm water makes fish need MORE oxygen.

This is a dangerous mismatch that will cause stress or death.

Root cause: Rising temperature
Time to critical: ~"; explained; Lit " hours

Fix temperature FIRST, then DO will naturally improve.
            "];
          predicted_outcome := predicted_outcome analysis |}
  else
  (* PATTERN 3: pH Crash Approaching (Predictive) *)
  if get_is (td_trend ph_trend) "falling"
     && (get_is (td_concern_level ph_trend) "warning"
         || get_is (td_concern_level ph_trend) "critical") then
    let hours_remaining := get_time_to_threshold ph_trend 24 in
    within ← fmt_f 0 hours_remaining;
    let falling_at :=
      Fixed 3 (Qabs (default 0%Q (td_rate_of_change ph_trend))) in
    remaining ← fmt_f 1 hours_remaining;
    Ok {| root_cause := Some "pH declining - catch it early!";
          system_state := "preventive_action_needed";
          cascading_effects := cascading_effects analysis;
          intervention_priority := [
            {| order := 1;
               action := [Lit "Raise pH within next "; within; Lit " hours"];
               why := "Prevent cascade before it starts";
               method := "Add buffer now while you have time" |};
            {| order := 2;
               action := [Lit "Identify why pH is falling"];
               why := "Prevent recurrence";
               method := "Check: overfeeding? low alkalinity? high CO2?" |}];
          explanation := [Lit "
ðŸ“Š PREDICTIVE ALERT: pH Crash Approaching

Your pH is falling at "; falling_at; Lit " per hour.

At this rate, you'll hit warning threshold in ";
                          remaining; Lit " hours.

GOOD NEWS: You caught it early! You have time to fix this before problems start.

This is EXACTLY what predictive monitoring is for - catching problems
before they become crises.
            "];
          predicted_outcome := predicted_outcome analysis |}
  else
  (* PATTERN 4: All Parameters Optimal and Stable *)
  pattern4 ←
    and_then (le (Some 6.5%Q) ph)
   (and_then (le ph (Some 7.5%Q))
   (and_then (le (Some 18%Q) temp)
   (and_then (le temp (Some 24%Q))
   (and_then (ge do (Some 6%Q))
   (Ok (get_is (td_trend ph_trend) "stable"
        && get_is (td_trend temp_trend) "stable"
        && get_is (td_trend do_trend) "stable"))))));
  if pattern4 : bool then
    Ok {| root_cause := root_cause analysis;
          cascading_effects := cascading_effects analysis;
          intervention_priority := intervention_priority analysis;
          system_state := "optimal_stable";
          explanation := [Lit "
âœ… SYSTEM OPERATING OPTIMALLY

All parameters in range AND stable over time.
No concerning trends detected.
System is healthy and well-managed.

Continue current practices - you're doing great!
            "];
          predicted_outcome := predicted_outcome analysis |}
  else Ok analysis.

(** The dict [analysis] of [analyze_ph], [analyze_temperature] and
    [analyze_do]. *)
Record ParameterAnalysis : Type := {
  pa_parameter : string;
  pa_value : Q;
  pa_status : string;
  pa_urgency : string;
  pa_problems : list string;
  pa_actions : list string;
  pa_explanation : text
}.

Definition analyze_ph (ph_value : Q) (system_type : string)
    : ParameterAnalysis :=
  (* Critical low *)
  if (ph_value <? 6.0)%Q then
    {| pa_parameter := "pH"; pa_value := ph_value;
       pa_status := "critical";
       pa_urgency := "immediate";
       pa_problems := [
         "pH dangerously low";
         "Biofilter efficiency severely reduced (<50%)";
         "Fish stress increasing";
         "Ammonia toxicity risk rising"];
       pa_actions := [
         "IMMEDIATE: Add 3 tsp sodium bicarbonate per 5 gallons";
         "Stop feeding for 24 hours (reduce CO2)";
         "Test ammonia within 1 hour";
         "Increase aeration by 50%";
         "Monitor pH every 2 hours until above 6.5"];
       pa_explanation := [Lit "Your pH of "; Fixed 2 ph_value; Lit " is in the critical zone. This is likely causing a cascade of problems. Priority is raising pH immediately to protect biofilter bacteria."] |}
  (* Warning low *)
  else if (ph_value <? 6.5)%Q then
    {| pa_parameter := "pH"; pa_value := ph_value;
       pa_status := "warning";
       pa_urgency := "soon";
       pa_problems := [
         "pH below optimal for biofilter (wants 7.0-8.5)";
         "Nitrification running at 50-70% efficiency";
         "pH likely to continue dropping"];
       pa_actions := [
         "Add 2 tsp potassium carbonate per 5 gallons";
         "Reduce feeding by 25% temporarily";
         "Test pH again in 6 hours";
         "Target: 6.5-7.0 for lettuce systems"];
       pa_explanation := [Lit "At "; Fixed 2 ph_value; Lit ", your biofilter is stressed but functional. Act within 24 hours to prevent further drop."] |}
  (* Good range *)
  else if (6.5 <=? ph_value)%Q && (ph_value <=? 7.5)%Q then
    {| pa_parameter := "pH"; pa_value := ph_value;
       pa_status := "good";
       pa_urgency := "normal";
       pa_problems := [];
       pa_actions := [
         "Continue normal operations";
         "Monitor daily";
         "No immediate action needed"];
       pa_explanation := [Lit "pH of "; Fixed 2 ph_value; Lit " is in the sweet spot for NFT lettuce + biofilter. Great work!"] |}
  (* Warning high *)
  else if (ph_value <? 8.5)%Q then
    {| pa_parameter := "pH"; pa_value := ph_value;
       pa_status := "warning";
       pa_urgency := "soon";
       pa_problems := [
         "pH higher than optimal for lettuce";
         "Some nutrients becoming unavailable";
         "Ammonia toxicity increasing (NH3 form)"];
       pa_actions := [
         "Test ammonia immediately";
         "Reduce/stop lime additions";
         "Consider adding citric acid (pH down)";
         "Target: lower to 7.0-7.5"];
       pa_explanation := [Lit "At "; Fixed 2 ph_value; Lit ", nutrients are starting to precipitate out of solution."] |}
  (* Critical high *)
  else
    {| pa_parameter := "pH"; pa_value := ph_value;
       pa_status := "critical";
       pa_urgency := "immediate";
       pa_problems := [
         "pH dangerously high";
         "Iron, manganese becoming unavailable";
         "NH3 toxicity risk";
         "Possible lime overdose"];
       pa_actions := [
         "IMMEDIATE: Add pH down (citric acid)";
         "Test ammonia - if high, partial water change";
         "Stop all lime additions";
         "Monitor every hour until below 8.0"];
       pa_explanation := [Lit "pH of "; Fixed 2 ph_value; Lit " is critical. Plants cannot access nutrients."] |}.

Definition analyze_temperature (temp_c : Q) (species : string)
    : ParameterAnalysis :=
  if (temp_c <? 15)%Q then
    {| pa_parameter := "temperature"; pa_value := temp_c;
       pa_status := "critical";
       pa_urgency := "soon";
       pa_problems := [
         "Too cold - growth will stop";
         "Risk of root disease"];
       pa_actions := [
         "Add aquarium heater (50W per 10 gallons)";
         "Insulate reservoir";
         "Target: 18-22Â°C"];
       pa_explanation := [Lit "At "; Fixed 1 temp_c; Lit "Â°C, lettuce growth is severely stunted."] |}
  else if (temp_c <? 18)%Q then
    {| pa_parameter := "temperature"; pa_value := temp_c;
       pa_status := "warning";
       pa_urgency := "normal";
       pa_problems := ["Below optimal - slow growth"];
       pa_actions := [
         "Consider gentle heating";
         "Monitor growth rate";
         "Acceptable but not ideal"];
       pa_explanation := [Lit "At "; Fixed 1 temp_c; Lit "Â°C, growth is slower than optimal but acceptable."] |}
  else if (18 <=? temp_c)%Q && (temp_c <=? 24)%Q then
    {| pa_parameter := "temperature"; pa_value := temp_c;
       pa_status := "good";
       pa_urgency := "normal";
       pa_problems := [];
       pa_actions := ["Continue monitoring"; "No action needed"];
       pa_explanation := [Lit "Perfect! "; Fixed 1 temp_c; Lit "Â°C is ideal for lettuce."] |}
  else if (temp_c <? 28)%Q then
    {| pa_parameter := "temperature"; pa_value := temp_c;
       pa_status := "warning";
       pa_urgency := "soon";
       pa_problems := [
         "Getting warm - check DO";
         "Plants may bolt (flower prematurely)"];
       pa_actions := [
         "Check dissolved oxygen (should be >6 mg/L)";
         "Increase aeration if DO dropping";
         "Consider shading reservoir";
         "Monitor for bolting (flowering)"];
       pa_explanation := [Lit "At "; Fixed 1 temp_c; Lit "Â°C, watch for stress. Lettuce prefers cooler."] |}
  else
    {| pa_parameter := "temperature"; pa_value := temp_c;
       pa_status := "critical";
       pa_urgency := "immediate";
       pa_problems := [
         "Too hot - lettuce will bolt";
         "DO crash risk"];
       pa_actions := [
         "URGENT: Cool system (ice bottles, shade)";
         "Check DO immediately";
         "Consider switching to heat-tolerant species";
         "Harvest lettuce before it bolts"];
       pa_explanation := [Lit "At "; Fixed 1 temp_c; Lit "Â°C, lettuce is stressed and will likely bolt soon."] |}.

Definition analyze_do (do_value : Q) (temp_c : Q) : ParameterAnalysis :=
  if (do_value <? 4)%Q then
    {| pa_parameter := "dissolved_oxygen"; pa_value := do_value;
       pa_status := "critical";
       pa_urgency := "immediate";
       pa_problems := [
         "Fish will die within hours";
         "Biofilter bacteria dying";
         "Root rot starting in plants"];
       pa_actions := [
         "EMERGENCY: Add air stone/aerator NOW";
         "Reduce feeding to zero";
         "Check for dead zones in system";
         "Partial water change with aerated water";
         "Check pump - may be failing"];
       pa_explanation := [Lit "DO of "; Fixed 1 do_value; Lit " mg/L is life-threatening. This is an emergency."] |}
  else if (do_value <? 6)%Q then
    {| pa_parameter := "dissolved_oxygen"; pa_value := do_value;
       pa_status := "warning";
       pa_urgency := "soon";
       pa_problems := [
         "Below safe threshold for most fish";
         "Biofilter efficiency reduced";
         "Fish showing stress behaviors"];
       pa_actions := [
         "Increase aeration immediately";
         "Check water temperature (high temp = low DO)";
         "Reduce feeding by 50%";
         "Target: >6 mg/L minimum"];
       pa_explanation := [Lit "DO of "; Fixed 1 do_value; Lit " mg/L is marginal. Fish are stressed."] |}
  else if (6 <=? do_value)%Q && (do_value <=? 9)%Q then
    {| pa_parameter := "dissolved_oxygen"; pa_value := do_value;
       pa_status := "good";
       pa_urgency := "normal";
       pa_problems := [];
       pa_actions := ["Maintain current aeration"; "Monitor daily"];
       pa_explanation := [Lit "DO of "; Fixed 1 do_value; Lit " mg/L is excellent. System is well-aerated."] |}
  else
    {| pa_parameter := "dissolved_oxygen"; pa_value := do_value;
       pa_status := "good";
       pa_urgency := "normal";
       pa_problems := [];
       pa_actions := ["Monitor for gas bubble disease (rare)"];
       pa_explanation := [Lit "DO of "; Fixed 1 do_value; Lit " mg/L is very high (supersaturated). Usually not a problem."] |}.

(** The dict [holistic] of [analyze_system_holistic]. *)
Record Holistic : Type := {
  h_overall_status : string;
  h_root_cause : option string;
  h_cascading_effects : list text;
  h_priority_actions : list string;
  h_explanation : text
}.

Definition analyze_system_holistic (readings : gmap string (option Q))
    : result Holistic :=
  let ph := default (Some 7.0%Q) (readings !! "ph") in
  let temp := default (Some 22.0%Q) (readings !! "temperature") in
  let do := default (Some 7.5%Q) (readings !! "do") in
  let holistic :=
    {| h_overall_status := "good";
       h_root_cause := None;
       h_cascading_effects := [];
       h_priority_actions := [];
       h_explanation := [Lit ""] |} in
  (* Pattern 1: Low pH + Low DO = Biofilter crash *)
  pattern1 ← and_then (lt ph (Some 6.5%Q)) (lt do (Some 6%Q));
  if pattern1 : bool then
    Ok {| h_overall_status := "critical";
          h_root_cause := Some "Biofilter failure causing cascade";
          h_cascading_effects := [
            [Lit "Low pH inhibits nitrification"];
            [Lit "Poor nitrification â†’ excess CO2"];
            [Lit "CO2 displaces oxygen"];
            [Lit "Low oxygen â†’ fish stress â†’ less eating"];
            [Lit "Downward spiral in progress"]];
          h_priority_actions := [
            "1. FIRST: Raise pH (fixes root cause)";
            "2. THEN: Increase aeration (addresses symptom)";
            "3. Stop feeding 24h (breaks cycle)";
            "4. Monitor ammonia (biofilter compromised)";
            "5. Expected recovery: 48-72 hours"];
          h_explanation := [Lit "Classic biofilter crash. Low pH started it, DO crash followed. Fix pH first!"] |}
  else
  (* Pattern 2: High temp + Low DO *)
  pattern2 ← and_then (gt temp (Some 24%Q)) (lt do (Some 7%Q));
  if pattern2 : bool then
    at_temp ← fmt_f 1 temp;
    saturation ← (t ← num temp; Ok (Fixed 1 (9 - (t - 20) * 0.2)%Q));
    temperature_of ← fmt_f 1 temp;
    Ok {| h_overall_status := "warning";
          h_root_cause := Some "Temperature too high for DO saturation";
          h_cascading_effects := [
            [Lit "Warm water holds less oxygen"];
            [Lit "At "; at_temp; Lit "Â°C, saturation is only ~"; saturation; Lit " mg/L"];
            [Lit "Current aeration insufficient for temperature"]];
          h_priority_actions := [
            "1. FIRST: Cool water (ice bottles, shade)";
            "2. THEN: Increase aeration 50%";
            "3. Reduce feeding (less oxygen demand)";
            "4. This will fix both problems"];
          h_explanation := [Lit "Temperature of "; temperature_of; Lit "Â°C is causing low DO. Cool first, then DO will rise naturally."] |}
  else
  (* Pattern 3: All good *)
  pattern3 ←
    and_then (le (Some 6.5%Q) ph)
   (and_then (le ph (Some 7.5%Q))
   (and_then (ge do (Some 6%Q))
   (and_then (le (Some 18%Q) temp) (le temp (Some 24%Q)))));
  if pattern3 : bool then
    Ok {| h_overall_status := "excellent";
          h_root_cause := h_root_cause holistic;
          h_cascading_effects := h_cascading_effects holistic;
          h_priority_actions := [
            "Continue current management";
            "Maintain monitoring schedule"];
          h_explanation := [Lit "All parameters in optimal ranges. System is healthy!"] |}
  else
  (* Pattern 4: Only pH off *)
  pattern4 ← and_then (lt ph (Some 6.5%Q)) (ge do (Some 6%Q));
  if pattern4 : bool then
    Ok {| h_overall_status := h_overall_status holistic;
          h_root_cause := Some "pH declining (but caught early)";
          h_cascading_effects := h_cascading_effects holistic;
          h_priority_actions := [
            "1. Raise pH now (before it affects biofilter)";
            "2. DO and temp are good - pH is only issue";
            "3. Easy fix if done promptly"];
          h_explanation := [Lit "Only pH is low. Good news: caught it before cascade! Fix it today."] |}
  else Ok holistic.

End ParameterAnalyzer.

(* ===================================================================== *)
(** * Vocabulary of the specification                                   *)
(* ===================================================================== *)

(** ** Alert evaluation *)

Section AlertTerms.

Import AlertManager.

(** [clock k] is the value of the k-th call of [datetime.now()]. *)
Variable clock : nat -> Z.

(** The state after one reading of the clock. *)
Definition tick (st : State) : State :=
  {| alert_history := alert_history st;
     ticks := S (ticks st);
     dispatched := dispatched st |}.

(** The outcome of an evaluation that raises an alert at state [st]. *)
Definition raised (st : State) (lvl sensor_name : string) (v bound : Q)
    (heading wording : string) : option Alert * State :=
  (Some {| timestamp := clock (ticks st); level := lvl;
           sensor := sensor_name; value := v; threshold := bound;
           message := [Lit heading; Lit sensor_name; Lit wording;
                       Fixed 2 v; Lit ")"] |},
   tick st).

(** The bound is configured and the value is strictly below it. *)
Definition below (v : Q) (bound : option Q) : Prop :=
  exists b, bound = Some b /\ (v < b)%Q.

(** The bound is configured and the value is strictly above it. *)
Definition above (v : Q) (bound : option Q) : Prop :=
  exists b, bound = Some b /\ (b < v)%Q.

(** The two critical bounds, when configured, lie outside the warning
    bounds of their side, which are then configured too. *)
Definition well_ordered (thr : gmap string Q) : Prop :=
  (forall c, thr !! "critical_low" = Some c ->
     exists w, thr !! "warning_low" = Some w /\ (c <= w)%Q) /\
  (forall c, thr !! "critical_high" = Some c ->
     exists w, thr !! "warning_high" = Some w /\ (w <= c)%Q).

(** The state after [_record_alert] and, for a critical alert,
    [_send_notifications], both run from [st]. *)
Definition accepted (a : Alert) (st : State) : State :=
  {| alert_history := <[alert_key a := clock (ticks st)]> (alert_history st);
     ticks := S (ticks st);
     dispatched := if String.eqb (level a) "critical"
                   then dispatched st ++ [a] else dispatched st |}.

(** The same alert evaluated at another instant. *)
Definition restamp (t : Z) (a : Alert) : Alert :=
  {| timestamp := t; level := level a; sensor := sensor a;
     value := value a; threshold := threshold a; message := message a |}.

(** The cooldown window, in microseconds. *)
Definition window : Z := timedelta_minutes cooldown_minutes.

(** What a run of the loop from [st] that ends in [st'] and accepts the
    alerts [new] does to the history. *)
Definition writes_only (new : list Alert) (st st' : State) : Prop :=
  (forall k, k ∉ map alert_key new ->
     alert_history st' !! k = alert_history st !! k) /\
  (forall k, is_Some (alert_history st !! k) ->
     is_Some (alert_history st' !! k)) /\
  (forall a, a ∈ new ->
     is_Some (alert_history st' !! alert_key a) /\
     (level a = "warning" \/ level a = "critical")).

(** The readings of a sensor dict that carry a value, in order. *)
Definition readings_of (sensors : list (string * option Q))
    : list (string * Q) :=
  omap (fun item => v ← snd item; Some (fst item, v)) sensors.

(** The alert is the verdict of the evaluator on its own sensor and
    value, for a configured sensor. *)
Definition raised_for (a : Alert) : Prop :=
  exists thr st0,
    thresholds !! sensor a = Some thr /\
    _check_sensor_threshold clock (sensor a) (value a) thr st0
    = (Some a, tick st0).

(** Any two readings of the clock are less than the cooldown window
    apart. *)
Definition within_window : Prop :=
  forall i j, (clock j - clock i < window)%Z.

(** Every instant stored in the history is less than the window before
    any reading of the clock. *)
Definition recent (st : State) : Prop :=
  forall k t, alert_history st !! k = Some t ->
    forall j, (clock j - t < window)%Z.

(** The key of an alert that some reading of [items] raises. *)
Definition raisable (items : list (string * option Q)) (k : string)
    : Prop :=
  exists sensor_name v thr a st0,
    (sensor_name, Some v) ∈ items /\
    thresholds !! sensor_name = Some thr /\
    _check_sensor_threshold clock sensor_name v thr st0 = (Some a, tick st0) /\
    alert_key a = k.

End AlertTerms.

(** ** Trend estimation *)

Section TrendTerms.

Import TrendAnalyzer.





(** The same time axis and the same quotient as a program obtains them
    in double precision. *)

(** The hours from [first] to [t]: microseconds to seconds, seconds to
    hours, each division rounded. *)
Definition hours_since (first t : Z) : Q :=
  Float.binary64 (Float.binary64 (inject_Z (t - first) / 1000000) / 3600).

Definition measured_hours (timestamps : list Z) : list Q :=
  match timestamps with
  | [] => []
  | first :: _ => map (hours_since first) timestamps
  end.

(** Σ: the terms added one by one to [acc], each addition rounded. *)
Fixpoint accumulate (acc : Q) (terms : list Q) : Q :=
  match terms with
  | [] => acc
  | x :: rest => accumulate (Float.binary64 (acc + x)) rest
  end.

(** The rounded products x·y of two series, up to the shorter one. *)
Fixpoint products (xs ys : list Q) : list Q :=
  match xs, ys with
  | x :: xs', y :: ys' => Float.binary64 (x * y) :: products xs' ys'
  | _, _ => []
  end.




(** Projected hours down to a low bound and up to a high bound: the
    distance, then its quotient by the speed, both in double precision. *)
Definition hours_down (current bound rate : Q) : Q :=
  Float.binary64 (Float.binary64 (current - bound) / Qabs rate).




(** The call returns a concern of level [lvl] whose time to threshold, as
    [analyze_parameter_trend] reports it, is [time]. *)
Definition concern_is (run : result Concern) (lvl : string)
    (time : option Q) : Prop :=
  exists c, run = Ok c /\ level c = lvl /\
            default None (time_to_threshold c) = time.

(** The shape of a concern: critical with a time in [0, 12], warning with
    a time in [0, 24], or watch or none without a time. *)
Definition concern_shape (c : Concern) : Prop :=
  (level c = "critical"%string /\
   exists t, time_to_threshold c = Some (Some t) /\ (0 <= t)%Q /\ (t <= 12)%Q) \/
  (level c = "warning"%string /\
   exists t, time_to_threshold c = Some (Some t) /\ (0 <= t)%Q /\ (t <= 24)%Q) \/
  ((level c = "watch"%string \/ level c = "none"%string) /\
   default None (time_to_threshold c) = None).

(** A trend at level warning or critical. *)
Definition urgent (d : TrendDict) : Prop :=
  td_concern_level d = Some "warning"%string \/
  td_concern_level d = Some "critical"%string.

(** The position of a concern level on the scale none < watch < warning
    < critical. *)
Definition rank (l : string) : nat :=
  if String.eqb l "critical" then 3
  else if String.eqb l "warning" then 2
  else if String.eqb l "watch" then 1
  else 0.

(** The level of a trend, on that scale. *)
Definition rank_of (d : TrendDict) : nat :=
  rank (default "none"%string (td_concern_level d)).

(** Both keys are numbers, in order. *)
Definition key_le {A : Type} (key : A -> option Q) (a b : A) : Prop :=
  exists s t, key a = Some s /\ key b = Some t /\ (s <= t)%Q.

(** The higher of two levels, the first one on a tie. *)
Definition higher (a b : string) : string :=
  if (rank a <? rank b)%nat then b else a.

(** The entries that one turn of the loop of [analyze_all_trends] appends
    for a trend of level [l] with recommendation [advice]. *)
Definition entry (param : string) (d : TrendDict) (l : string)
    (advice : text) : list Action :=
  if (2 <=? rank l)%nat
  then [{| ua_parameter := param; ua_level := l; ua_action := advice;
           ua_time_to_threshold := default None (td_time_to_threshold d) |}]
  else [].

(** What that loop reads in the analysis [d] of [parameter]: its level
    [l], its recommendation [advice], and a numeric time when the level is
    warning or critical. *)
Definition summary (sqrt : Q -> Q) (history : string -> Z -> list Reading)
    (parameter : string) (d : TrendDict) (l : string) (advice : text)
    : Prop :=
  analyze_parameter_trend sqrt history parameter 24 = Ok d /\
  td_concern_level d = Some l /\ l ∈ concern_levels /\
  td_recommendation d = Some advice /\
  ((2 <= rank l)%nat -> exists t, td_time_to_threshold d = Some (Some t)).

(** The entry of [urgent_actions] that a trend gives rise to. *)
Definition reports (a : Action) (d : TrendDict) : Prop :=
  td_concern_level d = Some (ua_level a) /\
  td_recommendation d = Some (ua_action a) /\
  td_time_to_threshold d = Some (ua_time_to_threshold a).

End TrendTerms.

(** ** Correlation *)

Section CorrelationTerms.

Import TrendAnalyzer ParameterAnalyzer.

(** [readings.get(key, fallback)] *)
Definition reading (readings : gmap string (option Q)) (key : string)
    (fallback : Q) : option Q :=
  default (Some fallback) (readings !! key).

(** [trends.get(key, {}).get('trend')] *)
Definition direction (trends : gmap string TrendDict) (key : string)
    : option string :=
  td_trend (default no_trend (trends !! key)).

(** [trends.get(key, {}).get('time_to_threshold', fallback)] *)
Definition hours_left (trends : gmap string TrendDict) (key : string)
    (fallback : Q) : option Q :=
  get_time_to_threshold (default no_trend (trends !! key)) fallback.

(** The formatted fields of a text, in order. *)
Definition fields (t : text) : list (nat * Q) :=
  omap (fun p => match p with
                 | Fixed prec x => Some (prec, x)
                 | _ => None
                 end) t.

(** The biofilter pattern holds on the readings and trends. *)
Definition biofilter_pattern (readings : gmap string (option Q))
    (trends : gmap string TrendDict) : Prop :=
  (exists ph, reading readings "ph" 7.0 = Some ph /\ (ph < 6.5)%Q) /\
  direction trends "ph" = Some "falling"%string /\
  (exists oxygen, reading readings "do" 7.5 = Some oxygen /\ (oxygen < 7)%Q) /\
  direction trends "do" = Some "falling"%string.

(** The four steps of the biofilter intervention. *)
Definition biofilter_steps : list (Z * string) :=
  [(1%Z, "IMMEDIATE: Raise pH to 7.0+"%string);
   (2%Z, "IMMEDIATE: Maximize aeration"%string);
   (3%Z, "Stop feeding for 24-48h"%string);
   (4%Z, "Monitor ammonia every 2 hours"%string)].

(** The order and the action of each step of an analysis. *)
Definition steps (a : Analysis) : list (Z * text) :=
  map (fun i => (order i, action i)) (intervention_priority a).

(** [trends.get(key, {}).get('concern_level')] *)
Definition concern (trends : gmap string TrendDict) (key : string)
    : option string :=
  td_concern_level (default no_trend (trends !! key)).

(** [abs(trends.get(key, {}).get('rate_of_change', 0))] *)
Definition speed (trends : gmap string TrendDict) (key : string) : Q :=
  Qabs (default 0%Q (td_rate_of_change (default no_trend (trends !! key)))).

(** The three readings are numbers (a missing key counts as its
    fallback). *)
Definition numeric (readings : gmap string (option Q))
    (ph temp oxygen : Q) : Prop :=
  reading readings "ph" 7.0 = Some ph /\
  reading readings "temperature" 22.0 = Some temp /\
  reading readings "do" 7.5 = Some oxygen.

(** The temperature-oxygen pattern holds on the readings and trends. *)
Definition temperature_pattern (readings : gmap string (option Q))
    (trends : gmap string TrendDict) : Prop :=
  (exists temp,
     reading readings "temperature" 22.0 = Some temp /\ (25 < temp)%Q) /\
  direction trends "temperature" = Some "rising"%string /\
  (exists oxygen, reading readings "do" 7.5 = Some oxygen /\ (oxygen < 7)%Q) /\
  direction trends "do" = Some "falling"%string.

(** The predictive pattern holds on the trends. *)
Definition predictive_pattern (trends : gmap string TrendDict) : Prop :=
  direction trends "ph" = Some "falling"%string /\
  (concern trends "ph" = Some "warning"%string \/
   concern trends "ph" = Some "critical"%string).

(** The optimal pattern holds on the readings and trends. *)
Definition optimal_pattern (readings : gmap string (option Q))
    (trends : gmap string TrendDict) : Prop :=
  (exists ph, reading readings "ph" 7.0 = Some ph /\
     (6.5 <= ph)%Q /\ (ph <= 7.5)%Q) /\
  (exists temp, reading readings "temperature" 22.0 = Some temp /\
     (18 <= temp)%Q /\ (temp <= 24)%Q) /\
  (exists oxygen, reading readings "do" 7.5 = Some oxygen /\
     (6 <= oxygen)%Q) /\
  direction trends "ph" = Some "stable"%string /\
  direction trends "temperature" = Some "stable"%string /\
  direction trends "do" = Some "stable"%string.

(** The formatted fields of a list of texts, in order. *)
Definition all_fields (ts : list text) : list (nat * Q) :=
  concat (map fields ts).

(** The trend stored under [key] is at level warning or critical. *)
Definition urgent_at (trends : gmap string TrendDict) (key : string)
    : Prop :=
  exists d, trends !! key = Some d /\ urgent d.

(** The trends of the three parameters are results of the trend
    analysis. *)
Definition analysed (sqrt : Q -> Q)
    (history : string -> Z -> list Reading)
    (trends : gmap string TrendDict) : Prop :=
  forall p, p ∈ ["ph"; "temperature"; "do"]%string ->
    exists d, analyze_parameter_trend sqrt history p 24 = Ok d /\
              trends !! p = Some d.

End CorrelationTerms.

(** ** Sample inputs *)

Section SampleInputs.

(** A clock that advances ten minutes between two readings. *)
Definition sample_clock (k : nat) : Z := (Z.of_nat k * 600000000)%Z.

(** A manager that has sent nothing yet. *)
Definition idle : AlertManager.State :=
  {| AlertManager.alert_history := ∅;
     AlertManager.ticks := 0;
     AlertManager.dispatched := [] |}.

(** The threshold set of the ph sensor. *)
Definition ph_thresholds : gmap string Q :=
  default ∅ (AlertManager.thresholds !! "ph").

(** The critical alert for ph = 4.0 evaluated at instant [t]. *)
Definition ph_alert (t : Z) : AlertManager.Alert :=
  {| AlertManager.timestamp := t;
     AlertManager.level := "critical";
     AlertManager.sensor := "ph";
     AlertManager.value := 4.0;
     AlertManager.threshold := 5.0;
     AlertManager.message :=
       [Lit "CRITICAL: "; Lit "ph"; Lit " is dangerously low (";
        Fixed 2 4.0; Lit ")"] |}.

(** A stand-in for [math.sqrt] that can be run: the square root rounded
    down to a multiple of 10^-6. *)
Definition sqrt_micro (x : Q) : Q :=
  (inject_Z (Z.sqrt (Qfloor (x * 1000000000000))) / 1000000)%Q.

(** One hour, in microseconds. *)
Definition hour : Z := 3600000000.

(** A row read at [t] whose value is the double that the decimal [v]
    denotes. *)
Definition row (t : Z) (v : Q) : TrendAnalyzer.Reading :=
  {| TrendAnalyzer.timestamp := t; TrendAnalyzer.value := Float.binary64 v |}.

(** Five hourly samples. *)
Definition hourly (v0 v1 v2 v3 v4 : Q) : list TrendAnalyzer.Reading :=
  [ row 0 v0; row hour v1; row (2 * hour) v2; row (3 * hour) v3;
    row (4 * hour) v4 ].


(** Two hundred readings of 22.1 degrees, the first at instant 0 and
    the others one microsecond later. *)
Definition crowded_readings : list TrendAnalyzer.Reading :=
  row 0 22.1 :: replicate 199 (row 1 22.1).

(** Five hourly readings of a ph that loses 0.05 per hour. *)
Definition sinking_readings : list TrendAnalyzer.Reading :=
  hourly 6.0 5.95 5.9 5.85 5.8.


(** A day in which ph has already fallen through its critical bound and
    dissolved oxygen is falling fast. *)
Definition collapsing_history (parameter : string) (hours : Z)
    : list TrendAnalyzer.Reading :=
  if String.eqb parameter "ph" then hourly 6.3 6.2 6.1 6.0 5.9
  else if String.eqb parameter "do" then hourly 6.3 6.1 5.9 5.7 5.5
  else if String.eqb parameter "temperature"
       then hourly 22.0 22.0 22.0 22.0 22.0
  else [].

Definition collapsing_readings : gmap string (option Q) :=
  list_to_map [("ph", Some 5.9%Q); ("temperature", Some 22.0%Q);
               ("do", Some 5.5%Q)].

(** A trend with the four keys that the correlation engine reads. *)
Definition trend_of (direction concern : string) (rate : Q)
    (time : option Q) : TrendAnalyzer.TrendDict :=
  {| TrendAnalyzer.td_parameter := None;
     TrendAnalyzer.td_current_value := None;
     TrendAnalyzer.td_trend := Some direction;
     TrendAnalyzer.td_rate_of_change := Some rate;
     TrendAnalyzer.td_volatility := None;
     TrendAnalyzer.td_prediction := None;
     TrendAnalyzer.td_concern_level := Some concern;
     TrendAnalyzer.td_time_to_threshold := Some time;
     TrendAnalyzer.td_recommendation := None;
     TrendAnalyzer.td_historical_data := None |}.

(** The trends of the collapsing day: ph at 5.9 is below critical_low, so
    no time to threshold is projected for it. *)
Definition collapsing_trends : gmap string TrendAnalyzer.TrendDict :=
  list_to_map [("ph", trend_of "falling" "none" (-0.1) None);
               ("temperature", trend_of "stable" "none" 0 None);
               ("do", trend_of "falling" "critical" (-0.2) (Some 7.5%Q))].

(** The scenario of the specification: ph 6.2 falling with 8 hours left,
    dissolved oxygen 5.5 falling with 10 hours left. *)
Definition scenario_readings : gmap string (option Q) :=
  list_to_map [("ph", Some 6.2%Q); ("do", Some 5.5%Q)].

Definition scenario_trends : gmap string TrendAnalyzer.TrendDict :=
  list_to_map [("ph", trend_of "falling" "critical" (-0.1) (Some 8%Q));
               ("do", trend_of "falling" "critical" (-0.1) (Some 10%Q))].

(** All three parameters optimal and stable. *)
Definition calm_readings : gmap string (option Q) :=
  list_to_map [("ph", Some 7.0%Q); ("temperature", Some 21%Q);
               ("do", Some 7.5%Q)].

Definition calm_trends : gmap string TrendAnalyzer.TrendDict :=
  list_to_map [("ph", trend_of "stable" "none" 0 None);
               ("temperature", trend_of "stable" "none" 0 None);
               ("do", trend_of "stable" "none" 0 None)].

(** Warm water: temperature 27 and rising with 9 hours left, dissolved
    oxygen 6 and falling with 6 hours left, ph optimal. *)
Definition heat_readings : gmap string (option Q) :=
  list_to_map [("ph", Some 7.0%Q); ("temperature", Some 27%Q);
               ("do", Some 6%Q)].

Definition heat_trends : gmap string TrendAnalyzer.TrendDict :=
  list_to_map [("ph", trend_of "stable" "none" 0 None);
               ("temperature", trend_of "rising" "warning" 0.1 (Some 9%Q));
               ("do", trend_of "falling" "warning" (-0.1) (Some 6%Q))].

(** A slow drift: ph 6.7 falling by 0.02 per hour, 10 hours from its
    warning bound; the two other readings are not reported. *)
Definition drift_readings : gmap string (option Q) :=
  list_to_map [("ph", Some 6.7%Q)].

Definition drift_trends : gmap string TrendAnalyzer.TrendDict :=
  list_to_map [("ph", trend_of "falling" "warning" (-0.02) (Some 10%Q))].

(** Nothing reported at all. *)
Definition no_readings : gmap string (option Q) := ∅.

Definition no_trends : gmap string TrendAnalyzer.TrendDict := ∅.

(** A ph probe that reported no value. *)
Definition failed_probe : gmap string (option Q) :=
  list_to_map [("ph", None); ("temperature", Some 22.0%Q)].

(** A clock that advances one second at each reading and stops after a
    hundred readings. *)
Definition burst_clock (k : nat) : Z := (Z.of_nat (Nat.min k 100) * 1000000)%Z.

End SampleInputs.

(* ===================================================================== *)
(** * Properties                                                          *)
(* ===================================================================== *)

(** ** Boolean comparisons on rationals *)

Lemma Qltb_true (x y : Q) : (x <? y)%Q = true <-> (x < y)%Q.
Proof.
  unfold Qltb. rewrite negb_true_iff. split.
  - intros H. apply Qnot_le_lt. intros Hle.
    apply Qle_bool_iff in Hle. congruence.
  - intros H. destruct (Qle_bool y x) eqn:E; [|reflexivity].
    apply Qle_bool_iff in E. lra.
Qed.

Lemma Qltb_false (x y : Q) : (x <? y)%Q = false <-> (y <= x)%Q.
Proof.
  unfold Qltb. rewrite negb_false_iff. apply Qle_bool_iff.
Qed.

Lemma Qleb_true (x y : Q) : (x <=? y)%Q = true <-> (x <= y)%Q.
Proof. apply Qle_bool_iff. Qed.

Lemma Qleb_false (x y : Q) : (x <=? y)%Q = false <-> (y < x)%Q.
Proof.
  unfold Qleb. split.
  - intros H. apply Qnot_le_lt. intros Hle.
    apply Qle_bool_iff in Hle. congruence.
  - intros H. destruct (Qle_bool x y) eqn:E; [|reflexivity].
    apply Qle_bool_iff in E. lra.
Qed.

Lemma Qeqb_true (x y : Q) : (x =? y)%Q = true <-> (x == y)%Q.
Proof. apply Qeq_bool_iff. Qed.

Lemma Qeqb_false (x y : Q) : (x =? y)%Q = false <-> ~ (x == y)%Q.
Proof.
  unfold Qeqb. split.
  - intros H Heq. apply Qeq_bool_iff in Heq. congruence.
  - intros H. destruct (Qeq_bool x y) eqn:E; [|reflexivity].
    apply Qeq_bool_iff in E. contradiction.
Qed.

(** Turns the boolean tests of the context into order facts. *)
Ltac qprop :=
  unfold Qgtb, Qgeb in *;
  repeat match goal with
  | H : (_ <? _)%Q = true |- _ => apply Qltb_true in H
  | H : (_ <? _)%Q = false |- _ => apply Qltb_false in H
  | H : (_ <=? _)%Q = true |- _ => apply Qleb_true in H
  | H : (_ <=? _)%Q = false |- _ => apply Qleb_false in H
  | H : (_ =? _)%Q = true |- _ => apply Qeqb_true in H
  | H : (_ =? _)%Q = false |- _ => apply Qeqb_false in H
  end.

(** Decides a boolean comparison from the order facts of the context. *)
Ltac qtest :=
  unfold Qgtb, Qgeb;
  match goal with
  | |- (_ <? _)%Q = true => apply Qltb_true; lra
  | |- (_ <? _)%Q = false => apply Qltb_false; lra
  | |- (_ <=? _)%Q = true => apply Qleb_true; lra
  | |- (_ <=? _)%Q = false => apply Qleb_false; lra
  end.

(** ** The alert evaluator *)

Section AlertEvaluator.

Import AlertManager.

Variable clock : nat -> Z.

Lemma crossed_Some (thr : gmap string Q) key test b :
  crossed thr key test = Some b <-> thr !! key = Some b /\ test b = true.
Proof.
  unfold crossed. destruct (thr !! key) as [x|]; [|split; [|intros []]; discriminate].
  destruct (test x) eqn:E; split.
  - intros [= <-]. auto.
  - intros [[= <-] _]. reflexivity.
  - discriminate.
  - intros [[= <-] H]. congruence.
Qed.

Lemma crossed_None (thr : gmap string Q) key test :
  crossed thr key test = None <->
  forall b, thr !! key = Some b -> test b = false.
Proof.
  unfold crossed. destruct (thr !! key) as [x|].
  - destruct (test x) eqn:E; split; try discriminate; try reflexivity.
    + intros H. specialize (H x eq_refl). congruence.
    + intros _ b [= <-]. exact E.
  - split; [intros _ b; discriminate | reflexivity].
Qed.

Lemma crossed_low_hit (thr : gmap string Q) key v b :
  thr !! key = Some b -> (v < b)%Q ->
  crossed thr key (fun b => v <? b)%Q = Some b.
Proof. intros H Hlt. apply crossed_Some. split; [exact H | qtest]. Qed.

Lemma crossed_high_hit (thr : gmap string Q) key v b :
  thr !! key = Some b -> (b < v)%Q ->
  crossed thr key (fun b => v >? b)%Q = Some b.
Proof. intros H Hlt. apply crossed_Some. split; [exact H | qtest]. Qed.

Lemma crossed_low_miss (thr : gmap string Q) key v :
  ~ below v (thr !! key) ->
  crossed thr key (fun b => v <? b)%Q = None.
Proof.
  intros H. apply crossed_None. intros b Hb.
  destruct (v <? b)%Q eqn:E; [|reflexivity].
  exfalso. apply H. exists b. split; [exact Hb | now apply Qltb_true].
Qed.

Lemma crossed_high_miss (thr : gmap string Q) key v :
  ~ above v (thr !! key) ->
  crossed thr key (fun b => v >? b)%Q = None.
Proof.
  intros H. apply crossed_None. intros b Hb. unfold Qgtb.
  destruct (b <? v)%Q eqn:E; [|reflexivity].
  exfalso. apply H. exists b. split; [exact Hb | now apply Qltb_true].
Qed.

(** With no bound crossed the evaluator returns [None] and reads no
    clock. *)
Lemma check_sensor_threshold_quiet sensor_name v (thr : gmap string Q) st :
  ~ below v (thr !! "critical_low") -> ~ above v (thr !! "critical_high") ->
  ~ below v (thr !! "warning_low") -> ~ above v (thr !! "warning_high") ->
  _check_sensor_threshold clock sensor_name v thr st = (None, st).
Proof.
  intros H1 H2 H3 H4. unfold _check_sensor_threshold.
  rewrite (crossed_low_miss _ _ _ H1), (crossed_high_miss _ _ _ H2),
    (crossed_low_miss _ _ _ H3), (crossed_high_miss _ _ _ H4).
  reflexivity.
Qed.

(** Inside the warning band of a well-ordered set no bound is crossed. *)
Lemma inside_band_quiet sensor_name v (thr : gmap string Q) st :
  well_ordered thr ->
  (forall b, thr !! "warning_low" = Some b -> (b < v)%Q) ->
  (forall b, thr !! "warning_high" = Some b -> (v < b)%Q) ->
  _check_sensor_threshold clock sensor_name v thr st = (None, st).
Proof.
  intros [Hlo Hhi] Hwl Hwh. apply check_sensor_threshold_quiet.
  - intros (c & Hc & Hlt). destruct (Hlo c Hc) as (w & Hw & Hle).
    specialize (Hwl w Hw). lra.
  - intros (c & Hc & Hlt). destruct (Hhi c Hc) as (w & Hw & Hle).
    specialize (Hwh w Hw). lra.
  - intros (w & Hw & Hlt). specialize (Hwl w Hw). lra.
  - intros (w & Hw & Hlt). specialize (Hwh w Hw). lra.
Qed.

(** Every set of [self.thresholds] is well ordered. *)
Lemma configured_well_ordered sensor_name (thr : gmap string Q) :
  thresholds !! sensor_name = Some thr -> well_ordered thr.
Proof.
  unfold thresholds. intros H.
  repeat (rewrite list_to_map_cons, lookup_insert in H;
          destruct (decide (_ = sensor_name)) as [_|_];
          [injection H as <-;
           split; intros c Hc; vm_compute in Hc; try discriminate;
           injection Hc as <-; eexists; (split; [vm_compute; reflexivity|]);
           unfold Qle; simpl; lia|]).
  rewrite list_to_map_nil, lookup_empty in H. discriminate.
Qed.

(** The four alerts, each under the failure of the tests before it. *)
Lemma check_sensor_threshold_critical_low
    sensor_name v (thr : gmap string Q) st b :
  thr !! "critical_low" = Some b -> (v < b)%Q ->
  _check_sensor_threshold clock sensor_name v thr st
  = raised clock st "critical" sensor_name v b "CRITICAL: " " is dangerously low (".
Proof.
  intros Hb Hlt. unfold _check_sensor_threshold.
  rewrite (crossed_low_hit _ _ _ _ Hb Hlt). reflexivity.
Qed.

Lemma check_sensor_threshold_critical_high
    sensor_name v (thr : gmap string Q) st b :
  ~ below v (thr !! "critical_low") ->
  thr !! "critical_high" = Some b -> (b < v)%Q ->
  _check_sensor_threshold clock sensor_name v thr st
  = raised clock st "critical" sensor_name v b "CRITICAL: " " is dangerously high (".
Proof.
  intros H1 Hb Hlt. unfold _check_sensor_threshold.
  rewrite (crossed_low_miss _ _ _ H1), (crossed_high_hit _ _ _ _ Hb Hlt).
  reflexivity.
Qed.

Lemma check_sensor_threshold_warning_low
    sensor_name v (thr : gmap string Q) st b :
  ~ below v (thr !! "critical_low") -> ~ above v (thr !! "critical_high") ->
  thr !! "warning_low" = Some b -> (v < b)%Q ->
  _check_sensor_threshold clock sensor_name v thr st
  = raised clock st "warning" sensor_name v b "WARNING: " " is low (".
Proof.
  intros H1 H2 Hb Hlt. unfold _check_sensor_threshold.
  rewrite (crossed_low_miss _ _ _ H1), (crossed_high_miss _ _ _ H2),
    (crossed_low_hit _ _ _ _ Hb Hlt).
  reflexivity.
Qed.

Lemma check_sensor_threshold_warning_high
    sensor_name v (thr : gmap string Q) st b :
  ~ below v (thr !! "critical_low") -> ~ above v (thr !! "critical_high") ->
  ~ below v (thr !! "warning_low") ->
  thr !! "warning_high" = Some b -> (b < v)%Q ->
  _check_sensor_threshold clock sensor_name v thr st
  = raised clock st "warning" sensor_name v b "WARNING: " " is high (".
Proof.
  intros H1 H2 H3 Hb Hlt. unfold _check_sensor_threshold.
  rewrite (crossed_low_miss _ _ _ H1), (crossed_high_miss _ _ _ H2),
    (crossed_low_miss _ _ _ H3), (crossed_high_hit _ _ _ _ Hb Hlt).
  reflexivity.
Qed.

(** C3. The evaluator tests critical_low, critical_high, warning_low and
    warning_high in this order, with strict inequalities, and the first
    bound crossed decides: below critical_low a critical alert worded
    dangerously low, else above critical_high a critical alert worded
    dangerously high, else below warning_low a warning worded low, else
    above warning_high a warning worded high.  A bound missing from the
    set is skipped (it is never crossed), and when no bound is crossed
    there is no alert.  For the sets configured in [self.thresholds], a
    value strictly inside the warning band (a missing warning bound leaving
    its side open) yields no alert. *)
Theorem check_sensor_threshold_first_match
    sensor_name (v : Q) (thr : gmap string Q) (st : State) :
  let run := _check_sensor_threshold clock sensor_name v thr st in
  let critical_low := thr !! "critical_low" in
  let critical_high := thr !! "critical_high" in
  let warning_low := thr !! "warning_low" in
  let warning_high := thr !! "warning_high" in
  (forall b, critical_low = Some b -> (v < b)%Q ->
     run = raised clock st "critical" sensor_name v b
             "CRITICAL: " " is dangerously low (") /\
  (forall b, ~ below v critical_low ->
     critical_high = Some b -> (b < v)%Q ->
     run = raised clock st "critical" sensor_name v b
             "CRITICAL: " " is dangerously high (") /\
  (forall b, ~ below v critical_low -> ~ above v critical_high ->
     warning_low = Some b -> (v < b)%Q ->
     run = raised clock st "warning" sensor_name v b
             "WARNING: " " is low (") /\
  (forall b, ~ below v critical_low -> ~ above v critical_high ->
     ~ below v warning_low ->
     warning_high = Some b -> (b < v)%Q ->
     run = raised clock st "warning" sensor_name v b
             "WARNING: " " is high (") /\
  (~ below v critical_low -> ~ above v critical_high ->
   ~ below v warning_low -> ~ above v warning_high ->
     run = (None, st)) /\
  (thresholds !! sensor_name = Some thr ->
   (forall b, warning_low = Some b -> (b < v)%Q) ->
   (forall b, warning_high = Some b -> (v < b)%Q) ->
     run = (None, st)).
Proof.
  cbv zeta. repeat split.
  - intros b. apply check_sensor_threshold_critical_low.
  - intros b. apply check_sensor_threshold_critical_high.
  - intros b. apply check_sensor_threshold_warning_low.
  - intros b. apply check_sensor_threshold_warning_high.
  - apply check_sensor_threshold_quiet.
  - intros Hcfg. apply inside_band_quiet.
    exact (configured_well_ordered _ _ Hcfg).
Qed.

(** C9. The four comparisons are strict, so a value equal to a bound does
    not cross it: with the four bounds configured and critical_low <
    warning_low < warning_high < critical_high, a value equal to
    critical_low raises the low warning, a value equal to critical_high
    raises the high warning, and a value equal to warning_low or to
    warning_high raises nothing. *)
Theorem boundary_values_do_not_match
    sensor_name (thr : gmap string Q) (cl wl wh ch v : Q) (st : State) :
  thr !! "critical_low" = Some cl -> thr !! "warning_low" = Some wl ->
  thr !! "warning_high" = Some wh -> thr !! "critical_high" = Some ch ->
  (cl < wl)%Q -> (wl < wh)%Q -> (wh < ch)%Q ->
  let run := _check_sensor_threshold clock sensor_name v thr st in
  ((v == cl)%Q ->
     run = raised clock st "warning" sensor_name v wl "WARNING: " " is low (") /\
  ((v == ch)%Q ->
     run = raised clock st "warning" sensor_name v wh "WARNING: " " is high (") /\
  ((v == wl)%Q \/ (v == wh)%Q -> run = (None, st)).
Proof.
  intros Hcl Hwl Hwh Hch O1 O2 O3. cbv zeta.
  assert (Hb : forall key b x, thr !! key = Some b -> below x (thr !! key) ->
                 (x < b)%Q).
  { intros key b x Hk (b' & Hk' & Hlt). congruence. }
  assert (Ha : forall key b x, thr !! key = Some b -> above x (thr !! key) ->
                 (b < x)%Q).
  { intros key b x Hk (b' & Hk' & Hlt). congruence. }
  repeat split.
  - intros E.
    apply check_sensor_threshold_warning_low;
      [ intros H; apply (Hb _ _ _ Hcl) in H; lra
      | intros H; apply (Ha _ _ _ Hch) in H; lra
      | exact Hwl | lra ].
  - intros E.
    apply check_sensor_threshold_warning_high;
      [ intros H; apply (Hb _ _ _ Hcl) in H; lra
      | intros H; apply (Ha _ _ _ Hch) in H; lra
      | intros H; apply (Hb _ _ _ Hwl) in H; lra
      | exact Hwh | lra ].
  - intros E. apply check_sensor_threshold_quiet.
    + intros H; apply (Hb _ _ _ Hcl) in H; lra.
    + intros H; apply (Ha _ _ _ Hch) in H; lra.
    + intros H; apply (Hb _ _ _ Hwl) in H; lra.
    + intros H; apply (Ha _ _ _ Hwh) in H; lra.
Qed.

End AlertEvaluator.

(** ** The cooldown gate *)

Section CooldownGate.

Import AlertManager.

Variable clock : nat -> Z.

Lemma check_sensor_threshold_shape sensor_name v (thr : gmap string Q) st :
  _check_sensor_threshold clock sensor_name v thr st = (None, st) \/
  exists a,
    _check_sensor_threshold clock sensor_name v thr st = (Some a, tick st) /\
    timestamp a = clock (ticks st) /\ sensor a = sensor_name /\
    (level a = "warning" \/ level a = "critical").
Proof.
  unfold _check_sensor_threshold.
  repeat match goal with
  | |- context [crossed ?t ?k ?f] => destruct (crossed t k f)
  end;
  try (right; eexists; split; [reflexivity|]; simpl; auto; fail).
  left. reflexivity.
Qed.

(** The verdict does not depend on the state, the timestamp apart. *)
Lemma check_sensor_threshold_any_state
    sensor_name v (thr : gmap string Q) st st' a :
  _check_sensor_threshold clock sensor_name v thr st = (Some a, tick st) ->
  _check_sensor_threshold clock sensor_name v thr st'
  = (Some (restamp (clock (ticks st')) a), tick st').
Proof.
  unfold _check_sensor_threshold.
  repeat match goal with
  | |- context [crossed ?t ?k ?f] => destruct (crossed t k f)
  end;
  intros [= <-]; reflexivity.
Qed.

Lemma loop_skip_none sensor_name rest acc st :
  check_thresholds_loop clock ((sensor_name, None) :: rest) acc st
  = check_thresholds_loop clock rest acc st.
Proof. reflexivity. Qed.

Lemma loop_skip_unknown sensor_name v rest acc st :
  thresholds !! sensor_name = None ->
  check_thresholds_loop clock ((sensor_name, Some v) :: rest) acc st
  = check_thresholds_loop clock rest acc st.
Proof. intros H. cbn [check_thresholds_loop]. rewrite H. reflexivity. Qed.

Lemma loop_quiet sensor_name v (thr : gmap string Q) rest acc st :
  thresholds !! sensor_name = Some thr ->
  _check_sensor_threshold clock sensor_name v thr st = (None, st) ->
  check_thresholds_loop clock ((sensor_name, Some v) :: rest) acc st
  = check_thresholds_loop clock rest acc st.
Proof.
  intros H E. cbn [check_thresholds_loop]. rewrite H.
  unfold mbind, M_bind. rewrite E. reflexivity.
Qed.

Lemma loop_alert sensor_name v (thr : gmap string Q) rest acc st a :
  thresholds !! sensor_name = Some thr ->
  _check_sensor_threshold clock sensor_name v thr st = (Some a, tick st) ->
  check_thresholds_loop clock ((sensor_name, Some v) :: rest) acc st
  = match alert_history st !! alert_key a with
    | Some last_sent =>
        if (clock (S (ticks st)) - last_sent <? window)%Z
        then check_thresholds_loop clock rest acc (tick (tick st))
        else check_thresholds_loop clock rest (acc ++ [a])
               (accepted clock a (tick (tick st)))
    | None =>
        check_thresholds_loop clock rest (acc ++ [a]) (accepted clock a (tick st))
    end.
Proof.
  intros H E. cbn [check_thresholds_loop]. rewrite H.
  unfold mbind, M_bind. rewrite E.
  unfold _is_in_cooldown, _record_alert, _send_notifications, now, accepted,
    window, mret, M_ret.
  cbn [alert_history ticks dispatched tick].
  destruct (alert_history st !! alert_key a) as [last_sent|].
  - destruct (_ <? _)%Z; cbn [negb alert_history ticks dispatched tick];
      [reflexivity|].
    destruct (String.eqb (level a) "critical"); reflexivity.
  - cbn [negb alert_history ticks dispatched tick].
    destruct (String.eqb (level a) "critical"); reflexivity.
Qed.

(** One issue of an alert: a call of [check_thresholds] on the one sensor
    that raises it. *)
Lemma issue_fresh sensor_name v (thr : gmap string Q) a st :
  thresholds !! sensor_name = Some thr ->
  _check_sensor_threshold clock sensor_name v thr st = (Some a, tick st) ->
  alert_history st !! alert_key a = None ->
  check_thresholds clock [(sensor_name, Some v)] st
  = ([a], accepted clock a (tick st)).
Proof.
  intros Hthr Ea Hk. unfold check_thresholds.
  rewrite (loop_alert _ _ _ _ _ _ _ Hthr Ea), Hk. reflexivity.
Qed.

Lemma issue_suppressed sensor_name v (thr : gmap string Q) a st last_sent :
  thresholds !! sensor_name = Some thr ->
  _check_sensor_threshold clock sensor_name v thr st = (Some a, tick st) ->
  alert_history st !! alert_key a = Some last_sent ->
  (clock (S (ticks st)) - last_sent < window)%Z ->
  check_thresholds clock [(sensor_name, Some v)] st = ([], tick (tick st)).
Proof.
  intros Hthr Ea Hk Hlt. unfold check_thresholds.
  rewrite (loop_alert _ _ _ _ _ _ _ Hthr Ea), Hk.
  apply Z.ltb_lt in Hlt. rewrite Hlt. reflexivity.
Qed.

Lemma issue_elapsed sensor_name v (thr : gmap string Q) a st last_sent :
  thresholds !! sensor_name = Some thr ->
  _check_sensor_threshold clock sensor_name v thr st = (Some a, tick st) ->
  alert_history st !! alert_key a = Some last_sent ->
  (window <= clock (S (ticks st)) - last_sent)%Z ->
  check_thresholds clock [(sensor_name, Some v)] st
  = ([a], accepted clock a (tick (tick st))).
Proof.
  intros Hthr Ea Hk Hge. unfold check_thresholds.
  rewrite (loop_alert _ _ _ _ _ _ _ Hthr Ea), Hk.
  apply Z.ltb_ge in Hge. rewrite Hge. reflexivity.
Qed.

(** C2. The cooldown gate, for the alert [a] that the evaluator raises
    for a sensor.  A first alert for its key is accepted and the instant
    of its recording is stored under the key.  With an instant already
    stored, the alert is suppressed (an empty result, nothing recorded,
    nothing dispatched) when the clock read by the cooldown test is
    strictly less than the 30-minute window after it, and accepted, the
    stored instant being overwritten, when at least the window has elapsed.
    Hence issuing the alert three times, the second time within the window
    and the third time after it, accepts the first and the third only. *)
Theorem cooldown_gate
    sensor_name v (thr : gmap string Q) (a : Alert) (st : State) :
  thresholds !! sensor_name = Some thr ->
  _check_sensor_threshold clock sensor_name v thr st = (Some a, tick st) ->
  let key := alert_key a in
  let issue := check_thresholds clock [(sensor_name, Some v)] in
  (alert_history st !! key = None ->
     fst (issue st) = [a] /\
     alert_history (snd (issue st))
     = <[key := clock (S (ticks st))]> (alert_history st)) /\
  (forall last_sent, alert_history st !! key = Some last_sent ->
     (clock (S (ticks st)) - last_sent < window)%Z ->
     fst (issue st) = [] /\
     alert_history (snd (issue st)) = alert_history st /\
     dispatched (snd (issue st)) = dispatched st) /\
  (forall last_sent, alert_history st !! key = Some last_sent ->
     (window <= clock (S (ticks st)) - last_sent)%Z ->
     fst (issue st) = [a] /\
     alert_history (snd (issue st))
     = <[key := clock (S (S (ticks st)))]> (alert_history st)) /\
  (alert_history st !! key = None ->
     let recorded := clock (S (ticks st)) in
     (clock (3 + ticks st) - recorded < window)%Z ->
     (window <= clock (5 + ticks st) - recorded)%Z ->
     let first := issue st in
     let second := issue (snd first) in
     let third := issue (snd second) in
     fst first = [a] /\ fst second = [] /\
     fst third = [restamp (clock (4 + ticks st)) a] /\
     alert_history (snd second) !! key = Some recorded /\
     alert_history (snd third) !! key = Some (clock (6 + ticks st))).
Proof.
  intros Hthr Ea. cbv zeta.
  split; [|split; [|split]].
  - intros Hk. rewrite (issue_fresh _ _ _ _ _ Hthr Ea Hk). auto.
  - intros last_sent Hk Hlt.
    rewrite (issue_suppressed _ _ _ _ _ _ Hthr Ea Hk Hlt). auto.
  - intros last_sent Hk Hge.
    rewrite (issue_elapsed _ _ _ _ _ _ Hthr Ea Hk Hge). auto.
  - intros Hk Hlt Hge.
    (* first issue: accepted, recorded at the second reading *)
    rewrite (issue_fresh _ _ _ _ _ Hthr Ea Hk). cbn [fst snd].
    set (st1 := accepted clock a (tick st)).
    (* second issue: within the window *)
    pose proof (check_sensor_threshold_any_state _ _ _ _ st1 _ Ea) as E2.
    assert (K1 : alert_history st1 !! alert_key (restamp (clock (ticks st1)) a)
                 = Some (clock (S (ticks st)))) by apply lookup_insert_eq.
    rewrite (issue_suppressed _ _ _ _ _ _ Hthr E2 K1 Hlt). cbn [fst snd].
    set (st2 := tick (tick st1)).
    (* third issue: after the window *)
    pose proof (check_sensor_threshold_any_state _ _ _ _ st2 _ Ea) as E3.
    assert (K2 : alert_history st2 !! alert_key (restamp (clock (ticks st2)) a)
                 = Some (clock (S (ticks st)))) by apply lookup_insert_eq.
    rewrite (issue_elapsed _ _ _ _ _ _ Hthr E3 K2 Hge). cbn [fst snd].
    repeat split.
    + apply lookup_insert_eq.
    + apply (lookup_insert_eq (alert_history st2)).
Qed.

(** *** History keys *)

Lemma list_ascii_append (s1 s2 : string) :
  String.list_ascii_of_string (s1 +:+ s2)
  = String.list_ascii_of_string s1 ++ String.list_ascii_of_string s2.
Proof.
  induction s1 as [|c s1 IH]; [reflexivity|].
  change (String c s1 +:+ s2) with (String c (s1 +:+ s2)).
  change (String.list_ascii_of_string (String c (s1 +:+ s2)))
    with (c :: String.list_ascii_of_string (s1 +:+ s2)).
  now rewrite IH.
Qed.

Lemma list_ascii_inj (s1 s2 : string) :
  String.list_ascii_of_string s1 = String.list_ascii_of_string s2 -> s1 = s2.
Proof.
  intros H. rewrite <- (String.string_of_list_ascii_of_string s1),
    <- (String.string_of_list_ascii_of_string s2). now rewrite H.
Qed.

Lemma append_suffix_inj (s1 s2 suffix : string) :
  s1 +:+ suffix = s2 +:+ suffix -> s1 = s2.
Proof.
  intros H. apply list_ascii_inj.
  apply (f_equal String.list_ascii_of_string) in H.
  rewrite !list_ascii_append in H. now apply app_inv_tail in H.
Qed.

Lemma warning_key_is_not_critical (s1 s2 : string) :
  s1 +:+ "_" +:+ "warning" <> s2 +:+ "_" +:+ "critical".
Proof.
  intros H. apply (f_equal String.list_ascii_of_string) in H.
  rewrite !list_ascii_append in H.
  apply (f_equal (@List.rev Ascii.ascii)) in H.
  rewrite !rev_app_distr in H. cbn in H. discriminate.
Qed.

(** The key of an alert determines its sensor and its level. *)
Lemma alert_key_inj (a : Alert) (sensor_name lvl : string) :
  level a = "warning" \/ level a = "critical" ->
  lvl = "warning" \/ lvl = "critical" ->
  alert_key a = sensor_name +:+ "_" +:+ lvl ->
  sensor a = sensor_name /\ level a = lvl.
Proof.
  unfold alert_key. intros [La|La] [Ll|Ll] H; rewrite La, Ll in *.
  - split; [|reflexivity].
    now apply (append_suffix_inj _ _ ("_" +:+ "warning")).
  - now apply warning_key_is_not_critical in H.
  - symmetry in H. now apply warning_key_is_not_critical in H.
  - split; [|reflexivity].
    now apply (append_suffix_inj _ _ ("_" +:+ "critical")).
Qed.

(** *** The history across one call *)

Lemma writes_only_nothing (st st' : State) :
  alert_history st' = alert_history st -> writes_only [] st st'.
Proof.
  intros E. unfold writes_only. rewrite E.
  split; [|split]; [auto | auto |].
  intros a Ha. apply elem_of_nil in Ha. contradiction.
Qed.

Lemma writes_only_accept (a : Alert) (new : list Alert) (st0 st st' : State) :
  level a = "warning" \/ level a = "critical" ->
  alert_history st0 = alert_history st ->
  writes_only new (accepted clock a st0) st' ->
  writes_only (a :: new) st st'.
Proof.
  intros La E0 (Hframe & Hmono & Hnew). split; [|split].
  - intros k Hk. cbn [map] in Hk. apply not_elem_of_cons in Hk as [Hne Hk].
    rewrite (Hframe k Hk). cbn [accepted alert_history].
    rewrite lookup_insert_ne by congruence. now rewrite E0.
  - intros k Hk. apply Hmono. cbn [accepted alert_history].
    rewrite lookup_insert. case_decide; [eauto | now rewrite E0].
  - intros b Hb. apply elem_of_cons in Hb as [->|Hb]; [|now apply Hnew].
    split; [|exact La].
    apply Hmono. cbn [accepted alert_history].
    rewrite lookup_insert_eq. eauto.
Qed.

Lemma loop_writes_only items : forall acc st,
  exists new,
    fst (check_thresholds_loop clock items acc st) = acc ++ new /\
    writes_only new st (snd (check_thresholds_loop clock items acc st)).
Proof.
  induction items as [|[sensor_name [v|]] rest IH]; intros acc st.
  - exists []. split; [cbn; now rewrite app_nil_r|].
    now apply writes_only_nothing.
  - destruct (thresholds !! sensor_name) as [thr|] eqn:Hthr.
    2: { rewrite (loop_skip_unknown _ _ _ _ _ Hthr). apply IH. }
    destruct (check_sensor_threshold_shape sensor_name v thr st)
      as [E|(a & E & _ & _ & La)].
    { rewrite (loop_quiet _ _ _ _ _ _ Hthr E). apply IH. }
    rewrite (loop_alert _ _ _ _ _ _ _ Hthr E).
    destruct (alert_history st !! alert_key a) as [last_sent|];
      [destruct (_ <? _)%Z|].
    + destruct (IH acc (tick (tick st))) as (new & Hout & Hw).
      exists new. split; [exact Hout|]. exact Hw.
    + destruct (IH (acc ++ [a]) (accepted clock a (tick (tick st))))
        as (new & Hout & Hw).
      exists (a :: new). split; [now rewrite Hout, <- app_assoc|].
      now apply (writes_only_accept a new (tick (tick st))).
    + destruct (IH (acc ++ [a]) (accepted clock a (tick st))) as (new & Hout & Hw).
      exists (a :: new). split; [now rewrite Hout, <- app_assoc|].
      now apply (writes_only_accept a new (tick st)).
  - rewrite loop_skip_none. apply IH.
Qed.

(** C10. A call of [check_thresholds] writes the alert history only under
    the keys of the alerts it accepts: every other key keeps its entry
    (stated for any key string, and for any sensor and level no accepted
    alert has), so the instant stored for a suppressed alert is the one
    of its last acceptance; each accepted alert has an entry afterwards;
    and the cooldown test itself never writes. *)
Theorem check_thresholds_frame (sensors : list (string * option Q))
    (st : State) :
  let alerts := fst (check_thresholds clock sensors st) in
  let st' := snd (check_thresholds clock sensors st) in
  (forall k, k ∉ map alert_key alerts ->
     alert_history st' !! k = alert_history st !! k) /\
  (forall sensor_name lvl,
     lvl = "warning" \/ lvl = "critical" ->
     (forall a, a ∈ alerts -> ~ (sensor a = sensor_name /\ level a = lvl)) ->
     alert_history st' !! (sensor_name +:+ "_" +:+ lvl)
     = alert_history st !! (sensor_name +:+ "_" +:+ lvl)) /\
  (forall a, a ∈ alerts -> is_Some (alert_history st' !! alert_key a)) /\
  (forall a s, alert_history (snd (_is_in_cooldown clock a s))
               = alert_history s).
Proof.
  cbv zeta. unfold check_thresholds.
  destruct (loop_writes_only sensors [] st) as (new & Hout & Hframe & _ & Hnew).
  rewrite Hout. cbn [app]. repeat split.
  - exact Hframe.
  - intros sensor_name lvl Hl Hnone. apply Hframe.
    intros Hin. apply list_elem_of_fmap in Hin as (a & Hk & Ha).
    apply (Hnone a Ha). apply alert_key_inj; auto. now apply Hnew.
  - intros a Ha. now apply Hnew.
  - intros a s. unfold _is_in_cooldown.
    destruct (alert_history s !! alert_key a); [|reflexivity].
    cbn. now destruct (_ <? _)%Z.
Qed.

End CooldownGate.

(** ** The trend estimator *)

Section TrendEstimator.

Import TrendAnalyzer.

Lemma Qabs_cases (x : Q) :
  (0 <= x /\ Qabs x == x)%Q \/ (x <= 0 /\ Qabs x == - x)%Q.
Proof.
  destruct (Qlt_le_dec x 0) as [H|H].
  - right. split; [lra|]. apply Qabs_neg. lra.
  - left. split; [lra|]. now apply Qabs_pos.
Qed.

(** *** Rounding *)


Lemma round_half_even_bounds (y : Q) (lo hi : Z) :
  (inject_Z lo <= y)%Q -> (y <= inject_Z hi)%Q ->
  (lo <= round_half_even y <= hi)%Z.
Proof.
  intros L U.
  pose proof (Qfloor_le y) as Lf. pose proof (Qlt_floor y) as Uf.
  assert (Hlo : (lo <= Qfloor y)%Z).
  { apply Z.lt_succ_r. rewrite <- Z.add_1_r, Zlt_Qlt. lra. }
  assert (Hhi : (Qfloor y <= hi)%Z) by (rewrite Zle_Qle; lra).
  assert (Hup : (inject_Z (Qfloor y) < y)%Q -> (Qfloor y + 1 <= hi)%Z).
  { intros S. apply Z.lt_succ_r. rewrite <- Z.add_1_r.
    apply Z.add_lt_mono_r. rewrite Zlt_Qlt. lra. }
  unfold round_half_even.
  destruct (Qcompare_spec (y - inject_Z (Qfloor y)) (1 # 2)) as [E|E|E].
  - destruct (Z.even (Qfloor y)); [lia|].
    split; [lia|]. apply Hup. lra.
  - lia.
  - split; [lia|]. apply Hup. lra.
Qed.

(** [round(x, 1)] of a number in [0, limit], limit a whole number, stays
    in [0, limit]. *)
Lemma round_one_bounds (x : Q) (limit : Z) :
  (0 <= x)%Q -> (x <= inject_Z limit)%Q ->
  (0 <= round x 1)%Q /\ (round x 1 <= inject_Z limit)%Q.
Proof.
  intros L U. unfold round.
  change (inject_Z (10 ^ Z.of_nat 1)) with 10%Q.
  destruct (round_half_even_bounds (x * 10) 0 (limit * 10)) as [Hlo Hhi].
  - change (inject_Z 0) with 0%Q. lra.
  - rewrite inject_Z_mult. change (inject_Z 10) with 10%Q. lra.
  - rewrite Zle_Qle in Hlo, Hhi. rewrite inject_Z_mult in Hhi.
    change (inject_Z 10) with 10%Q in Hhi. change (inject_Z 0) with 0%Q in Hlo.
    set (r := inject_Z (round_half_even (x * 10))) in *.
    unfold Qdiv. change (/ 10)%Q with (1 # 10)%Q. split; lra.
Qed.




(** *** Double precision *)


Lemma round_half_even_nonneg (y : Q) :
  (0 <= y)%Q -> (0 <= round_half_even y)%Z.
Proof.
  intros H. pose proof (Qlt_floor y) as U.
  assert (Hfloor : (0 <= Qfloor y)%Z).
  { apply Z.lt_succ_r. rewrite <- Z.add_1_r, Zlt_Qlt.
    change (inject_Z 0) with 0%Q. lra. }
  unfold round_half_even.
  destruct (y - inject_Z (Qfloor y) ?= 1 # 2)%Q;
    [destruct (Z.even (Qfloor y))|..]; lia.
Qed.

Lemma binary64_nonneg (x : Q) : (0 <= x)%Q -> (0 <= Float.binary64 x)%Q.
Proof.
  intros H. unfold Float.binary64.
  destruct (Qeq_bool x 0); [lra|].
  set (e := Z.max _ _).
  assert (P : (0 < 2 ^ e)%Q) by (apply Qpower_0_lt; lra).
  rewrite Qred_correct. apply Qmult_le_0_compat; [|lra].
  change 0%Q with (inject_Z 0). rewrite <- Zle_Qle.
  apply round_half_even_nonneg.
  apply Qle_shift_div_l; [exact P | lra].
Qed.

(** A distance that is not negative, divided by a positive speed. *)
Lemma div_nonneg (a b : Q) :
  (0 <= a)%Q -> (0 < b)%Q -> (0 <= Float.div (Float.binary64 a) b)%Q.
Proof.
  intros Ha Hb. apply binary64_nonneg.
  pose proof (binary64_nonneg a Ha).
  apply Qle_shift_div_l; [exact Hb | lra].
Qed.

(** *** The direction *)





(** *** The fitted slope *)


(** The sums and the products of the code are those of the vocabulary. *)
Lemma sum_from_is_accumulate (xs : list Q) : forall acc,
  fold_left Float.add xs acc = accumulate acc xs.
Proof.
  induction xs as [|x xs IH]; intros acc; [reflexivity|].
  cbn [fold_left accumulate]. apply IH.
Qed.

Lemma sum_is_accumulate (xs : list Q) : Float.sum xs = accumulate 0 xs.
Proof. apply sum_from_is_accumulate. Qed.

Lemma zip_products (xs ys : list Q) :
  map (fun hv => Float.mul (fst hv) (snd hv)) (zip xs ys) = products xs ys.
Proof.
  revert ys. induction xs as [|x xs IH]; intros [|y ys]; try reflexivity.
  cbn [zip map products fst snd]. now rewrite IH.
Qed.

Lemma squares_are_products (xs : list Q) :
  map (fun h => Float.mul h h) xs = products xs xs.
Proof.
  induction xs as [|x xs IH]; [reflexivity|].
  cbn [map products]. now rewrite IH.
Qed.

(** With two values or more and a first timestamp, the slope returned is
    the guarded quotient in double precision. *)
Lemma calculate_trend_unfold values first_time later :
  (2 <= length values)%nat ->
  let hours := measured_hours (first_time :: later) in
  let n := inject_Z (Z.of_nat (length values)) in
  let den :=
    Float.binary64 (Float.binary64 (n * accumulate 0 (products hours hours))
                    - Float.binary64 (accumulate 0 hours * accumulate 0 hours))
  in
  let num :=
    Float.binary64 (Float.binary64 (n * accumulate 0 (products hours values))
                    - Float.binary64 (accumulate 0 hours * accumulate 0 values))
  in
  let slope := if (den =? 0)%Q then 0%Q else Float.binary64 (num / den) in
  _calculate_trend values (first_time :: later)
  = Ok (direction_of slope, slope).
Proof.
  intros Hlen. cbv zeta. unfold _calculate_trend.
  destruct (length values <? 2)%nat eqn:L;
    [apply Nat.ltb_lt in L; lia|].
  cbn [mbind result_bind].
  change (map (fun t => Float.div (total_seconds (t - first_time)) 3600)
              (first_time :: later))
    with (measured_hours (first_time :: later)).
  rewrite !sum_is_accumulate, zip_products, squares_are_products.
  unfold Float.sub, Float.mul.
  destruct (_ =? 0)%Q eqn:E; [reflexivity|].
  unfold Float.truediv. rewrite E. reflexivity.
Qed.








(** *** Volatility *)

Lemma count_is_not_zero (n : nat) :
  (1 <= n)%nat -> (inject_Z (Z.of_nat n) =? 0)%Q = false.
Proof.
  intros H. apply Qeqb_false. unfold Qeq. cbn. lia.
Qed.

Lemma count_minus_one_is_not_zero (n : nat) :
  (2 <= n)%nat -> (inject_Z (Z.of_nat n) - 1 =? 0)%Q = false.
Proof.
  intros H. apply Qeqb_false. unfold Qeq. cbn. lia.
Qed.

Lemma mean_defined (data : list Q) :
  (1 <= length data)%nat ->
  mean data = Ok (sum data / inject_Z (Z.of_nat (length data)))%Q.
Proof.
  intros H. unfold mean, truediv.
  destruct (length data <? 1)%nat eqn:L; [apply Nat.ltb_lt in L; lia|].
  now rewrite count_is_not_zero.
Qed.

Lemma stdev_defined (sqrt : Q -> Q) (data : list Q) :
  (2 <= length data)%nat -> exists sd, stdev sqrt data = Ok sd.
Proof.
  intros H. unfold stdev.
  destruct (length data <? 2)%nat eqn:L; [apply Nat.ltb_lt in L; lia|].
  rewrite mean_defined by lia. cbn [mbind result_bind].
  unfold truediv. rewrite count_minus_one_is_not_zero by lia.
  eexists. reflexivity.
Qed.

(** The volatility of three points or more, from the mean [m] and the
    standard deviation [sd]. *)
Lemma calculate_volatility_unfold (sqrt : Q -> Q) (values : list Q) m sd :
  (3 <= length values)%nat ->
  mean values = Ok m -> stdev sqrt values = Ok sd ->
  let cv := if (m =? 0)%Q then 0%Q else (sd / m * 100)%Q in
  _calculate_volatility sqrt values
  = Ok (if (cv <? 2)%Q then "stable"
        else if (cv <? 5)%Q then "moderate" else "volatile").
Proof.
  intros H Hm Hsd. cbv zeta. unfold _calculate_volatility.
  destruct (length values <? 3)%nat eqn:L; [apply Nat.ltb_lt in L; lia|].
  rewrite Hsd, Hm. cbn [mbind result_bind]. unfold truediv.
  destruct (m =? 0)%Q; cbn [negb mbind result_bind].
  - reflexivity.
  - destruct (_ <? 2)%Q; [reflexivity|]. now destruct (_ <? 5)%Q.
Qed.


(** ** The threshold-crossing predictor *)











End TrendEstimator.

(** ** The correlation engine *)

Section CorrelationEngine.

Import TrendAnalyzer ParameterAnalyzer.

Lemma biofilter_pattern_matches readings trends :
  biofilter_pattern readings trends ->
  and_then (lt (reading readings "ph" 7.0) (Some 6.5%Q))
   (and_then (Ok (get_is (direction trends "ph") "falling"))
   (and_then (lt (reading readings "do" 7.5) (Some 7%Q))
             (Ok (get_is (direction trends "do") "falling"))))
  = Ok true.
Proof.
  intros ((ph & -> & Hph) & -> & (oxygen & -> & Hdo) & ->).
  cbn. rewrite (proj2 (Qltb_true _ _)) by exact Hph.
  now rewrite (proj2 (Qltb_true _ _)) by exact Hdo.
Qed.

(** The biofilter cascade when both projections are numbers (or missing,
    and then 999): the engine returns the root cause, the four steps in
    order, and the smaller projection as the urgency figure of the
    explanation and of the predicted outcome. *)
Lemma biofilter_cascade_with_projections readings trends ph_hours do_hours :
  biofilter_pattern readings trends ->
  hours_left trends "ph" 999 = Some ph_hours ->
  hours_left trends "do" 999 = Some do_hours ->
  let critical_hours :=
    if (do_hours <? ph_hours)%Q then do_hours else ph_hours in
  exists a,
    analyze_correlations_advanced readings trends = Ok a /\
    root_cause a = Some "Biofilter collapse cascade"%string /\
    system_state a = "critical_cascade"%string /\
    steps a = map (fun s => (fst s, [Lit (snd s)])) biofilter_steps /\
    fields (explanation a) = [(1%nat, critical_hours)] /\
    fields (predicted_outcome a) = [(1%nat, critical_hours)].
Proof.
  intros Hpat Hph Hdo. cbv zeta. unfold analyze_correlations_advanced.
  fold (reading readings "ph" 7.0) (reading readings "do" 7.5)
       (reading readings "temperature" 22.0)
       (direction trends "ph") (direction trends "do")
       (direction trends "temperature")
       (hours_left trends "ph" 999) (hours_left trends "do" 999).
  rewrite (biofilter_pattern_matches _ _ Hpat). cbn [mbind result_bind].
  rewrite Hph, Hdo. cbn [min lt num mbind result_bind].
  destruct (do_hours <? ph_hours)%Q;
    (eexists; split; [reflexivity|]; repeat split).
Qed.

(** The biofilter cascade when a projection is [None]: the comparison
    inside [min] raises. *)
Lemma biofilter_cascade_without_projection readings trends :
  biofilter_pattern readings trends ->
  hours_left trends "ph" 999 = None \/ hours_left trends "do" 999 = None ->
  analyze_correlations_advanced readings trends = Raise TypeError.
Proof.
  intros Hpat Hnone. unfold analyze_correlations_advanced.
  fold (reading readings "ph" 7.0) (reading readings "do" 7.5)
       (reading readings "temperature" 22.0)
       (direction trends "ph") (direction trends "do")
       (direction trends "temperature")
       (hours_left trends "ph" 999) (hours_left trends "do" 999).
  rewrite (biofilter_pattern_matches _ _ Hpat). cbn [mbind result_bind].
  destruct Hnone as [-> | ->].
  - cbn [min lt num mbind result_bind].
    now destruct (hours_left trends "do" 999).
  - reflexivity.
Qed.

(** The optimal bands of the predictive threshold sets lie inside the
    bands that the fourth pattern tests. *)
Lemma optimal_bands_are_covered parameter thresh (v : Q) :
  TrendAnalyzer.thresholds !! parameter = Some thresh ->
  (optimal_low thresh <= v)%Q /\ (v <= optimal_high thresh)%Q ->
  (parameter = "ph"%string -> (6.5 <= v)%Q /\ (v <= 7.5)%Q) /\
  (parameter = "temperature"%string -> (18 <= v)%Q /\ (v <= 24)%Q) /\
  (parameter = "do"%string -> (6 <= v)%Q).
Proof.
  unfold TrendAnalyzer.thresholds. intros H [Hlo Hhi].
  repeat (rewrite list_to_map_cons, lookup_insert in H;
          destruct (decide (_ = parameter)) as [<-|_];
          [injection H as <-; cbn in Hlo, Hhi;
           repeat split; intros; try discriminate; lra|]).
  rewrite list_to_map_nil, lookup_empty in H. discriminate.
Qed.

(** C8. With ph in [6.5, 7.5], temperature in [18, 24] and dissolved
    oxygen at 6 or more (the bands of the pattern, which contain the
    optimal bands of the three predictive threshold sets), and the three
    directions stable, the engine returns the state optimal_stable with no
    intervention and no root cause: no earlier pattern fires. *)
Theorem optimal_and_stable readings trends (ph temp oxygen : Q) :
  reading readings "ph" 7.0 = Some ph ->
  reading readings "temperature" 22.0 = Some temp ->
  reading readings "do" 7.5 = Some oxygen ->
  (6.5 <= ph)%Q /\ (ph <= 7.5)%Q ->
  (18 <= temp)%Q /\ (temp <= 24)%Q ->
  (6 <= oxygen)%Q ->
  direction trends "ph" = Some "stable"%string ->
  direction trends "temperature" = Some "stable"%string ->
  direction trends "do" = Some "stable"%string ->
  exists a,
    analyze_correlations_advanced readings trends = Ok a /\
    system_state a = "optimal_stable"%string /\
    intervention_priority a = [] /\
    root_cause a = None.
Proof.
  intros Rph Rtemp Rdo [P1 P2] [T1 T2] O1 Dph Dtemp Ddo.
  unfold analyze_correlations_advanced.
  fold (reading readings "ph" 7.0) (reading readings "do" 7.5)
       (reading readings "temperature" 22.0)
       (direction trends "ph") (direction trends "do")
       (direction trends "temperature").
  rewrite Rph, Rtemp, Rdo, Dph, Dtemp, Ddo.
  cbn [and_then lt gt le ge num mbind result_bind get_is String.eqb
       Ascii.eqb Bool.eqb andb].
  rewrite (proj2 (Qltb_false ph 6.5)) by exact P1.
  rewrite (proj2 (Qltb_false 25 temp)) by lra.
  cbn [andb].
  rewrite (proj2 (Qleb_true 6.5 ph)) by exact P1.
  rewrite (proj2 (Qleb_true ph 7.5)) by exact P2.
  rewrite (proj2 (Qleb_true 18 temp)) by exact T1.
  rewrite (proj2 (Qleb_true temp 24)) by exact T2.
  rewrite (proj2 (Qleb_true 6 oxygen)) by exact O1.
  eexists. split; [reflexivity|]. repeat split.
Qed.

End CorrelationEngine.

(** ** Sample runs *)

Section Samples.

(** The evaluator on sample values of the ph sensor. *)
Example check_sensor_threshold_samples :
  fst (AlertManager._check_sensor_threshold sample_clock "ph" 4.0
         ph_thresholds idle) = Some (ph_alert 0) /\
  fst (AlertManager._check_sensor_threshold sample_clock "ph" 6.5
         ph_thresholds idle) = None /\
  AlertManager.level
    <$> fst (AlertManager._check_sensor_threshold sample_clock "ph" 7.8
               ph_thresholds idle) = Some "warning"%string /\
  AlertManager.level
    <$> fst (AlertManager._check_sensor_threshold sample_clock "ph" 8.1
               ph_thresholds idle) = Some "critical"%string /\
  fst (AlertManager._check_sensor_threshold sample_clock
         "water_level_percent" 99
         (default ∅ (AlertManager.thresholds !! "water_level_percent"))
         idle) = None.
Proof. vm_compute. repeat split. Qed.

(** A witness of C9: ph exactly at critical_low 5.0 raises the low
    warning. *)
Lemma boundary_values_witness :
  AlertManager._check_sensor_threshold sample_clock "ph" 5.0
    ph_thresholds idle
  = raised sample_clock idle "warning" "ph" 5.0 5.5 "WARNING: " " is low (".
Proof.
  refine (proj1 (boundary_values_do_not_match sample_clock "ph"
                   ph_thresholds 5.0 5.5 7.5 8.0 5.0 idle
                   _ _ _ _ _ _ _) _);
    vm_compute; reflexivity.
Defined.

(** A witness of C2: the critical ph alert issued three times, ten
    minutes of clock between two readings. *)
Lemma cooldown_gate_witness :
  let issue :=
    AlertManager.check_thresholds sample_clock [("ph", Some 4.0%Q)] in
  let first := issue idle in
  let second := issue (snd first) in
  let third := issue (snd second) in
  fst first = [ph_alert 0] /\ fst second = [] /\
  fst third = [restamp (sample_clock 4) (ph_alert 0)] /\
  AlertManager.alert_history (snd second) !! "ph_critical"
  = Some (sample_clock 1) /\
  AlertManager.alert_history (snd third) !! "ph_critical"
  = Some (sample_clock 6).
Proof.
  refine (proj2 (proj2 (proj2
            (cooldown_gate sample_clock "ph" 4.0 ph_thresholds (ph_alert 0)
               idle _ _))) _ _ _);
    vm_compute; first [reflexivity | discriminate].
Defined.



(** The projections are quotients of doubles.  ph 7.2 falling by
    0.10000000000000002 per hour: the hours to critical_low 6.0 come out
    as 12.0, which is not below 12, and the level is warning with 7.0
    hours to warning_low 6.5. *)
Example assess_concern_samples :
  let current := Float.binary64 7.2 in
  let rate := (- Float.binary64 0.10000000000000002)%Q in
  (hours_down current 6.0 rate == 12)%Q /\
  (hours_down current 6.5 rate == 7)%Q /\
  concern_is
    (TrendAnalyzer._assess_concern "ph" current "falling" rate
       (TrendAnalyzer._predict_future "ph" current rate 24))
    "warning" (Some 7.0%Q).
Proof.
  cbv zeta. split; [vm_compute; reflexivity|].
  split; [vm_compute; reflexivity|].
  eexists. vm_compute. repeat split.
Qed.



(** The rounding errors can reach the classification: two hundred
    readings that all carry the value 22.1, all but the first at the same
    instant, get the rate 0.13062729290203176 and are rising. *)
Example crowded_series_slope :
  Forall (fun r => TrendAnalyzer.value r = Float.binary64 22.1)
         crowded_readings /\
  TrendAnalyzer._calculate_trend
    (map TrendAnalyzer.value crowded_readings)
    (map TrendAnalyzer.timestamp crowded_readings)
  = Ok ("rising"%string, 4706344221104055 # 36028797018963968).
Proof.
  split; [|vm_compute; reflexivity].
  apply Forall_cons. split; [reflexivity|].
  apply Forall_replicate. reflexivity.
Qed.

(** A slope at the edge of a band: a ph read as 6.0, 5.95, 5.9, 5.85 and
    5.8 gets the rate -0.050000000000001134 and is falling. *)
Example calculate_trend_samples :
  TrendAnalyzer._calculate_trend
    (map TrendAnalyzer.value sinking_readings)
    (map TrendAnalyzer.timestamp sinking_readings)
  = Ok ("falling"%string, - (7205759403792957 # 144115188075855872))%Q.
Proof. vm_compute. reflexivity. Qed.

(** A witness of C8: the scenario ph 7.0, temperature 21, dissolved oxygen
    7.5, all stable. *)
Lemma optimal_and_stable_witness :
  exists a,
    ParameterAnalyzer.analyze_correlations_advanced calm_readings calm_trends
    = Ok a /\
    ParameterAnalyzer.system_state a = "optimal_stable"%string /\
    ParameterAnalyzer.intervention_priority a = [] /\
    ParameterAnalyzer.root_cause a = None.
Proof.
  refine (optimal_and_stable calm_readings calm_trends 7.0 21 7.5
            _ _ _ _ _ _ _ _ _);
    try split; vm_compute; first [reflexivity | discriminate].
Defined.


(** The scenario of the specification: the smaller of 8 and 10 hours is
    the urgency figure. *)
Example biofilter_scenario :
  exists a,
    ParameterAnalyzer.analyze_correlations_advanced
      scenario_readings scenario_trends = Ok a /\
    ParameterAnalyzer.root_cause a = Some "Biofilter collapse cascade"%string /\
    fields (ParameterAnalyzer.explanation a) = [(1%nat, 8%Q)] /\
    fields (ParameterAnalyzer.predicted_outcome a) = [(1%nat, 8%Q)].
Proof. eexists. vm_compute. repeat split. Qed.

(** The trend analysis of the collapsing day produces trends with the
    directions, concern levels and times to threshold of
    [collapsing_trends], and the engine raises on them as well. *)
Example collapsing_day_is_reachable :
  let analyze parameter :=
    TrendAnalyzer.analyze_parameter_trend sqrt_micro collapsing_history
      parameter 24 in
  let seen (r : result TrendAnalyzer.TrendDict) :=
    match r with
    | Ok d => Some (TrendAnalyzer.td_trend d,
                    TrendAnalyzer.td_concern_level d,
                    TrendAnalyzer.td_time_to_threshold d)
    | Raise _ => None
    end in
  seen (analyze "ph")
  = Some (Some "falling", Some "none", Some None)%string /\
  seen (analyze "do")
  = Some (Some "falling", Some "critical", Some (Some 7.5%Q))%string /\
  match analyze "ph", analyze "temperature", analyze "do" with
  | Ok ph_trend, Ok temp_trend, Ok do_trend =>
      ParameterAnalyzer.analyze_correlations_advanced collapsing_readings
        (list_to_map [("ph", ph_trend); ("temperature", temp_trend);
                      ("do", do_trend)])
      = Raise TypeError
  | _, _, _ => False
  end.
Proof. vm_compute. repeat split. Qed.

(** C1, at the input on which the code fails.  ph is 5.9 and falling,
    dissolved oxygen is 5.5 and falling, so the biofilter pattern holds;
    the ph trend carries the time to threshold [None] that the trend
    analysis gives a value already below critical_low.  The fallback 999
    replaces a missing key only, [min] compares [None] with 7.5, and the
    call raises [TypeError] instead of returning the cascade. *)
Theorem biofilter_cascade_raises_without_projection :
  biofilter_pattern collapsing_readings collapsing_trends /\
  hours_left collapsing_trends "ph" 999 = None /\
  hours_left collapsing_trends "do" 999 = Some 7.5%Q /\
  ParameterAnalyzer.analyze_correlations_advanced
    collapsing_readings collapsing_trends = Raise TypeError.
Proof.
  split; [|split; [|split]]; [|vm_compute; reflexivity ..].
  split; [|split; [|split]].
  - exists 5.9%Q. split; vm_compute; reflexivity.
  - vm_compute. reflexivity.
  - exists 5.5%Q. split; vm_compute; reflexivity.
  - vm_compute. reflexivity.
Qed.

End Samples.

(* ===================================================================== *)
(** * Further properties of the three classes                             *)
(* ===================================================================== *)

(** ** The single-parameter analyses *)

Section ParameterAnalyses.

Import ParameterAnalyzer.

(** Splits the tests of a chain of comparisons and settles each case by
    linear arithmetic. *)
Ltac by_cases :=
  repeat match goal with
  | |- context [(?x <? ?y)%Q] => destruct (x <? y)%Q eqn:?
  | |- context [(?x <=? ?y)%Q] => destruct (x <=? y)%Q eqn:?
  end;
  qprop; cbn;
  repeat split; intros;
  repeat match goal with
  | H : _ /\ _ |- _ => destruct H
  | H : _ \/ _ |- _ => destruct H
  end;
  try discriminate; try reflexivity; try lra; try congruence;
  try (left; lra); try (right; lra);
  try (left; split; lra); try (right; split; lra).

(** X1. [analyze_ph] reports good exactly on [6.5, 7.5], warning exactly
    on [6.0, 6.5) and (7.5, 8.5), critical exactly below 6.0 and from 8.5
    on; the urgency is immediate exactly when critical and soon exactly
    when warning; problems are listed exactly when the status is not good,
    and some action is always given. *)
Theorem analyze_ph_status (ph : Q) (system_type : string) :
  let a := analyze_ph ph system_type in
  (pa_status a = "good" <-> (6.5 <= ph)%Q /\ (ph <= 7.5)%Q) /\
  (pa_status a = "warning" <->
     ((6.0 <= ph)%Q /\ (ph < 6.5)%Q) \/ ((7.5 < ph)%Q /\ (ph < 8.5)%Q)) /\
  (pa_status a = "critical" <-> (ph < 6.0)%Q \/ (8.5 <= ph)%Q) /\
  (pa_urgency a = "immediate" <-> pa_status a = "critical") /\
  (pa_urgency a = "soon" <-> pa_status a = "warning") /\
  (pa_problems a = [] <-> pa_status a = "good") /\
  pa_actions a <> [] /\
  pa_value a = ph.
Proof. cbv zeta. unfold analyze_ph. by_cases. Qed.

(** X2. [analyze_temperature] reports good exactly on [18, 24], warning
    exactly on [15, 18) and (24, 28), critical exactly below 15 and from
    28 on.  Only the hot critical case is immediate: the cold critical
    case is soon, like the warm warning, and the cool warning is normal. *)
Theorem analyze_temperature_status (temp_c : Q) (species : string) :
  let a := analyze_temperature temp_c species in
  (pa_status a = "good" <-> (18 <= temp_c)%Q /\ (temp_c <= 24)%Q) /\
  (pa_status a = "warning" <->
     ((15 <= temp_c)%Q /\ (temp_c < 18)%Q) \/
     ((24 < temp_c)%Q /\ (temp_c < 28)%Q)) /\
  (pa_status a = "critical" <-> (temp_c < 15)%Q \/ (28 <= temp_c)%Q) /\
  (pa_urgency a = "immediate" <-> (28 <= temp_c)%Q) /\
  (pa_urgency a = "soon" <->
     (temp_c < 15)%Q \/ ((24 < temp_c)%Q /\ (temp_c < 28)%Q)) /\
  (pa_problems a = [] <-> pa_status a = "good") /\
  pa_actions a <> [] /\
  pa_value a = temp_c.
Proof. cbv zeta. unfold analyze_temperature. by_cases. Qed.

(** X3. [analyze_do] reports critical exactly below 4, warning exactly on
    [4, 6) and good from 6 on: no value is too high for it.  The urgency
    is immediate exactly when critical and soon exactly when warning. *)
Theorem analyze_do_status (do_value temp_c : Q) :
  let a := analyze_do do_value temp_c in
  (pa_status a = "good" <-> (6 <= do_value)%Q) /\
  (pa_status a = "warning" <-> (4 <= do_value)%Q /\ (do_value < 6)%Q) /\
  (pa_status a = "critical" <-> (do_value < 4)%Q) /\
  (pa_urgency a = "immediate" <-> pa_status a = "critical") /\
  (pa_urgency a = "soon" <-> pa_status a = "warning") /\
  (pa_problems a = [] <-> pa_status a = "good") /\
  pa_actions a <> [] /\
  pa_value a = do_value.
Proof. cbv zeta. unfold analyze_do. by_cases. Qed.

End ParameterAnalyses.

(** ** The holistic analysis *)

Section HolisticAnalysis.

Import ParameterAnalyzer.

(** Takes the next test of the chain both ways. *)
Ltac branch :=
  match goal with
  | |- context [if ?b then _ else _] =>
      destruct b eqn:?;
      cbn [and_then lt gt le ge num fmt_f mbind result_bind]
  end.

(** Settles the statements about one outcome by linear arithmetic. *)
Ltac settle :=
  qprop; cbn;
  repeat split; intros;
  repeat match goal with
  | H : _ /\ _ |- _ => destruct H
  | H : _ \/ _ |- _ => destruct H
  end;
  try discriminate; try reflexivity; try lra; try congruence;
  try (intros [? ?]; lra);
  try (left; reflexivity); try (right; reflexivity).

(** X4. [analyze_system_holistic] on numeric readings (a missing key
    counts as ph 7.0, temperature 22.0, dissolved oxygen 7.5) returns
    normally.  The overall status is critical exactly when ph < 6.5 and
    do < 6; warning exactly when that fails and temperature > 24 with
    do < 7; excellent exactly when ph is in [6.5, 7.5], do >= 6 and
    temperature in [18, 24].  A low ph with do >= 6 (and no temperature
    pattern) names a root cause but leaves the status good; a ph above
    7.5 without the temperature pattern is reported good, with no root
    cause and no action. *)
Theorem holistic_status readings (ph temp oxygen : Q) :
  reading readings "ph" 7.0 = Some ph ->
  reading readings "temperature" 22.0 = Some temp ->
  reading readings "do" 7.5 = Some oxygen ->
  exists h,
    analyze_system_holistic readings = Ok h /\
    (h_overall_status h = "critical"%string <->
       (ph < 6.5)%Q /\ (oxygen < 6)%Q) /\
    (h_overall_status h = "warning"%string <->
       ~ ((ph < 6.5)%Q /\ (oxygen < 6)%Q) /\
       (24 < temp)%Q /\ (oxygen < 7)%Q) /\
    (h_overall_status h = "excellent"%string <->
       ((6.5 <= ph)%Q /\ (ph <= 7.5)%Q) /\ (6 <= oxygen)%Q /\
       ((18 <= temp)%Q /\ (temp <= 24)%Q)) /\
    ((ph < 6.5)%Q -> (6 <= oxygen)%Q -> ~ ((24 < temp)%Q /\ (oxygen < 7)%Q) ->
       h_overall_status h = "good"%string /\
       h_root_cause h = Some "pH declining (but caught early)"%string) /\
    ((7.5 < ph)%Q -> ~ ((24 < temp)%Q /\ (oxygen < 7)%Q) ->
       h_overall_status h = "good"%string /\ h_root_cause h = None /\
       h_priority_actions h = []) /\
    (h_root_cause h = None <->
       h_overall_status h = "excellent"%string \/ h_priority_actions h = []).
Proof.
  intros Rph Rtemp Rdo. unfold analyze_system_holistic.
  fold (reading readings "ph" 7.0) (reading readings "do" 7.5)
       (reading readings "temperature" 22.0).
  rewrite Rph, Rtemp, Rdo.
  cbn [and_then lt gt le ge num fmt_f mbind result_bind].
  repeat branch; (eexists; split; [reflexivity|]); settle.
Qed.

End HolisticAnalysis.

(** ** The correlation engine, pattern by pattern *)

Section CorrelationPatterns.

Import TrendAnalyzer ParameterAnalyzer.

Lemma get_is_true (field : option string) (s : string) :
  get_is field s = true <-> field = Some s.
Proof.
  unfold get_is. destruct field as [v|]; [|split; discriminate].
  rewrite String.eqb_eq. split; [now intros -> | now intros [= ->]].
Qed.

Lemma get_is_false (field : option string) (s : string) :
  get_is field s = false <-> field <> Some s.
Proof.
  rewrite <- get_is_true. now destruct (get_is field s).
Qed.

(** The test of the first pattern, when it fails. *)
Lemma biofilter_pattern_fails readings trends ph temp oxygen :
  numeric readings ph temp oxygen ->
  ~ biofilter_pattern readings trends ->
  and_then (lt (reading readings "ph" 7.0) (Some 6.5%Q))
   (and_then (Ok (get_is (direction trends "ph") "falling"))
   (and_then (lt (reading readings "do" 7.5) (Some 7%Q))
             (Ok (get_is (direction trends "do") "falling"))))
  = Ok false.
Proof.
  intros (Rph & _ & Rdo) N. rewrite Rph, Rdo. cbn.
  destruct (ph <? 6.5)%Q eqn:E1; [|reflexivity].
  destruct (get_is (direction trends "ph") "falling") eqn:E2; [|reflexivity].
  destruct (oxygen <? 7)%Q eqn:E3; [|reflexivity].
  destruct (get_is (direction trends "do") "falling") eqn:E4; [|reflexivity].
  exfalso. apply N. unfold biofilter_pattern. rewrite Rph, Rdo.
  apply get_is_true in E2, E4. qprop. eauto 10.
Qed.

(** The test of the second pattern. *)
Lemma temperature_pattern_matches readings trends :
  temperature_pattern readings trends ->
  and_then (gt (reading readings "temperature" 22.0) (Some 25%Q))
   (and_then (Ok (get_is (direction trends "temperature") "rising"))
   (and_then (lt (reading readings "do" 7.5) (Some 7%Q))
             (Ok (get_is (direction trends "do") "falling"))))
  = Ok true.
Proof.
  intros ((temp & -> & Htemp) & -> & (oxygen & -> & Hdo) & ->).
  cbn. rewrite (proj2 (Qltb_true _ _)) by exact Htemp.
  now rewrite (proj2 (Qltb_true _ _)) by exact Hdo.
Qed.

Lemma temperature_pattern_fails readings trends ph temp oxygen :
  numeric readings ph temp oxygen ->
  ~ temperature_pattern readings trends ->
  and_then (gt (reading readings "temperature" 22.0) (Some 25%Q))
   (and_then (Ok (get_is (direction trends "temperature") "rising"))
   (and_then (lt (reading readings "do" 7.5) (Some 7%Q))
             (Ok (get_is (direction trends "do") "falling"))))
  = Ok false.
Proof.
  intros (_ & Rtemp & Rdo) N. rewrite Rtemp, Rdo. cbn.
  destruct (25 <? temp)%Q eqn:E1; [|reflexivity].
  destruct (get_is (direction trends "temperature") "rising") eqn:E2;
    [|reflexivity].
  destruct (oxygen <? 7)%Q eqn:E3; [|reflexivity].
  destruct (get_is (direction trends "do") "falling") eqn:E4; [|reflexivity].
  exfalso. apply N. unfold temperature_pattern. rewrite Rtemp, Rdo.
  apply get_is_true in E2, E4. qprop. eauto 10.
Qed.

(** The test of the third pattern. *)
Lemma predictive_pattern_matches trends :
  predictive_pattern trends ->
  get_is (direction trends "ph") "falling"
  && (get_is (concern trends "ph") "warning"
      || get_is (concern trends "ph") "critical") = true.
Proof.
  intros [-> [-> | ->]]; reflexivity.
Qed.

Lemma predictive_pattern_fails trends :
  ~ predictive_pattern trends ->
  get_is (direction trends "ph") "falling"
  && (get_is (concern trends "ph") "warning"
      || get_is (concern trends "ph") "critical") = false.
Proof.
  intros N.
  destruct (get_is (direction trends "ph") "falling") eqn:E1; [|reflexivity].
  destruct (get_is (concern trends "ph") "warning") eqn:E2;
    destruct (get_is (concern trends "ph") "critical") eqn:E3;
    try reflexivity; exfalso; apply N;
    apply get_is_true in E1; split; auto;
    [left | left | right]; now apply get_is_true.
Qed.

(** The test of the fourth pattern, when it fails. *)
Lemma optimal_pattern_fails readings trends ph temp oxygen :
  numeric readings ph temp oxygen ->
  ~ optimal_pattern readings trends ->
  and_then (le (Some 6.5%Q) (reading readings "ph" 7.0))
   (and_then (le (reading readings "ph" 7.0) (Some 7.5%Q))
   (and_then (le (Some 18%Q) (reading readings "temperature" 22.0))
   (and_then (le (reading readings "temperature" 22.0) (Some 24%Q))
   (and_then (ge (reading readings "do" 7.5) (Some 6%Q))
   (Ok (get_is (direction trends "ph") "stable"
        && get_is (direction trends "temperature") "stable"
        && get_is (direction trends "do") "stable"))))))
  = Ok false.
Proof.
  intros (Rph & Rtemp & Rdo) N. rewrite Rph, Rtemp, Rdo. cbn.
  destruct (6.5 <=? ph)%Q eqn:E1; [|reflexivity].
  destruct (ph <=? 7.5)%Q eqn:E2; [|reflexivity].
  destruct (18 <=? temp)%Q eqn:E3; [|reflexivity].
  destruct (temp <=? 24)%Q eqn:E4; [|reflexivity].
  destruct (6 <=? oxygen)%Q eqn:E5; [|reflexivity].
  destruct (get_is (direction trends "ph") "stable") eqn:E6; [|reflexivity].
  destruct (get_is (direction trends "temperature") "stable") eqn:E7;
    [|reflexivity].
  destruct (get_is (direction trends "do") "stable") eqn:E8; [|reflexivity].
  exfalso. apply N. unfold optimal_pattern. rewrite Rph, Rtemp, Rdo.
  apply get_is_true in E6, E7, E8. qprop. eauto 15.
Qed.

(** Names the readings, directions and projections inside the body of
    the engine. *)
Ltac name_engine_terms readings trends :=
  unfold analyze_correlations_advanced;
  fold (reading readings "ph" 7.0) (reading readings "do" 7.5)
       (reading readings "temperature" 22.0)
       (direction trends "ph") (direction trends "do")
       (direction trends "temperature") (concern trends "ph")
       (hours_left trends "ph" 999) (hours_left trends "do" 999)
       (hours_left trends "temperature" 999) (hours_left trends "ph" 24)
       (speed trends "ph").

Lemma temperature_cascade_with_projections readings trends
    (ph temp oxygen temp_hours do_hours : Q) :
  numeric readings ph temp oxygen ->
  ~ biofilter_pattern readings trends ->
  temperature_pattern readings trends ->
  hours_left trends "temperature" 999 = Some temp_hours ->
  hours_left trends "do" 999 = Some do_hours ->
  exists a,
    analyze_correlations_advanced readings trends = Ok a /\
    system_state a = "temperature_oxygen_cascade"%string /\
    is_Some (root_cause a) /\
    steps a = [(1%Z, [Lit "Cool water immediately"]);
               (2%Z, [Lit "Increase aeration 50%"]);
               (3%Z, [Lit "Reduce feeding by 50%"])] /\
    all_fields (cascading_effects a)
    = [(1%nat, temp); (1%nat, temp);
       (1%nat, (9 - (temp - 20) * 0.2)%Q); (1%nat, oxygen)] /\
    fields (explanation a)
    = [(1%nat, if (do_hours <? temp_hours)%Q
               then do_hours else temp_hours)].
Proof.
  intros Hnum N1 P2 Ht Hd.
  pose proof (biofilter_pattern_fails _ _ _ _ _ Hnum N1) as T1.
  pose proof (temperature_pattern_matches _ _ P2) as T2.
  destruct Hnum as (Rph & Rtemp & Rdo).
  name_engine_terms readings trends.
  rewrite T1. cbn [mbind result_bind]. rewrite T2.
  cbn [mbind result_bind]. rewrite Rtemp, Rdo, Ht, Hd.
  cbn [fmt_f min lt num mbind result_bind].
  destruct (do_hours <? temp_hours)%Q;
    (eexists; split; [reflexivity|]; cbn; eauto 10).
Qed.

Lemma temperature_cascade_without_projection readings trends
    (ph temp oxygen : Q) :
  numeric readings ph temp oxygen ->
  ~ biofilter_pattern readings trends ->
  temperature_pattern readings trends ->
  hours_left trends "temperature" 999 = None \/
  hours_left trends "do" 999 = None ->
  analyze_correlations_advanced readings trends = Raise TypeError.
Proof.
  intros Hnum N1 P2 Hnone.
  pose proof (biofilter_pattern_fails _ _ _ _ _ Hnum N1) as T1.
  pose proof (temperature_pattern_matches _ _ P2) as T2.
  destruct Hnum as (Rph & Rtemp & Rdo).
  name_engine_terms readings trends.
  rewrite T1. cbn [mbind result_bind]. rewrite T2.
  cbn [mbind result_bind]. rewrite Rtemp, Rdo.
  cbn [fmt_f min lt num mbind result_bind].
  destruct Hnone as [-> | ->].
  - cbn [min lt num mbind result_bind].
    now destruct (hours_left trends "do" 999).
  - reflexivity.
Qed.

(** With the first two patterns failing, the engine raises only when the
    predictive pattern holds without a time for ph. *)
Lemma engine_returns_past_cascades readings trends (ph temp oxygen : Q) :
  numeric readings ph temp oxygen ->
  ~ biofilter_pattern readings trends ->
  ~ temperature_pattern readings trends ->
  (predictive_pattern trends -> is_Some (hours_left trends "ph" 24)) ->
  exists a, analyze_correlations_advanced readings trends = Ok a.
Proof.
  intros Hnum N1 N2 Htime.
  pose proof (biofilter_pattern_fails _ _ _ _ _ Hnum N1) as T1.
  pose proof (temperature_pattern_fails _ _ _ _ _ Hnum N2) as T2.
  destruct Hnum as (Rph & Rtemp & Rdo).
  name_engine_terms readings trends.
  rewrite T1. cbn [mbind result_bind]. rewrite T2.
  cbn [mbind result_bind].
  destruct (get_is (direction trends "ph") "falling" && _) eqn:T3.
  - destruct Htime as [t ->].
    { apply andb_true_iff in T3 as [D C]. apply orb_true_iff in C.
      apply get_is_true in D. split; [exact D|].
      destruct C as [C | C]; apply get_is_true in C; auto. }
    eexists. reflexivity.
  - rewrite Rph, Rtemp, Rdo. cbn [and_then le ge num mbind result_bind].
    repeat match goal with
    | |- context [if ?b then _ else _] =>
        destruct b; cbn [and_then le ge num mbind result_bind]
    end; eexists; reflexivity.
Qed.

(** X5. The temperature-oxygen cascade.  With numeric readings, the
    biofilter pattern failing, temperature above 25 and rising, dissolved
    oxygen below 7 and falling: when both times to threshold are numbers
    (or their keys are missing) the engine returns the state
    temperature_oxygen_cascade with a root cause, the three steps cool
    water, increase aeration, reduce feeding, the capacity figure
    9 - (temp - 20) * 0.2 and the smaller time as urgency figure; when
    one of them is [None] it raises [TypeError]. *)
Theorem temperature_cascade readings trends (ph temp oxygen : Q) :
  numeric readings ph temp oxygen ->
  ~ biofilter_pattern readings trends ->
  temperature_pattern readings trends ->
  (forall temp_hours do_hours,
     hours_left trends "temperature" 999 = Some temp_hours ->
     hours_left trends "do" 999 = Some do_hours ->
     exists a,
       analyze_correlations_advanced readings trends = Ok a /\
       system_state a = "temperature_oxygen_cascade"%string /\
       is_Some (root_cause a) /\
       steps a = [(1%Z, [Lit "Cool water immediately"]);
                  (2%Z, [Lit "Increase aeration 50%"]);
                  (3%Z, [Lit "Reduce feeding by 50%"])] /\
       all_fields (cascading_effects a)
       = [(1%nat, temp); (1%nat, temp);
          (1%nat, (9 - (temp - 20) * 0.2)%Q); (1%nat, oxygen)] /\
       fields (explanation a)
       = [(1%nat, if (do_hours <? temp_hours)%Q
                  then do_hours else temp_hours)]) /\
  (hours_left trends "temperature" 999 = None \/
   hours_left trends "do" 999 = None ->
     analyze_correlations_advanced readings trends = Raise TypeError).
Proof.
  intros Hnum N1 P2. split.
  - intros temp_hours do_hours Ht Hd.
    exact (temperature_cascade_with_projections readings trends
             ph temp oxygen temp_hours do_hours Hnum N1 P2 Ht Hd).
  - intros Hnone.
    exact (temperature_cascade_without_projection readings trends
             ph temp oxygen Hnum N1 P2 Hnone).
Qed.

(** X6. The predictive ph warning.  With numeric readings, the first two
    patterns failing, the ph trend falling with concern level warning or
    critical: when the time to threshold of ph is a number (24 when its
    key is missing) the engine returns the state preventive_action_needed
    with two steps, that time as the deadline of the first step and in
    the explanation, beside the absolute rate of change; when it is
    [None] the engine raises [TypeError]. *)
Theorem predictive_ph_warning readings trends (ph temp oxygen : Q) :
  numeric readings ph temp oxygen ->
  ~ biofilter_pattern readings trends ->
  ~ temperature_pattern readings trends ->
  predictive_pattern trends ->
  (forall hours_remaining,
     hours_left trends "ph" 24 = Some hours_remaining ->
     exists a,
       analyze_correlations_advanced readings trends = Ok a /\
       system_state a = "preventive_action_needed"%string /\
       is_Some (root_cause a) /\
       map (fun s => (fst s, fields (snd s))) (steps a)
       = [(1%Z, [(0%nat, hours_remaining)]); (2%Z, [])] /\
       fields (explanation a)
       = [(3%nat, speed trends "ph"); (1%nat, hours_remaining)]) /\
  (hours_left trends "ph" 24 = None ->
     analyze_correlations_advanced readings trends = Raise TypeError).
Proof.
  intros Hnum N1 N2 P3.
  pose proof (biofilter_pattern_fails _ _ _ _ _ Hnum N1) as T1.
  pose proof (temperature_pattern_fails _ _ _ _ _ Hnum N2) as T2.
  pose proof (predictive_pattern_matches _ P3) as T3.
  split.
  - intros hours_remaining Hh.
    name_engine_terms readings trends.
    rewrite T1. cbn [mbind result_bind]. rewrite T2.
    cbn [mbind result_bind]. rewrite T3, Hh.
    eexists. split; [reflexivity|]. cbn. eauto 10.
  - intros Hnone.
    name_engine_terms readings trends.
    rewrite T1. cbn [mbind result_bind]. rewrite T2.
    cbn [mbind result_bind]. rewrite T3, Hnone. reflexivity.
Qed.

(** X7. No pattern.  With numeric readings and none of the four patterns
    holding, the engine returns the analysis it started from: state
    unknown, no root cause, no cascading effect, no intervention. *)
Theorem no_pattern_is_unknown readings trends (ph temp oxygen : Q) :
  numeric readings ph temp oxygen ->
  ~ biofilter_pattern readings trends ->
  ~ temperature_pattern readings trends ->
  ~ predictive_pattern trends ->
  ~ optimal_pattern readings trends ->
  exists a,
    analyze_correlations_advanced readings trends = Ok a /\
    system_state a = "unknown"%string /\
    root_cause a = None /\
    cascading_effects a = [] /\
    intervention_priority a = [].
Proof.
  intros Hnum N1 N2 N3 N4.
  pose proof (biofilter_pattern_fails _ _ _ _ _ Hnum N1) as T1.
  pose proof (temperature_pattern_fails _ _ _ _ _ Hnum N2) as T2.
  pose proof (predictive_pattern_fails _ N3) as T3.
  pose proof (optimal_pattern_fails _ _ _ _ _ Hnum N4) as T4.
  name_engine_terms readings trends.
  rewrite T1. cbn [mbind result_bind]. rewrite T2.
  cbn [mbind result_bind]. rewrite T3, T4. cbn [mbind result_bind].
  eexists. split; [reflexivity|]. cbn. auto.
Qed.

(** X8. A reading that is present with the value [None] is not replaced
    by the fallback: when the ph reading is [None], the correlation
    engine and the holistic analysis both raise [TypeError], whatever the
    other readings and the trends. *)
Theorem missing_ph_reading_raises (readings : gmap string (option Q))
    (trends : gmap string TrendDict) :
  readings !! "ph" = Some None ->
  analyze_correlations_advanced readings trends = Raise TypeError /\
  analyze_system_holistic readings = Raise TypeError.
Proof.
  intros H. unfold analyze_correlations_advanced, analyze_system_holistic.
  rewrite H. split; reflexivity.
Qed.

End CorrelationPatterns.

(** ** Agreement of the analyses *)

Section Agreement.

Import TrendAnalyzer ParameterAnalyzer.

(** Takes the tests of a chain both ways and settles each case by linear
    arithmetic. *)
Ltac by_tests :=
  repeat match goal with
  | |- context [(?x <? ?y)%Q] => destruct (x <? y)%Q eqn:?
  | |- context [(?x <=? ?y)%Q] => destruct (x <=? y)%Q eqn:?
  end;
  qprop; cbn; split; intros;
  repeat match goal with H : _ /\ _ |- _ => destruct H end;
  try discriminate; try reflexivity; try lra; try (split; lra).

Lemma analyze_ph_good (ph : Q) (system_type : string) :
  pa_status (analyze_ph ph system_type) = "good"
  <-> (6.5 <= ph)%Q /\ (ph <= 7.5)%Q.
Proof. unfold analyze_ph. by_tests. Qed.

Lemma analyze_temperature_good (temp_c : Q) (species : string) :
  pa_status (analyze_temperature temp_c species) = "good"
  <-> (18 <= temp_c)%Q /\ (temp_c <= 24)%Q.
Proof. unfold analyze_temperature. by_tests. Qed.

Lemma analyze_do_good (do_value temp_c : Q) :
  pa_status (analyze_do do_value temp_c) = "good" <-> (6 <= do_value)%Q.
Proof. unfold analyze_do. by_tests. Qed.

(** The holistic analysis is excellent exactly on the three good bands. *)
Lemma holistic_excellent readings (ph temp oxygen : Q) :
  numeric readings ph temp oxygen ->
  exists h,
    analyze_system_holistic readings = Ok h /\
    (h_overall_status h = "excellent"%string <->
       ((6.5 <= ph)%Q /\ (ph <= 7.5)%Q) /\
       ((18 <= temp)%Q /\ (temp <= 24)%Q) /\ (6 <= oxygen)%Q).
Proof.
  intros (Rph & Rtemp & Rdo). unfold analyze_system_holistic.
  fold (reading readings "ph" 7.0) (reading readings "do" 7.5)
       (reading readings "temperature" 22.0).
  rewrite Rph, Rtemp, Rdo.
  cbn [and_then lt gt le ge num fmt_f mbind result_bind].
  repeat match goal with
  | |- context [if ?b then _ else _] =>
      destruct b eqn:?;
      cbn [and_then lt gt le ge num fmt_f mbind result_bind]
  end;
  (eexists; split; [reflexivity|]); qprop; cbn; split; intros;
  repeat match goal with H : _ /\ _ |- _ => destruct H end;
  try discriminate; try reflexivity; try lra; repeat split; try lra.
Qed.

(** X9. The holistic analysis and the three single-parameter analyses
    agree on health: on numeric readings the overall status is excellent
    exactly when [analyze_ph], [analyze_temperature] and [analyze_do]
    all report good. *)
Theorem holistic_excellent_iff_all_good readings (ph temp oxygen : Q)
    (system_type species : string) :
  numeric readings ph temp oxygen ->
  exists h,
    analyze_system_holistic readings = Ok h /\
    (h_overall_status h = "excellent"%string <->
       pa_status (analyze_ph ph system_type) = "good"%string /\
       pa_status (analyze_temperature temp species) = "good"%string /\
       pa_status (analyze_do oxygen temp) = "good"%string).
Proof.
  intros Hnum. destruct (holistic_excellent readings ph temp oxygen Hnum)
    as (h & Hrun & Hex).
  exists h. split; [exact Hrun|].
  rewrite Hex, analyze_ph_good, analyze_temperature_good, analyze_do_good.
  reflexivity.
Qed.

(** X10. The state optimal_stable is sound: when the engine returns it on
    numeric readings, the optimal pattern holds (the three bands, the
    three directions stable), the three single-parameter analyses report
    good, and the analysis carries no root cause and no intervention. *)
Theorem optimal_stable_is_sound readings trends (ph temp oxygen : Q)
    (system_type species : string) (a : Analysis) :
  numeric readings ph temp oxygen ->
  analyze_correlations_advanced readings trends = Ok a ->
  system_state a = "optimal_stable"%string ->
  optimal_pattern readings trends /\
  pa_status (analyze_ph ph system_type) = "good"%string /\
  pa_status (analyze_temperature temp species) = "good"%string /\
  pa_status (analyze_do oxygen temp) = "good"%string /\
  root_cause a = None /\ intervention_priority a = [].
Proof.
  intros (Rph & Rtemp & Rdo).
  rewrite analyze_ph_good, analyze_temperature_good, analyze_do_good.
  unfold analyze_correlations_advanced.
  fold (reading readings "ph" 7.0) (reading readings "do" 7.5)
       (reading readings "temperature" 22.0)
       (direction trends "ph") (direction trends "do")
       (direction trends "temperature") (concern trends "ph")
       (hours_left trends "ph" 999) (hours_left trends "do" 999)
       (hours_left trends "temperature" 999) (hours_left trends "ph" 24)
       (speed trends "ph").
  (* the first pattern *)
  destruct (and_then (lt (reading readings "ph" 7.0) (Some 6.5%Q)) _)
    as [[|]|e1]; cbn [mbind result_bind]; [| |discriminate].
  { destruct (hours_left trends "ph" 999), (hours_left trends "do" 999);
      cbn [min lt num fmt_f mbind result_bind]; try discriminate.
    destruct (_ <? _)%Q; intros [= <-]; discriminate. }
  (* the second pattern *)
  destruct (and_then (gt (reading readings "temperature" 22.0) (Some 25%Q)) _)
    as [[|]|e2]; cbn [mbind result_bind]; [| |discriminate].
  { rewrite Rtemp, Rdo. cbn [fmt_f num mbind result_bind].
    destruct (hours_left trends "temperature" 999),
      (hours_left trends "do" 999);
      cbn [min lt num fmt_f mbind result_bind]; try discriminate.
    destruct (_ <? _)%Q; intros [= <-]; discriminate. }
  (* the third pattern *)
  destruct (get_is (direction trends "ph") "falling" && _).
  { destruct (hours_left trends "ph" 24);
      cbn [fmt_f num mbind result_bind]; [|discriminate].
    intros [= <-]; discriminate. }
  (* the fourth pattern *)
  destruct (and_then (le (Some 6.5%Q) (reading readings "ph" 7.0)) _)
    as [[|]|e4] eqn:T4; cbn [mbind result_bind];
    [| intros [= <-]; discriminate | discriminate].
  intros [= <-] _. cbn [root_cause intervention_priority].
  rewrite Rph, Rtemp, Rdo in T4. cbn [and_then le ge num mbind result_bind] in T4.
  destruct (6.5 <=? ph)%Q eqn:E1; [|discriminate].
  destruct (ph <=? 7.5)%Q eqn:E2; [|discriminate].
  destruct (18 <=? temp)%Q eqn:E3; [|discriminate].
  destruct (temp <=? 24)%Q eqn:E4; [|discriminate].
  destruct (6 <=? oxygen)%Q eqn:E5; [|discriminate].
  injection T4 as T4.
  apply andb_true_iff in T4 as [T4 S3]. apply andb_true_iff in T4 as [S1 S2].
  apply get_is_true in S1, S2, S3. qprop.
  unfold optimal_pattern. rewrite Rph, Rtemp, Rdo. eauto 25.
Qed.

End Agreement.

(** ** The trend analysis of one parameter *)

Section TrendResults.

Import TrendAnalyzer.

(** *** The concern of any trend *)

Lemma truthy_below_some (h : option Q) (bound x : Q) :
  truthy_below h bound = Some x -> h = Some x /\ (x < bound)%Q.
Proof.
  unfold truthy_below. destruct h as [y|]; [|discriminate].
  destruct (y =? 0)%Q; [discriminate|]. cbn [negb andb].
  destruct (y <? bound)%Q eqn:E; [|discriminate].
  intros [= <-]. qprop. now split.
Qed.

(** The time reported for a projection below a whole limit. *)
Lemma falling_time (current bound rate : Q) (limit : Z) :
  (rate < 0)%Q ->
  exists h : option Q,
    (if (current >? bound)%Q
     then h ← Float.truediv (Float.sub current bound) (Qabs rate);
          Ok (Some h)
     else Ok None) = Ok h /\
    (forall x, truthy_below h (inject_Z limit) = Some x ->
       (0 <= round x 1)%Q /\ (round x 1 <= inject_Z limit)%Q).
Proof.
  intros Hrate.
  assert (Habs : (0 < Qabs rate)%Q).
  { destruct (Qabs_cases rate) as [[? ?]|[? ?]]; lra. }
  unfold Float.truediv. rewrite (proj2 (Qeqb_false (Qabs rate) 0)) by lra.
  cbn [mbind result_bind]. unfold Qgtb.
  destruct (bound <? current)%Q eqn:C.
  - eexists. split; [reflexivity|]. intros x Hx.
    apply truthy_below_some in Hx as [[= <-] Hlt]. qprop.
    apply round_one_bounds; [|lra].
    apply div_nonneg; lra.
  - exists None. split; [reflexivity|]. discriminate.
Qed.

Lemma rising_time (current bound rate : Q) (limit : Z) :
  (0 < rate)%Q ->
  exists h : option Q,
    (if (current <? bound)%Q
     then h ← Float.truediv (Float.sub bound current) rate; Ok (Some h)
     else Ok None) = Ok h /\
    (forall x, truthy_below h (inject_Z limit) = Some x ->
       (0 <= round x 1)%Q /\ (round x 1 <= inject_Z limit)%Q).
Proof.
  intros Hrate.
  unfold Float.truediv. rewrite (proj2 (Qeqb_false rate 0)) by lra.
  cbn [mbind result_bind].
  destruct (current <? bound)%Q eqn:C.
  - eexists. split; [reflexivity|]. intros x Hx.
    apply truthy_below_some in Hx as [[= <-] Hlt]. qprop.
    apply round_one_bounds; [|lra].
    apply div_nonneg; lra.
  - exists None. split; [reflexivity|]. discriminate.
Qed.

(** Whatever the direction and the rate passed, [_assess_concern] returns
    a concern of the expected shape. *)
Lemma assess_concern_shape parameter current trend rate prediction :
  exists c,
    _assess_concern parameter current trend rate prediction = Ok c /\
    concern_shape c /\
    (thresholds !! parameter = None ->
       level c = "none"%string /\ time_to_threshold c = None) /\
    (is_Some (default None (time_to_threshold c)) ->
       (trend = "falling"%string /\ (rate < 0)%Q) \/
       (trend = "rising"%string /\ (0 < rate)%Q)).
Proof.
  unfold _assess_concern, concern_shape.
  destruct (thresholds !! parameter) as [thresh|] eqn:Hthr.
  2: { eexists. split; [reflexivity|]. cbn.
       split; [right; right; auto|]. split; [auto|]. intros [? [=]]. }
  destruct (String.eqb trend "falling" && (rate <? 0)%Q) eqn:Hf.
  - apply andb_true_iff in Hf as [Ht Hr]. apply String.eqb_eq in Ht.
    apply Qltb_true in Hr.
    destruct (falling_time current (warning_low thresh) rate 24 Hr)
      as (hw & -> & Bw).
    destruct (falling_time current (critical_low thresh) rate 12 Hr)
      as (hc & -> & Bc).
    cbn [mbind result_bind].
    change 12%Q with (inject_Z 12). change 24%Q with (inject_Z 24).
    destruct (truthy_below hc (inject_Z 12)) as [x|] eqn:Ec;
      [|destruct (truthy_below hw (inject_Z 24)) as [y|] eqn:Ew;
        [|destruct (current >? optimal_low thresh)%Q]];
      (eexists; split; [reflexivity|]); cbn.
    + split; [left; split; [reflexivity|]; eexists; split; [reflexivity|];
              apply (Bc x eq_refl)|].
      split; [discriminate|]. auto.
    + split; [right; left; split; [reflexivity|]; eexists;
              split; [reflexivity|]; apply (Bw y eq_refl)|].
      split; [discriminate|]. auto.
    + split; [right; right; auto|]. split; [discriminate|]. intros [? [=]].
    + split; [right; right; auto|]. split; [discriminate|]. intros [? [=]].
  - destruct (String.eqb trend "rising" && (rate >? 0)%Q) eqn:Hr.
    + apply andb_true_iff in Hr as [Ht Hr]. apply String.eqb_eq in Ht.
      apply Qltb_true in Hr.
      destruct (rising_time current (warning_high thresh) rate 24 Hr)
        as (hw & -> & Bw).
      destruct (rising_time current (critical_high thresh) rate 12 Hr)
        as (hc & -> & Bc).
      cbn [mbind result_bind].
      change 12%Q with (inject_Z 12). change 24%Q with (inject_Z 24).
      destruct (truthy_below hc (inject_Z 12)) as [x|] eqn:Ec;
        [|destruct (truthy_below hw (inject_Z 24)) as [y|] eqn:Ew;
          [|destruct (current <? optimal_high thresh)%Q]];
        (eexists; split; [reflexivity|]); cbn.
      * split; [left; split; [reflexivity|]; eexists; split; [reflexivity|];
                apply (Bc x eq_refl)|].
        split; [discriminate|]. auto.
      * split; [right; left; split; [reflexivity|]; eexists;
                split; [reflexivity|]; apply (Bw y eq_refl)|].
        split; [discriminate|]. auto.
      * split; [right; right; auto|]. split; [discriminate|]. intros [? [=]].
      * split; [right; right; auto|]. split; [discriminate|]. intros [? [=]].
    + destruct ((optimal_low thresh <=? current)%Q
                && (current <=? optimal_high thresh)%Q);
        (eexists; split; [reflexivity|]); cbn;
        (split; [right; right; auto|]); (split; [discriminate|]);
        intros [? [=]].
Qed.


(** *** The trend of one parameter *)

Lemma direction_of_cases (slope : Q) :
  direction_of slope = "stable"%string \/
  direction_of slope = "rising"%string \/
  direction_of slope = "falling"%string.
Proof.
  unfold direction_of.
  destruct (Qabs slope <? 0.01)%Q; [auto|].
  destruct (slope >? 0.05)%Q; [auto|].
  destruct (slope <? -0.05)%Q; auto.
Qed.

Lemma calculate_trend_returns (data : list Reading) :
  exists rate,
    _calculate_trend (map value data) (map timestamp data)
    = Ok (direction_of rate, rate).
Proof.
  destruct data as [|r1 [|r2 rest]].
  - exists 0.0%Q. reflexivity.
  - exists 0.0%Q. reflexivity.
  - eexists. cbn [map].
    apply (calculate_trend_unfold
             (value r1 :: value r2 :: map value rest) (timestamp r1)).
    cbn [length]. lia.
Qed.

Lemma calculate_volatility_returns (sqrt : Q -> Q) (values : list Q) :
  exists volatility, _calculate_volatility sqrt values = Ok volatility.
Proof.
  destruct (Nat.lt_ge_cases (length values) 3) as [H|H].
  - exists "unknown"%string. unfold _calculate_volatility.
    apply Nat.ltb_lt in H. now rewrite H.
  - destruct (stdev_defined sqrt values ltac:(lia)) as [sd Hsd].
    pose proof (mean_defined values ltac:(lia)) as Hm.
    rewrite (calculate_volatility_unfold sqrt values _ sd H Hm Hsd).
    eexists. reflexivity.
Qed.

(** With five rows or more, the analysis is assembled from the results of
    the four steps, none of which raises. *)
Lemma analyze_parameter_trend_long (sqrt : Q -> Q)
    (history : string -> Z -> list Reading) parameter hours :
  let data := history parameter hours in
  (5 <= length data)%nat ->
  exists rate volatility current c,
    last (map value data) = Some current /\
    _calculate_trend (map value data) (map timestamp data)
    = Ok (direction_of rate, rate) /\
    _assess_concern parameter current (direction_of rate) rate
      (_predict_future parameter current rate 24) = Ok c /\
    concern_shape c /\
    analyze_parameter_trend sqrt history parameter hours
    = Ok {| td_parameter := Some parameter;
            td_current_value := Some current;
            td_trend := Some (direction_of rate);
            td_rate_of_change := Some rate;
            td_volatility := Some volatility;
            td_prediction := Some (_predict_future parameter current rate 24);
            td_concern_level := Some (level c);
            td_time_to_threshold := Some (default None (time_to_threshold c));
            td_recommendation := Some (recommendation c);
            td_historical_data := Some (drop (length data - 10) data) |}.
Proof.
  cbv zeta. intros Hlen. unfold analyze_parameter_trend.
  destruct (length (history parameter hours) <? 5)%nat eqn:L;
    [apply Nat.ltb_lt in L; lia|].
  destruct (calculate_trend_returns (history parameter hours)) as [rate Hrate].
  destruct (calculate_volatility_returns sqrt
              (map value (history parameter hours))) as [volatility Hvol].
  destruct (last (map value (history parameter hours))) as [current|] eqn:Hlast.
  2: { apply last_None in Hlast. apply (f_equal length) in Hlast.
       rewrite length_map in Hlast. cbn in Hlast. lia. }
  destruct (assess_concern_shape parameter current (direction_of rate) rate
              (_predict_future parameter current rate 24))
    as (c & Hc & Hshape & _).
  exists rate, volatility, current, c.
  split; [reflexivity|]. split; [exact Hrate|]. split; [exact Hc|].
  split; [exact Hshape|].
  rewrite Hrate. cbn [mbind result_bind]. rewrite Hvol.
  cbn [mbind result_bind]. unfold last_value. rewrite Hlast.
  cbn [mbind result_bind]. rewrite Hc. reflexivity.
Qed.


(** X11. [_assess_concern] returns normally for every parameter, value,
    direction and rate, also for a direction that is not the one of the
    rate.  The level is one of none, watch, warning, critical; a critical
    concern carries a time to threshold in [0, 12] and a warning one a
    time in [0, 24]; watch and none carry no time; a parameter without
    thresholds gets none, without the key; and a time is reported only
    for a falling direction with a negative rate or a rising direction
    with a positive rate. *)
Theorem assess_concern_returns parameter current trend rate prediction :
  exists c,
    _assess_concern parameter current trend rate prediction = Ok c /\
    level c ∈ concern_levels /\
    (level c = "critical"%string ->
       exists t, time_to_threshold c = Some (Some t) /\
                 (0 <= t)%Q /\ (t <= 12)%Q) /\
    (level c = "warning"%string ->
       exists t, time_to_threshold c = Some (Some t) /\
                 (0 <= t)%Q /\ (t <= 24)%Q) /\
    (level c = "watch"%string \/ level c = "none"%string ->
       default None (time_to_threshold c) = None) /\
    (thresholds !! parameter = None ->
       level c = "none"%string /\ time_to_threshold c = None) /\
    (is_Some (default None (time_to_threshold c)) ->
       (trend = "falling"%string /\ (rate < 0)%Q) \/
       (trend = "rising"%string /\ (0 < rate)%Q)).
Proof.
  destruct (assess_concern_shape parameter current trend rate prediction)
    as (c & Hrun & Hshape & Hnone & Hwhy).
  exists c. split; [exact Hrun|].
  split; [|split; [|split; [|split; [|split; [exact Hnone | exact Hwhy]]]]].
  - unfold concern_levels.
    destruct Hshape as [[-> _] | [[-> _] | [[-> | ->] _]]]; repeat constructor.
  - intros L.
    destruct Hshape as [[_ H] | [[L' _] | [[L' | L'] _]]];
      [exact H | congruence ..].
  - intros L.
    destruct Hshape as [[L' _] | [[_ H] | [[L' | L'] _]]];
      [congruence | exact H | congruence ..].
  - intros L.
    destruct Hshape as [[L' _] | [[L' _] | [_ H]]];
      [destruct L; congruence .. | exact H].
Qed.

(** X12. [analyze_parameter_trend] returns normally for every history
    and every square root function: no division or statistics error, no
    index error.  The short form (trend insufficient_data, no
    time_to_threshold key) is returned exactly for fewer than five rows.
    The level is one of the four levels, a recommendation is always
    given, and the time to threshold is a number exactly when the level
    is warning or critical, and then lies in [0, 24]. *)
Theorem analyze_parameter_trend_returns (sqrt : Q -> Q)
    (history : string -> Z -> list Reading) parameter hours :
  let data := history parameter hours in
  exists d,
    analyze_parameter_trend sqrt history parameter hours = Ok d /\
    ((length data < 5)%nat <-> td_trend d = Some "insufficient_data"%string) /\
    ((length data < 5)%nat <-> td_time_to_threshold d = None) /\
    (exists l, td_concern_level d = Some l /\ l ∈ concern_levels) /\
    is_Some (td_recommendation d) /\
    ((exists t, td_time_to_threshold d = Some (Some t)) <-> urgent d) /\
    (forall t, td_time_to_threshold d = Some (Some t) ->
       (0 <= t)%Q /\ (t <= 24)%Q).
Proof.
  cbv zeta.
  destruct (Nat.lt_ge_cases (length (history parameter hours)) 5) as [H|H].
  - unfold analyze_parameter_trend. pose proof H as L.
    apply Nat.ltb_lt in L. rewrite L.
    eexists. split; [reflexivity|]. cbn. unfold urgent. cbn.
    split; [tauto|]. split; [tauto|].
    split; [exists "none"%string; split; [reflexivity | repeat constructor]|].
    split; [eauto|].
    split; [|discriminate].
    split; [intros [? [=]] | intros [[=] | [=]]].
  - destruct (analyze_parameter_trend_long sqrt history parameter hours H)
      as (rate & volatility & current & c & _ & _ & _ & Hshape & ->).
    eexists. split; [reflexivity|]. cbn. unfold urgent. cbn.
    split.
    { split; [lia|]. intros [= E].
      destruct (direction_of_cases rate) as [D | [D | D]];
        rewrite D in E; discriminate. }
    split; [split; [lia | discriminate]|].
    split.
    { exists (level c). split; [reflexivity|]. unfold concern_levels.
      destruct Hshape as [[-> _] | [[-> _] | [[-> | ->] _]]]; repeat constructor. }
    split; [eauto|].
    destruct Hshape as [[L (t & -> & Ht)] | [[L (t & -> & Ht)] | [L Hno]]];
      cbn.
    + rewrite L. split; [split; eauto|]. intros ? [= <-]. lra.
    + rewrite L. split; [split; eauto|]. intros ? [= <-]. lra.
    + rewrite Hno. split; [|discriminate].
      split; [intros [? [=]] | ].
      intros [[= E] | [= E]]; destruct L as [L | L]; congruence.
Qed.


(** *** The report of one parameter *)


End TrendResults.

(** ** The trend report *)

Section AllTrendsResults.

Import TrendAnalyzer.

(** *** Sorting by a numeric key *)

Lemma insert_by_numeric {A : Type} (key : A -> option Q) (x : A) :
  is_Some (key x) ->
  forall sorted,
    Forall (fun y => is_Some (key y)) sorted ->
    StronglySorted (key_le key) sorted ->
    exists s, insert_by key x sorted = Ok s /\ s ≡ₚ x :: sorted /\
              StronglySorted (key_le key) s.
Proof.
  intros [kx Hx]. induction sorted as [|y rest IH]; intros Hnum Hsorted.
  - exists [x]. repeat split; [|constructor; constructor].
    reflexivity.
  - apply Forall_cons in Hnum as [[ky Hy] Hrest].
    apply StronglySorted_inv in Hsorted as [Hsorted Hy_le].
    cbn [insert_by]. rewrite Hx, Hy. cbn [lt num mbind result_bind].
    destruct (ky <? kx)%Q eqn:E.
    + destruct (IH Hrest Hsorted) as (s & -> & Hperm & Hs).
      cbn [mbind result_bind]. eexists. split; [reflexivity|].
      split; [rewrite Hperm; apply Permutation_swap|].
      constructor; [exact Hs|].
      rewrite Hperm. constructor; [|exact Hy_le].
      exists ky, kx. qprop. repeat split; [exact Hy | exact Hx | lra].
    + eexists. split; [reflexivity|]. split; [reflexivity|].
      assert (Hxy : key_le key x y).
      { exists kx, ky. qprop. repeat split; [exact Hx | exact Hy | lra]. }
      constructor; [constructor; assumption|].
      constructor; [exact Hxy|].
      eapply Forall_impl; [exact Hy_le|].
      intros z (s & t & Hs & Ht & Hle). rewrite Hy in Hs. injection Hs as <-.
      exists kx, t. qprop. repeat split; [exact Hx | exact Ht | lra].
Qed.

Lemma sort_by_numeric {A : Type} (key : A -> option Q) (xs : list A) :
  Forall (fun y => is_Some (key y)) xs ->
  exists s, sort_by key xs = Ok s /\ s ≡ₚ xs /\
            StronglySorted (key_le key) s.
Proof.
  induction xs as [|x rest IH]; intros Hnum.
  - exists []. repeat split; constructor.
  - apply Forall_cons in Hnum as [Hx Hrest].
    destruct (IH Hrest) as (s & Hs & Hperm & Hsorted).
    cbn [sort_by]. rewrite Hs. cbn [mbind result_bind].
    destruct (insert_by_numeric key x Hx s) as (s' & -> & Hperm' & Hsorted').
    + rewrite Hperm. exact Hrest.
    + exact Hsorted.
    + exists s'. split; [reflexivity|]. split; [|exact Hsorted'].
      rewrite Hperm'. now constructor.
Qed.


(** *** The scale of concern levels *)

Lemma concern_level_cases (l : string) :
  l ∈ concern_levels ->
  l = "none"%string \/ l = "watch"%string \/ l = "warning"%string \/
  l = "critical"%string.
Proof.
  unfold concern_levels. rewrite !elem_of_cons, elem_of_nil. tauto.
Qed.

Lemma index_is_rank (l : string) :
  l ∈ concern_levels -> index concern_levels l = Done (rank l).
Proof.
  intros H. apply concern_level_cases in H as [-> | [-> | [-> | ->]]];
    reflexivity.
Qed.

Lemma contains_is_rank (l : string) :
  l ∈ concern_levels ->
  contains ["warning"; "critical"]%string l = (2 <=? rank l)%nat.
Proof.
  intros H. apply concern_level_cases in H as [-> | [-> | [-> | ->]]];
    reflexivity.
Qed.

Lemma rank_low (l : string) :
  l ∈ concern_levels ->
  ((rank l <= 1)%nat <-> l = "none"%string \/ l = "watch"%string).
Proof.
  intros H. apply concern_level_cases in H as [-> | [-> | [-> | ->]]];
    cbn; split; auto; try lia; intros [[=] | [=]].
Qed.

Lemma rank_zero (l : string) :
  l ∈ concern_levels -> rank l = 0%nat -> l = "none"%string.
Proof.
  intros H. apply concern_level_cases in H as [-> | [-> | [-> | ->]]];
    cbn; auto; discriminate.
Qed.

(** *** The loop over the parameters *)

(** What the loop needs of one analysis. *)
Lemma analyze_parameter_trend_summary (sqrt : Q -> Q)
    (history : string -> Z -> list Reading) parameter :
  exists d l advice, summary sqrt history parameter d l advice.
Proof.
  unfold summary.
  destruct (Nat.lt_ge_cases (length (history parameter 24%Z)) 5) as [H|H].
  - unfold analyze_parameter_trend. apply Nat.ltb_lt in H. rewrite H.
    eexists _, _, _. split; [reflexivity|]. cbn.
    split; [reflexivity|]. split; [repeat constructor|].
    split; [reflexivity|]. intros Hr. vm_compute in Hr. lia.
  - destruct (analyze_parameter_trend_long sqrt history parameter 24 H)
      as (rate & volatility & current & c & _ & _ & _ & Hshape & ->).
    eexists _, _, _. split; [reflexivity|]. cbn.
    split; [reflexivity|].
    destruct Hshape as [[-> (t & -> & _)] | [[-> (t & -> & _)] | [L _]]].
    + split; [repeat constructor|]. split; [reflexivity|]. eauto.
    + split; [repeat constructor|]. split; [reflexivity|]. eauto.
    + split; [destruct L as [-> | ->]; repeat constructor|].
      split; [reflexivity|].
      destruct L as [-> | ->]; intros Hr; vm_compute in Hr; lia.
Qed.

(** One turn of the loop: it stores the trend, raises the highest level
    to that of the trend when that is higher, and appends an action
    exactly when the level is warning or critical. *)
Lemma analyze_all_trends_body_runs (sqrt : Q -> Q)
    (history : string -> Z -> list Reading) param
    (seen : gmap string TrendDict) (highest : string)
    (actions : list Action) :
  highest ∈ concern_levels ->
  exists d l advice,
    summary sqrt history param d l advice /\
    analyze_all_trends_body sqrt history param (seen, highest, actions)
    = Done (<[param := d]> seen, higher highest l,
            actions ++ entry param d l advice).
Proof.
  intros Hh.
  destruct (analyze_parameter_trend_summary sqrt history param)
    as (d & l & advice & Hsum).
  exists d, l, advice. split; [exact Hsum|].
  destruct Hsum as (Hrun & Hl & Hin & Hadvice & _).
  unfold analyze_all_trends_body. rewrite Hrun. cbn [lift mbind attempt_bind].
  rewrite Hl. cbn [item mbind attempt_bind].
  rewrite (index_is_rank l Hin), (index_is_rank highest Hh).
  cbn [mbind attempt_bind].
  rewrite (contains_is_rank l Hin), Hadvice. unfold entry, higher.
  destruct (2 <=? rank l)%nat; cbn [item mbind attempt_bind].
  - reflexivity.
  - now rewrite app_nil_r.
Qed.

Lemma higher_is_level (a b : string) :
  a ∈ concern_levels -> b ∈ concern_levels -> higher a b ∈ concern_levels.
Proof. intros Ha Hb. unfold higher. now destruct (rank a <? rank b)%nat. Qed.

Lemma higher_rank (a b : string) :
  rank (higher a b) = Nat.max (rank a) (rank b).
Proof.
  unfold higher. destruct (rank a <? rank b)%nat eqn:E;
    [apply Nat.ltb_lt in E | apply Nat.ltb_ge in E]; lia.
Qed.

Lemma higher_cases (a b : string) : higher a b = a \/ higher a b = b.
Proof. unfold higher. destruct (rank a <? rank b)%nat; auto. Qed.

(** The three turns of the loop. *)
Lemma analyze_all_trends_loop_runs (sqrt : Q -> Q)
    (history : string -> Z -> list Reading) :
  exists d1 l1 a1 d2 l2 a2 d3 l3 a3,
    summary sqrt history "ph" d1 l1 a1 /\
    summary sqrt history "temperature" d2 l2 a2 /\
    summary sqrt history "do" d3 l3 a3 /\
    analyze_all_trends_loop sqrt history ["ph"; "temperature"; "do"]%string
      (∅, "none"%string, [])
    = Done (<["do" := d3]> (<["temperature" := d2]> (<["ph" := d1]> ∅)),
            higher (higher (higher "none" l1) l2) l3,
            (([] ++ entry "ph" d1 l1 a1) ++ entry "temperature" d2 l2 a2)
            ++ entry "do" d3 l3 a3).
Proof.
  assert (H0 : "none"%string ∈ concern_levels) by repeat constructor.
  cbn [analyze_all_trends_loop].
  destruct (analyze_all_trends_body_runs sqrt history "ph" ∅ "none" [] H0)
    as (d1 & l1 & a1 & S1 & ->).
  cbn [mbind attempt_bind].
  pose proof (higher_is_level _ _ H0 (proj1 (proj2 (proj2 S1)))) as H1.
  destruct (analyze_all_trends_body_runs sqrt history "temperature"
              (<["ph" := d1]> ∅) (higher "none" l1)
              ([] ++ entry "ph" d1 l1 a1) H1)
    as (d2 & l2 & a2 & S2 & ->).
  cbn [mbind attempt_bind].
  pose proof (higher_is_level _ _ H1 (proj1 (proj2 (proj2 S2)))) as H2.
  destruct (analyze_all_trends_body_runs sqrt history "do"
              (<["temperature" := d2]> (<["ph" := d1]> ∅))
              (higher (higher "none" l1) l2)
              (([] ++ entry "ph" d1 l1 a1) ++ entry "temperature" d2 l2 a2)
              H2)
    as (d3 & l3 & a3 & S3 & ->).
  exists d1, l1, a1, d2, l2, a2, d3, l3, a3. auto.
Qed.

(** The entry appended for a trend, if any. *)
Lemma appended_entry (sqrt : Q -> Q) (history : string -> Z -> list Reading)
    (param l : string) (advice : text) (d : TrendDict) (a : Action) :
  summary sqrt history param d l advice ->
  a ∈ entry param d l advice
  <-> ua_parameter a = param /\ urgent d /\ reports a d.
Proof.
  intros (_ & Hl & Hin & Hadvice & Htime).
  unfold entry, urgent, reports. rewrite Hl, Hadvice.
  destruct (2 <=? rank l)%nat eqn:E.
  - apply Nat.leb_le in E. destruct (Htime E) as [t Ht]. rewrite Ht.
    rewrite list_elem_of_singleton. cbn [from_option id]. split.
    + intros ->. cbn. split; [reflexivity|].
      split; [|repeat split].
      apply concern_level_cases in Hin as [-> | [-> | [-> | ->]]];
        cbn in E; try lia; auto.
    + intros (Hp & _ & [= Hlevel] & [= Hact] & [= Htime']).
      destruct a as [p lv act time]. cbn in *. now subst.
  - apply Nat.leb_gt in E. rewrite elem_of_nil. split; [tauto|].
    intros (_ & [[= ->] | [= ->]] & _); cbn in E; lia.
Qed.

Lemma entry_is_numeric (sqrt : Q -> Q)
    (history : string -> Z -> list Reading)
    (param l : string) (advice : text) (d : TrendDict) :
  summary sqrt history param d l advice ->
  Forall (fun a => is_Some (ua_time_to_threshold a))
         (entry param d l advice).
Proof.
  intros (_ & _ & _ & _ & Htime). unfold entry.
  destruct (2 <=? rank l)%nat eqn:E; [|constructor].
  apply Nat.leb_le in E. destruct (Htime E) as [t ->].
  repeat constructor. cbn. eauto.
Qed.

Lemma entry_is_empty (param l : string) (advice : text) (d : TrendDict) :
  entry param d l advice = [] <-> (rank l <= 1)%nat.
Proof.
  unfold entry. destruct (2 <=? rank l)%nat eqn:E.
  - apply Nat.leb_le in E. split; [discriminate | lia].
  - apply Nat.leb_gt in E. split; [lia | reflexivity].
Qed.

(** The keys of the trends that the loop stores. *)
Lemma stored_trends (d1 d2 d3 : TrendDict) (p : string) (d : TrendDict) :
  (<["do" := d3]> (<["temperature" := d2]> (<["ph" := d1]> ∅))
   : gmap string TrendDict) !! p = Some d <->
  (p = "ph"%string /\ d = d1) \/
  (p = "temperature"%string /\ d = d2) \/
  (p = "do"%string /\ d = d3).
Proof.
  rewrite !lookup_insert_Some, lookup_empty. split.
  - intros [[<- <-] | [_ [[<- <-] | [_ [[<- <-] | [_ [=]]]]]]]; auto.
  - intros [[-> ->] | [[-> ->] | [-> ->]]].
    + right. split; [discriminate|]. right. split; [discriminate|]. auto.
    + right. split; [discriminate|]. auto.
    + auto.
Qed.

(** X16. [analyze_all_trends] returns normally for every history: no
    level is missing from the scale, and the sort never compares [None],
    because an urgent action always carries a numeric time.  The report
    holds the analyses of ph, temperature and do; its overall concern is
    the level of one of them and no trend ranks higher; the urgent
    actions are exactly the entries of the trends at level warning or
    critical, in ascending order of time to threshold; and there is none
    exactly when the overall concern is none or watch. *)
Theorem analyze_all_trends_returns (sqrt : Q -> Q)
    (history : string -> Z -> list Reading) (now : Z) :
  exists r,
    analyze_all_trends sqrt history now = Done r /\
    report_timestamp r = now /\
    dom (trends r) = ({[ "ph"; "temperature"; "do" ]} : gset string) /\
    (forall p d, trends r !! p = Some d ->
       analyze_parameter_trend sqrt history p 24 = Ok d /\
       (rank_of d <= rank (overall_concern r))%nat) /\
    (exists p d, trends r !! p = Some d /\
                 td_concern_level d = Some (overall_concern r)) /\
    (forall a, a ∈ urgent_actions r <->
       exists d, trends r !! ua_parameter a = Some d /\
                 urgent d /\ reports a d) /\
    StronglySorted (key_le ua_time_to_threshold) (urgent_actions r) /\
    (urgent_actions r = [] <->
       overall_concern r = "none"%string \/
       overall_concern r = "watch"%string).
Proof.
  destruct (analyze_all_trends_loop_runs sqrt history)
    as (d1 & l1 & a1 & d2 & l2 & a2 & d3 & l3 & a3 & S1 & S2 & S3 & Hloop).
  unfold analyze_all_trends. rewrite Hloop. cbn [mbind attempt_bind].
  destruct (sort_by_numeric ua_time_to_threshold
              ((([] ++ entry "ph" d1 l1 a1) ++ entry "temperature" d2 l2 a2)
               ++ entry "do" d3 l3 a3))
    as (s & -> & Hperm & Hsorted).
  { repeat apply Forall_app_2; [constructor | ..];
      eapply entry_is_numeric; eassumption. }
  cbn [lift mbind attempt_bind].
  eexists. split; [reflexivity|].
  cbn [report_timestamp trends urgent_actions overall_concern].
  pose proof S1 as (R1 & C1 & I1 & _).
  pose proof S2 as (R2 & C2 & I2 & _).
  pose proof S3 as (R3 & C3 & I3 & _).
  set (h3 := higher (higher (higher "none" l1) l2) l3).
  assert (Hr3 : rank h3 = Nat.max (Nat.max (rank l1) (rank l2)) (rank l3)).
  { unfold h3. rewrite !higher_rank. cbn. lia. }
  assert (Hh3 : h3 ∈ concern_levels).
  { repeat apply higher_is_level; try assumption. repeat constructor. }
  split; [reflexivity|].
  split; [rewrite !dom_insert_L, dom_empty_L; set_solver|].
  split.
  { intros p d Hp. unfold rank_of.
    apply stored_trends in Hp as [[-> ->] | [[-> ->] | [-> ->]]];
      (split; [assumption|]);
      rewrite ?C1, ?C2, ?C3; cbn [from_option id]; lia. }
  split.
  { unfold h3.
    destruct (higher_cases (higher (higher "none" l1) l2) l3) as [E3 | E3];
      [|exists "do"%string, d3; split; [reflexivity | now rewrite E3]].
    destruct (higher_cases (higher "none" l1) l2) as [E2 | E2];
      [|exists "temperature"%string, d2;
        split; [reflexivity | now rewrite E3, E2]].
    destruct (higher_cases "none" l1) as [E1 | E1];
      [|exists "ph"%string, d1;
        split; [reflexivity | now rewrite E3, E2, E1]].
    exists "ph"%string, d1. split; [reflexivity|].
    rewrite C1. f_equal. rewrite E3, E2, E1.
    apply rank_zero; [exact I1|].
    assert (rank h3 = 0)%nat by (unfold h3; rewrite E3, E2, E1; reflexivity).
    lia. }
  split.
  { intros a. rewrite Hperm, !elem_of_app, elem_of_nil.
    rewrite (appended_entry _ _ _ _ _ _ a S1),
            (appended_entry _ _ _ _ _ _ a S2),
            (appended_entry _ _ _ _ _ _ a S3).
    split.
    - intros [[[[] | (P & U & Rp)] | (P & U & Rp)] | (P & U & Rp)];
        rewrite P; eauto.
    - intros (d & Hd & U & Rp).
      apply stored_trends in Hd as [[P ->] | [[P ->] | [P ->]]]; auto 10. }
  split; [exact Hsorted|].
  rewrite <- (rank_low h3 Hh3), Hr3. split.
  - intros ->. apply Permutation_nil_l in Hperm. symmetry in Hperm.
    apply app_eq_nil in Hperm as [Hperm E3].
    apply app_eq_nil in Hperm as [Hperm E2].
    apply app_eq_nil in Hperm as [_ E1].
    apply entry_is_empty in E1, E2, E3. lia.
  - intros Hlow. apply Permutation_nil_r. rewrite Hperm.
    rewrite !(proj2 (entry_is_empty _ _ _ _)) by lia. reflexivity.
Qed.

End AllTrendsResults.

(** ** From the trend report to the correlation engine *)

Section Pipeline.

Import TrendAnalyzer ParameterAnalyzer.

(** The time to threshold that the engine reads in an analysed trend. *)
Lemma analysed_hours_left (sqrt : Q -> Q)
    (history : string -> Z -> list Reading) (trends : gmap string TrendDict)
    (p : string) (d : TrendDict) (fallback : Q) :
  analyze_parameter_trend sqrt history p 24 = Ok d ->
  trends !! p = Some d ->
  (urgent d -> is_Some (hours_left trends p fallback)) /\
  (~ urgent d -> td_trend d <> Some "insufficient_data"%string ->
     hours_left trends p fallback = None).
Proof.
  intros Hrun Hd. unfold hours_left, get_time_to_threshold. rewrite Hd.
  cbn [from_option id].
  destruct (Nat.lt_ge_cases (length (history p 24%Z)) 5) as [H|H].
  - unfold analyze_parameter_trend in Hrun.
    apply Nat.ltb_lt in H. rewrite H in Hrun. injection Hrun as <-.
    cbn. split; [eauto | congruence].
  - destruct (analyze_parameter_trend_long sqrt history p 24 H)
      as (rate & volatility & current & c & _ & _ & _ & Hshape & E).
    rewrite E in Hrun. injection Hrun as <-. unfold urgent. cbn.
    destruct Hshape as [[L (t & -> & _)] | [[L (t & -> & _)] | [L ->]]];
      cbn.
    + split; [eauto|]. rewrite L. intros N. exfalso. auto.
    + split; [eauto|]. rewrite L. intros N. exfalso. auto.
    + split; [|reflexivity].
      intros [[= U] | [= U]]; destruct L as [L | L]; congruence.
Qed.


Lemma urgent_decided (d : TrendDict) : urgent d \/ ~ urgent d.
Proof.
  unfold urgent. destruct (td_concern_level d) as [l|].
  - destruct (decide (l = "warning"%string)) as [-> | Nw]; [auto|].
    destruct (decide (l = "critical"%string)) as [-> | Nc]; [auto|].
    right. intros [[=] | [=]]; contradiction.
  - right. intros [[=] | [=]].
Qed.

(** A cascade read off analysed trends: the projection of a parameter
    whose trend is rising or falling is a number exactly when the trend
    is urgent. *)
Lemma analysed_projection (sqrt : Q -> Q)
    (history : string -> Z -> list Reading) (trends : gmap string TrendDict)
    (p way : string) :
  analysed sqrt history trends ->
  p ∈ ["ph"; "temperature"; "do"]%string ->
  direction trends p = Some way -> way <> "insufficient_data"%string ->
  (urgent_at trends p -> is_Some (hours_left trends p 999)) /\
  (~ urgent_at trends p -> hours_left trends p 999 = None).
Proof.
  intros Han Hp Hway Hneq. destruct (Han p Hp) as (d & Hrun & Hd).
  destruct (analysed_hours_left sqrt history trends p d 999 Hrun Hd)
    as [Hyes Hno].
  unfold direction in Hway. rewrite Hd in Hway. cbn in Hway.
  split.
  - intros (d' & Hd' & U). rewrite Hd in Hd'. injection Hd' as <-. auto.
  - intros N. apply Hno; [|congruence].
    intros U. apply N. exists d. auto.
Qed.

(** The engine on analysed trends. *)
Lemma engine_on_analysed_trends (sqrt : Q -> Q)
    (history : string -> Z -> list Reading)
    readings trends (ph temp oxygen : Q) :
  numeric readings ph temp oxygen ->
  analysed sqrt history trends ->
  let run := analyze_correlations_advanced readings trends in
  (biofilter_pattern readings trends ->
     (urgent_at trends "ph" /\ urgent_at trends "do" ->
        exists a, run = Ok a /\
                  system_state a = "critical_cascade"%string) /\
     (~ (urgent_at trends "ph" /\ urgent_at trends "do") ->
        run = Raise TypeError)) /\
  (~ biofilter_pattern readings trends ->
   temperature_pattern readings trends ->
     (urgent_at trends "temperature" /\ urgent_at trends "do" ->
        exists a, run = Ok a /\
                  system_state a = "temperature_oxygen_cascade"%string) /\
     (~ (urgent_at trends "temperature" /\ urgent_at trends "do") ->
        run = Raise TypeError)) /\
  (~ biofilter_pattern readings trends ->
   ~ temperature_pattern readings trends ->
     exists a, run = Ok a).
Proof.
  intros Hnum Han. cbv zeta.
  assert (Hdec : forall p, urgent_at trends p \/ ~ urgent_at trends p).
  { intros p. unfold urgent_at. destruct (trends !! p) as [d|].
    - destruct (urgent_decided d) as [U | N]; [eauto|].
      right. intros (d' & [= <-] & U). contradiction.
    - right. intros (d' & [=] & _). }
  assert (Hph : "ph"%string ∈ ["ph"; "temperature"; "do"]%string)
    by repeat constructor.
  assert (Htemp : "temperature"%string ∈ ["ph"; "temperature"; "do"]%string)
    by repeat constructor.
  assert (Hdo : "do"%string ∈ ["ph"; "temperature"; "do"]%string)
    by repeat constructor.
  split; [|split].
  - intros P1. pose proof P1 as (_ & D1 & _ & D2).
    destruct (analysed_projection sqrt history trends "ph" "falling"
                Han Hph D1 ltac:(discriminate)) as [Y1 N1].
    destruct (analysed_projection sqrt history trends "do" "falling"
                Han Hdo D2 ltac:(discriminate)) as [Y2 N2].
    split.
    + intros [U1 U2]. destruct (Y1 U1) as [t1 H1], (Y2 U2) as [t2 H2].
      destruct (biofilter_cascade_with_projections readings trends t1 t2
                  P1 H1 H2) as (a & Hrun & _ & Hstate & _).
      exists a. auto.
    + intros N. apply biofilter_cascade_without_projection; [exact P1|].
      destruct (Hdec "ph"%string) as [U1 | U1]; [|auto].
      destruct (Hdec "do"%string) as [U2 | U2]; [|auto].
      exfalso. auto.
  - intros NP1 P2. pose proof P2 as (_ & D1 & _ & D2).
    destruct (analysed_projection sqrt history trends "temperature" "rising"
                Han Htemp D1 ltac:(discriminate)) as [Y1 N1].
    destruct (analysed_projection sqrt history trends "do" "falling"
                Han Hdo D2 ltac:(discriminate)) as [Y2 N2].
    split.
    + intros [U1 U2]. destruct (Y1 U1) as [t1 H1], (Y2 U2) as [t2 H2].
      destruct (temperature_cascade_with_projections readings trends
                  ph temp oxygen t1 t2 Hnum NP1 P2 H1 H2)
        as (a & Hrun & Hstate & _).
      exists a. auto.
    + intros N.
      apply (temperature_cascade_without_projection readings trends
               ph temp oxygen Hnum NP1 P2).
      destruct (Hdec "temperature"%string) as [U1 | U1]; [|auto].
      destruct (Hdec "do"%string) as [U2 | U2]; [|auto].
      exfalso. auto.
  - intros NP1 NP2.
    apply (engine_returns_past_cascades readings trends ph temp oxygen
             Hnum NP1 NP2).
    intros [D C]. destruct (Han "ph"%string Hph) as (d & Hrun & Hd).
    apply (analysed_hours_left sqrt history trends "ph" d 24 Hrun Hd).
    unfold concern in C. rewrite Hd in C. exact C.
Qed.

(** X17. The first two steps of [get_predictive_analysis]: the trends of
    [analyze_all_trends] handed to the correlation engine with numeric
    readings.  When the biofilter pattern holds, the engine returns the
    critical cascade if the ph and the do trend are both at level warning
    or critical, and raises [TypeError] otherwise; when it fails and the
    temperature pattern holds, the same with the temperature and the do
    trend; when both fail, the engine returns normally. *)
Theorem predictive_analysis_outcome (sqrt : Q -> Q)
    (history : string -> Z -> list Reading) (now : Z)
    readings (ph temp oxygen : Q) :
  numeric readings ph temp oxygen ->
  exists r,
    analyze_all_trends sqrt history now = Done r /\
    let run := analyze_correlations_advanced readings (trends r) in
    (biofilter_pattern readings (trends r) ->
       (urgent_at (trends r) "ph" /\ urgent_at (trends r) "do" ->
          exists a, run = Ok a /\
                    system_state a = "critical_cascade"%string) /\
       (~ (urgent_at (trends r) "ph" /\ urgent_at (trends r) "do") ->
          run = Raise TypeError)) /\
    (~ biofilter_pattern readings (trends r) ->
     temperature_pattern readings (trends r) ->
       (urgent_at (trends r) "temperature" /\ urgent_at (trends r) "do" ->
          exists a, run = Ok a /\
                    system_state a = "temperature_oxygen_cascade"%string) /\
       (~ (urgent_at (trends r) "temperature" /\
           urgent_at (trends r) "do") ->
          run = Raise TypeError)) /\
    (~ biofilter_pattern readings (trends r) ->
     ~ temperature_pattern readings (trends r) ->
       exists a, run = Ok a).
Proof.
  intros Hnum.
  destruct (analyze_all_trends_loop_runs sqrt history)
    as (d1 & l1 & a1 & d2 & l2 & a2 & d3 & l3 & a3 & S1 & S2 & S3 & Hloop).
  unfold analyze_all_trends. rewrite Hloop. cbn [mbind attempt_bind].
  destruct (sort_by_numeric ua_time_to_threshold
              ((([] ++ entry "ph" d1 l1 a1) ++ entry "temperature" d2 l2 a2)
               ++ entry "do" d3 l3 a3))
    as (s & -> & _ & _).
  { repeat apply Forall_app_2; [constructor | ..];
      eapply entry_is_numeric; eassumption. }
  cbn [lift mbind attempt_bind].
  eexists. split; [reflexivity|]. cbn [trends].
  apply (engine_on_analysed_trends sqrt history _ _ ph temp oxygen Hnum).
  intros p Hp. rewrite !elem_of_cons, elem_of_nil in Hp.
  destruct Hp as [-> | [-> | [-> | []]]].
  - exists d1. split; [apply S1 | reflexivity].
  - exists d2. split; [apply S2 | reflexivity].
  - exists d3. split; [apply S3 | reflexivity].
Qed.

End Pipeline.

(** ** What a call of [check_thresholds] returns and dispatches *)

Section Dispatch.

Import AlertManager.

Variable clock : nat -> Z.

Lemma accepted_dispatched (a : Alert) (st : State) :
  dispatched (accepted clock a st)
  = dispatched st ++ filter (fun b => level b = "critical"%string) [a].
Proof.
  cbn [accepted dispatched]. rewrite filter_cons, filter_nil.
  destruct (String.eqb (level a) "critical") eqn:E.
  - apply String.eqb_eq in E. now rewrite decide_True.
  - apply String.eqb_neq in E. rewrite decide_False by exact E.
    now rewrite app_nil_r.
Qed.

(** The loop hands to [_send_notifications] the critical alerts it
    accepts, in order, and reads the clock at most three times for each
    item. *)
Lemma loop_dispatches items : forall acc st,
  exists new,
    fst (check_thresholds_loop clock items acc st) = acc ++ new /\
    dispatched (snd (check_thresholds_loop clock items acc st))
    = dispatched st ++ filter (fun a => level a = "critical"%string) new /\
    (ticks st <= ticks (snd (check_thresholds_loop clock items acc st))
     <= ticks st + 3 * length items)%nat.
Proof.
  induction items as [|[sensor_name [v|]] rest IH]; intros acc st.
  - exists []. cbn. rewrite !app_nil_r. repeat split; lia.
  - destruct (thresholds !! sensor_name) as [thr|] eqn:Hthr.
    2: { rewrite (loop_skip_unknown _ _ _ _ _ _ Hthr).
         destruct (IH acc st) as (new & H1 & H2 & H3).
         exists new. cbn [length]. repeat split; [assumption .. | lia | lia]. }
    destruct (check_sensor_threshold_shape clock sensor_name v thr st)
      as [E|(a & E & _ & _ & La)].
    { rewrite (loop_quiet _ _ _ _ _ _ _ Hthr E).
      destruct (IH acc st) as (new & H1 & H2 & H3).
      exists new. cbn [length]. repeat split; [assumption .. | lia | lia]. }
    rewrite (loop_alert _ _ _ _ _ _ _ _ Hthr E).
    destruct (alert_history st !! alert_key a) as [last_sent|];
      [destruct (_ <? _)%Z|].
    + destruct (IH acc (tick (tick st))) as (new & H1 & H2 & H3).
      exists new. cbn [length tick ticks dispatched] in *.
      repeat split; [assumption .. | lia | lia].
    + destruct (IH (acc ++ [a]) (accepted clock a (tick (tick st))))
        as (new & H1 & H2 & H3).
      exists (a :: new). rewrite H1, H2, accepted_dispatched.
      cbn [length tick ticks dispatched accepted] in *.
      rewrite <- !app_assoc, <- filter_app.
      repeat split; [lia | lia].
    + destruct (IH (acc ++ [a]) (accepted clock a (tick st)))
        as (new & H1 & H2 & H3).
      exists (a :: new). rewrite H1, H2, accepted_dispatched.
      cbn [length tick ticks dispatched accepted] in *.
      rewrite <- !app_assoc, <- filter_app.
      repeat split; [lia | lia].
  - rewrite loop_skip_none.
    destruct (IH acc st) as (new & H1 & H2 & H3).
    exists new. cbn [length]. repeat split; [assumption .. | lia | lia].
Qed.

(** X18. A call of [check_thresholds] hands to [_send_notifications]
    exactly the critical alerts that it returns, in the order in which
    it returns them, and no warning; and it reads the clock at most three
    times for each sensor. *)
Theorem critical_alerts_are_dispatched (sensors : list (string * option Q))
    (st : State) :
  let alerts := fst (check_thresholds clock sensors st) in
  let st' := snd (check_thresholds clock sensors st) in
  dispatched st'
  = dispatched st ++ filter (fun a => level a = "critical"%string) alerts /\
  (ticks st <= ticks st' <= ticks st + 3 * length sensors)%nat.
Proof.
  cbv zeta. unfold check_thresholds.
  destruct (loop_dispatches sensors [] st) as (new & Hout & Hlog & Hticks).
  rewrite Hout, Hlog. cbn [app]. split; [reflexivity | exact Hticks].
Qed.

End Dispatch.

Section Provenance.

Import AlertManager.

Variable clock : nat -> Z.

Lemma check_sensor_threshold_value sensor_name v (thr : gmap string Q) st a :
  _check_sensor_threshold clock sensor_name v thr st = (Some a, tick st) ->
  sensor a = sensor_name /\ value a = v /\ timestamp a = clock (ticks st).
Proof.
  unfold _check_sensor_threshold.
  repeat match goal with
  | |- context [crossed ?t ?k ?f] => destruct (crossed t k f)
  end;
  intros [= <-]; auto.
Qed.

(** The alerts that the loop accepts follow the readings, in order, and
    each is the verdict of the evaluator on its reading, stamped during
    the call. *)
Lemma loop_follows_readings items : forall acc st,
  exists new,
    fst (check_thresholds_loop clock items acc st) = acc ++ new /\
    map (fun a => (sensor a, value a)) new `sublist_of` readings_of items /\
    Forall (fun a =>
              raised_for clock a /\
              exists k, (ticks st <= k)%nat /\ timestamp a = clock k) new.
Proof.
  induction items as [|[sensor_name [v|]] rest IH]; intros acc st.
  - exists []. cbn. rewrite app_nil_r. repeat split; constructor.
  - assert (Hskip : forall st', (ticks st <= ticks st')%nat ->
              exists new,
                fst (check_thresholds_loop clock rest acc st') = acc ++ new /\
                map (fun a => (sensor a, value a)) new
                  `sublist_of` readings_of ((sensor_name, Some v) :: rest) /\
                Forall (fun a =>
                          raised_for clock a /\
                          exists k, (ticks st <= k)%nat /\
                                    timestamp a = clock k) new).
    { intros st' Hle. destruct (IH acc st') as (new & H1 & H2 & H3).
      exists new. split; [exact H1|]. split.
      - cbn. now apply sublist_cons.
      - eapply Forall_impl; [exact H3|].
        intros a (Hr & k & Hk & Ht). split; [exact Hr|].
        exists k. split; [lia | exact Ht]. }
    destruct (thresholds !! sensor_name) as [thr|] eqn:Hthr.
    2: { rewrite (loop_skip_unknown _ _ _ _ _ _ Hthr). now apply Hskip. }
    destruct (check_sensor_threshold_shape clock sensor_name v thr st)
      as [E|(a & E & _)].
    { rewrite (loop_quiet _ _ _ _ _ _ _ Hthr E). now apply Hskip. }
    assert (Hacc : forall st', (ticks st <= ticks st')%nat ->
              exists new,
                fst (check_thresholds_loop clock rest (acc ++ [a]) st')
                = acc ++ new /\
                map (fun a => (sensor a, value a)) new
                  `sublist_of` readings_of ((sensor_name, Some v) :: rest) /\
                Forall (fun a =>
                          raised_for clock a /\
                          exists k, (ticks st <= k)%nat /\
                                    timestamp a = clock k) new).
    { intros st' Hle.
      destruct (IH (acc ++ [a]) st') as (new & H1 & H2 & H3).
      destruct (check_sensor_threshold_value _ _ _ _ _ E) as (Hs & Hv & Ht).
      exists (a :: new). split; [now rewrite H1, <- app_assoc|]. split.
      - cbn. rewrite Hs, Hv. now apply sublist_skip.
      - constructor.
        + split; [|exists (ticks st); auto].
          exists thr, st. rewrite Hs, Hv. auto.
        + eapply Forall_impl; [exact H3|].
          intros b (Hr & k & Hk & Hb). split; [exact Hr|].
          exists k. split; [lia | exact Hb]. }
    rewrite (loop_alert _ _ _ _ _ _ _ _ Hthr E).
    destruct (alert_history st !! alert_key a) as [last_sent|];
      [destruct (_ <? _)%Z|].
    + apply Hskip. cbn. lia.
    + apply Hacc. cbn. lia.
    + apply Hacc. cbn. lia.
  - rewrite loop_skip_none. destruct (IH acc st) as (new & H1 & H2 & H3).
    exists new. auto.
Qed.

Lemma readings_of_names (sensors : list (string * option Q)) :
  map fst (readings_of sensors) `sublist_of` map fst sensors.
Proof.
  induction sensors as [|[s [v|]] rest IH]; cbn.
  - constructor.
  - now apply sublist_skip.
  - now apply sublist_cons.
Qed.

(** Alerts of distinct sensors have distinct keys. *)
Lemma alert_keys_distinct (alerts : list Alert) :
  Forall (fun a => level a = "warning"%string \/ level a = "critical"%string)
         alerts ->
  NoDup (map sensor alerts) -> NoDup (map alert_key alerts).
Proof.
  induction alerts as [|a rest IH]; intros Hlevels Hs; [constructor|].
  cbn [map] in *. apply Forall_cons in Hlevels as [La Hlevels].
  apply NoDup_cons in Hs as [Hin Hs].
  apply NoDup_cons. split; [|now apply IH].
  intros Hk. apply Hin. apply list_elem_of_fmap in Hk as (b & Hkey & Hb).
  apply list_elem_of_fmap. exists b. split; [|exact Hb].
  rewrite Forall_forall in Hlevels.
  symmetry. symmetry in Hkey.
  now apply (alert_key_inj b (sensor a) (level a) (Hlevels b Hb) La).
Qed.

(** X19. The alerts that [check_thresholds] returns follow the readings
    of the sensor dict: in order, at most one for each reading that
    carries a value, none for a missing value.  Each is the verdict of
    the evaluator on its own sensor and value, for a configured sensor,
    at level warning or critical, stamped with a reading of the clock
    made during the call; and with distinct sensor names no two of them
    share a history key. *)
Theorem alerts_follow_readings (sensors : list (string * option Q))
    (st : State) :
  let alerts := fst (check_thresholds clock sensors st) in
  map (fun a => (sensor a, value a)) alerts `sublist_of` readings_of sensors /\
  (length alerts <= length sensors)%nat /\
  (forall a, a ∈ alerts ->
     raised_for clock a /\
     (level a = "warning"%string \/ level a = "critical"%string) /\
     exists k, (ticks st <= k)%nat /\ timestamp a = clock k) /\
  (NoDup (map fst sensors) -> NoDup (map alert_key alerts)).
Proof.
  cbv zeta. unfold check_thresholds.
  destruct (loop_follows_readings sensors [] st) as (new & Hout & Hsub & Hall).
  rewrite Hout. cbn [app].
  assert (Hnames : map sensor new `sublist_of` map fst sensors).
  { transitivity (map fst (readings_of sensors)); [|apply readings_of_names].
    apply (fmap_sublist fst) in Hsub.
    now rewrite <- list_fmap_compose in Hsub. }
  assert (Hlevels : Forall (fun a => level a = "warning"%string \/
                                     level a = "critical"%string) new).
  { eapply Forall_impl; [exact Hall|].
    intros a ((thr & st0 & _ & E) & _).
    destruct (check_sensor_threshold_shape clock (sensor a) (value a) thr st0)
      as [N | (b & Eb & _ & _ & Lb)]; [congruence|].
    rewrite E in Eb. now injection Eb as <-. }
  split; [exact Hsub|]. split; [|split].
  - apply sublist_length in Hnames. now rewrite !length_map in Hnames.
  - intros a Ha. rewrite Forall_forall in Hall, Hlevels.
    destruct (Hall a Ha) as (Hr & Hk). auto.
  - intros Hnodup. apply alert_keys_distinct; [exact Hlevels|].
    eapply sublist_NoDup; eassumption.
Qed.

End Provenance.

(** ** Calls in quick succession *)

Section Bursts.

Import AlertManager.

Variable clock : nat -> Z.

Lemma recent_accepted (a : Alert) (st : State) :
  within_window clock -> recent clock st -> recent clock (accepted clock a st).
Proof.
  intros Hw Hr k t. cbn [accepted alert_history].
  rewrite lookup_insert_Some. intros [[_ <-] | [_ Hk]] j.
  - apply Hw.
  - now apply (Hr k).
Qed.

(** With the clock inside one window, the loop accepts an alert only
    under a key that has no entry yet, keeps the history recent, and
    leaves an entry under every key that its items raise. *)
Lemma loop_in_window items : forall acc st,
  within_window clock -> recent clock st ->
  let run := check_thresholds_loop clock items acc st in
  recent clock (snd run) /\
  (forall k, is_Some (alert_history st !! k) ->
     is_Some (alert_history (snd run) !! k)) /\
  (forall k, raisable clock items k -> is_Some (alert_history (snd run) !! k)) /\
  (exists new, fst run = acc ++ new /\
     forall a, a ∈ new -> alert_history st !! alert_key a = None).
Proof.
  intros acc st Hw. revert acc st. cbv zeta.
  induction items as [|[sensor_name [v|]] rest IH]; intros acc st Hr.
  - cbn. split; [exact Hr|]. split; [auto|]. split.
    + intros k (s & v & thr & a & st0 & Hin & _). now apply elem_of_nil in Hin.
    + exists []. split; [now rewrite app_nil_r|].
      intros a Ha. now apply elem_of_nil in Ha.
  - (* an item whose alert, if any, is not accepted *)
    assert (Hpass : forall st',
              recent clock st' -> alert_history st' = alert_history st ->
              (forall k, raisable clock [(sensor_name, Some v)] k ->
                 is_Some (alert_history st !! k)) ->
              let run := check_thresholds_loop clock rest acc st' in
              recent clock (snd run) /\
              (forall k, is_Some (alert_history st !! k) ->
                 is_Some (alert_history (snd run) !! k)) /\
              (forall k, raisable clock ((sensor_name, Some v) :: rest) k ->
                 is_Some (alert_history (snd run) !! k)) /\
              (exists new, fst run = acc ++ new /\
                 forall a, a ∈ new ->
                   alert_history st !! alert_key a = None)).
    { intros st' Hr' Eh Hhead. cbv zeta.
      destruct (IH acc st' Hr') as (R & Hmono & Hkeys & new & Hout & Hnew).
      rewrite Eh in Hmono, Hnew.
      split; [exact R|]. split; [exact Hmono|]. split; [|eauto].
      intros k (s & v' & thr & a & st0 & Hin & Hthr & E & Hk).
      apply elem_of_cons in Hin as [[= -> ->] | Hin].
      - apply Hmono, Hhead. exists sensor_name, v, thr, a, st0.
        split; [apply list_elem_of_here | auto].
      - apply Hkeys. exists s, v', thr, a, st0. auto. }
    destruct (thresholds !! sensor_name) as [thr|] eqn:Hthr.
    2: { rewrite (loop_skip_unknown _ _ _ _ _ _ Hthr).
         apply Hpass; [exact Hr | reflexivity |].
         intros k (s & v' & thr & a & st0 & Hin & Hthr' & _).
         apply list_elem_of_singleton in Hin as [= -> ->]. congruence. }
    destruct (check_sensor_threshold_shape clock sensor_name v thr st)
      as [E|(a & E & _)].
    { rewrite (loop_quiet _ _ _ _ _ _ _ Hthr E).
      apply Hpass; [exact Hr | reflexivity |].
      intros k (s & v' & thr' & b & st0 & Hin & Hthr' & Eb & _).
      apply list_elem_of_singleton in Hin as [= -> ->].
      rewrite Hthr in Hthr'. injection Hthr' as <-.
      pose proof (check_sensor_threshold_any_state clock _ _ _ _ st _ Eb) as Eb'.
      congruence. }
    assert (Hkey : forall k, raisable clock [(sensor_name, Some v)] k ->
                     k = alert_key a).
    { intros k (s & v' & thr' & b & st0 & Hin & Hthr' & Eb & <-).
      apply list_elem_of_singleton in Hin as [= -> ->].
      rewrite Hthr in Hthr'. injection Hthr' as <-.
      pose proof (check_sensor_threshold_any_state clock _ _ _ _ st _ Eb) as Eb'.
      rewrite E in Eb'. injection Eb' as ->. reflexivity. }
    rewrite (loop_alert _ _ _ _ _ _ _ _ Hthr E).
    destruct (alert_history st !! alert_key a) as [last_sent|] eqn:Hk.
    + (* an entry exists: the clock is inside its window *)
      rewrite (proj2 (Z.ltb_lt _ _) (Hr _ _ Hk _)).
      apply Hpass; [exact Hr | reflexivity |].
      intros k Hraise. rewrite (Hkey k Hraise), Hk. eauto.
    + (* no entry: the alert is accepted *)
      destruct (IH (acc ++ [a]) (accepted clock a (tick st))
                  (recent_accepted a (tick st) Hw Hr))
        as (R & Hmono & Hkeys & new & Hout & Hnew).
      split; [exact R|].
      assert (Hgrow : forall k, is_Some (alert_history st !! k) ->
                is_Some (alert_history (accepted clock a (tick st)) !! k)).
      { intros k Hsome. cbn [accepted alert_history tick].
        rewrite lookup_insert. case_decide; eauto. }
      split; [intros k Hsome; apply Hmono, Hgrow, Hsome|].
      split.
      * intros k (s & v' & thr' & b & st0 & Hin & Hthr' & Eb & Hkb).
        apply elem_of_cons in Hin as [[= -> ->] | Hin].
        -- rewrite (Hkey k).
           ++ apply Hmono. cbn [accepted alert_history tick].
              rewrite lookup_insert_eq. eauto.
           ++ exists sensor_name, v, thr', b, st0.
              split; [apply list_elem_of_here | auto].
        -- apply Hkeys. exists s, v', thr', b, st0. auto.
      * exists (a :: new). split; [now rewrite Hout, <- app_assoc|].
        intros b Hb. apply elem_of_cons in Hb as [-> | Hb]; [exact Hk|].
        specialize (Hnew b Hb). cbn [accepted alert_history tick] in Hnew.
        apply lookup_insert_None in Hnew as [Hnew _]. exact Hnew.
  - rewrite loop_skip_none.
    destruct (IH acc st Hr) as (R & Hmono & Hkeys & Hnew).
    split; [exact R|]. split; [exact Hmono|]. split; [|exact Hnew].
    intros k (s & v' & thr & a & st0 & Hin & Hrest).
    apply elem_of_cons in Hin as [[=] | Hin].
    apply Hkeys. exists s, v', thr, a, st0. auto.
Qed.

(** With an entry under every key that the items raise, and all entries
    recent, the loop accepts nothing and writes nothing. *)
Lemma loop_is_silent items : forall acc st,
  recent clock st ->
  (forall k, raisable clock items k -> is_Some (alert_history st !! k)) ->
  let run := check_thresholds_loop clock items acc st in
  fst run = acc /\
  alert_history (snd run) = alert_history st /\
  dispatched (snd run) = dispatched st.
Proof.
  cbv zeta.
  induction items as [|[sensor_name [v|]] rest IH]; intros acc st Hr Hkeys.
  - auto.
  - assert (Hrest : forall k, raisable clock rest k ->
                      is_Some (alert_history st !! k)).
    { intros k (s & v' & thr & a & st0 & Hin & H). apply Hkeys.
      exists s, v', thr, a, st0. split; [now apply list_elem_of_further | auto]. }
    destruct (thresholds !! sensor_name) as [thr|] eqn:Hthr.
    2: { rewrite (loop_skip_unknown _ _ _ _ _ _ Hthr). now apply IH. }
    destruct (check_sensor_threshold_shape clock sensor_name v thr st)
      as [E|(a & E & _)].
    { rewrite (loop_quiet _ _ _ _ _ _ _ Hthr E). now apply IH. }
    rewrite (loop_alert _ _ _ _ _ _ _ _ Hthr E).
    destruct (Hkeys (alert_key a)) as [last_sent Hk].
    { exists sensor_name, v, thr, a, st.
      split; [apply list_elem_of_here | auto]. }
    rewrite Hk, (proj2 (Z.ltb_lt _ _) (Hr _ _ Hk _)).
    apply (IH acc (tick (tick st))); assumption.
  - rewrite loop_skip_none. apply IH; [exact Hr|].
    intros k (s & v' & thr & a & st0 & Hin & H). apply Hkeys.
    exists s, v', thr, a, st0. split; [now apply list_elem_of_further | auto].
Qed.

(** X20. With all readings of the clock less than the cooldown window
    apart, and a history whose instants are that recent: a call of
    [check_thresholds] accepts alerts only under keys that had no entry,
    and the same call repeated right after it returns no alert, writes
    nothing to the history and dispatches nothing. *)
Theorem repeated_call_is_silent (sensors : list (string * option Q))
    (st : State) :
  within_window clock -> recent clock st ->
  let first := check_thresholds clock sensors st in
  let second := check_thresholds clock sensors (snd first) in
  (forall a, a ∈ fst first -> alert_history st !! alert_key a = None) /\
  fst second = [] /\
  alert_history (snd second) = alert_history (snd first) /\
  dispatched (snd second) = dispatched (snd first).
Proof.
  intros Hw Hr. cbv zeta. unfold check_thresholds.
  destruct (loop_in_window sensors [] st Hw Hr)
    as (R & _ & Hkeys & new & Hout & Hnew).
  split; [rewrite Hout; exact Hnew|].
  apply loop_is_silent; assumption.
Qed.

End Bursts.

(** ** The advice in the alert email *)

Section Recommendations.

Import AlertManager.

Variable clock : nat -> Z.

(** Replaces the lookups in the small table of [E] by their values. *)
Ltac lookups_in H :=
  repeat match type of H with
  | context [@lookup ?K ?A ?M ?I ?k ?m] =>
      let r := eval vm_compute in (@lookup K A M I k m) in
      change (@lookup K A M I k m) with r in H
  end.

(** Takes the tests of the evaluator one by one. *)
Ltac verdicts E :=
  unfold _check_sensor_threshold, crossed in E; lookups_in E;
  unfold Qgtb in E;
  repeat match type of E with
  | context [(?x <? ?y)%Q] => destruct (x <? y)%Q eqn:?
  end;
  cbn in E; try discriminate; injection E as <-.

(** The two tables agree: an alert raised on the low side of a
    configured sensor lies below its optimal_min, and one raised on the
    high side does not. *)
Lemma raised_alert_side sensor_name v (thr : gmap string Q) a st :
  thresholds !! sensor_name = Some thr ->
  _check_sensor_threshold clock sensor_name v thr st = (Some a, tick st) ->
  sensor_name ∈ ["ph"; "ec"; "do"; "temp_reservoir"; "temp_fish_tank";
                 "water_level_percent"]%string /\
  exists m,
    thr !! "optimal_min" = Some m /\
    (((v < threshold a)%Q /\ (v < m)%Q) \/
     ((threshold a < v)%Q /\ (m <= v)%Q /\
      sensor_name <> "water_level_percent"%string)).
Proof.
  unfold thresholds. intros H E.
  repeat (rewrite list_to_map_cons, lookup_insert in H;
          destruct (decide (_ = sensor_name)) as [<-|_];
          [injection H as <-; verdicts E;
           (split; [repeat constructor|]);
           (eexists; split; [vm_compute; reflexivity|]);
           cbn [threshold]; qprop;
           first [left; split; lra
                 |right; split; [lra|]; split; [lra | discriminate]]|]).
  rewrite list_to_map_nil, lookup_empty in H. discriminate.
Qed.

(** X21. The advice for an alert that the evaluator raises for a
    configured sensor.  [_get_recommendations_html] returns normally and
    never the empty string.  It chooses by optimal_min, and for such an
    alert that agrees with the side on which the alert was raised: below
    its bound the first advice is the one for a low value, above it the
    one for a high value.  Only a dissolved-oxygen alert on the high side
    gets no recommendation, and with it the generic line. *)
Theorem recommendations_match_the_alert
    sensor_name v (thr : gmap string Q) a st :
  thresholds !! sensor_name = Some thr ->
  _check_sensor_threshold clock sensor_name v thr st = (Some a, tick st) ->
  exists recs html,
    recommendations a = Done recs /\
    _get_recommendations_html a = Done html /\
    html <> EmptyString /\
    (recs = [] <-> sensor_name = "do"%string /\ (threshold a < v)%Q) /\
    (recs = [] -> html = "<li>Monitor situation closely</li>"%string) /\
    (sensor_name = "ph"%string ->
       head recs
       = Some (if (v <? threshold a)%Q
               then "Add pH Up solution slowly (0.2 units at a time)"
               else "Add pH Down solution slowly (0.2 units at a time)")%string) /\
    (sensor_name = "do"%string -> (v < threshold a)%Q ->
       head recs
       = Some "IMMEDIATE: Increase aeration (add air stones)"%string) /\
    (sensor_name = "ec"%string ->
       head recs
       = Some (if (v <? threshold a)%Q
               then "Add nutrient solution"
               else "Add fresh water to dilute")%string) /\
    (is_infix "temp" sensor_name = true ->
       head recs
       = Some (if (v <? threshold a)%Q
               then "Turn on water heater" else "Turn off heater")%string) /\
    (sensor_name = "water_level_percent"%string ->
       head recs = Some "Check for leaks"%string).
Proof.
  intros H E.
  destruct (raised_alert_side _ _ _ _ _ H E) as (Hname & m & Hm & Hside).
  destruct (check_sensor_threshold_value clock _ _ _ _ _ E) as (Hs & Hv & _).
  unfold _get_recommendations_html, recommendations. rewrite Hs, Hv.
  assert (Hlow : (v < threshold a)%Q -> (v <? m)%Q = true
                                        /\ (v <? threshold a)%Q = true).
  { intros L. destruct Hside as [[_ ?] | [? _]]; [|lra].
    split; apply Qltb_true; assumption. }
  assert (Hhigh : (threshold a < v)%Q -> (v <? m)%Q = false
                                         /\ (v <? threshold a)%Q = false).
  { intros L. destruct Hside as [[? _] | [_ [? _]]]; [lra|].
    split; apply Qltb_false; lra. }
  rewrite !elem_of_cons, elem_of_nil in Hname.
  destruct Hname as [-> | [-> | [-> | [-> | [-> | [-> | []]]]]]];
    cbn [String.eqb Ascii.eqb Bool.eqb is_infix String.prefix orb];
    rewrite ?H; cbn [item mbind attempt_bind]; rewrite ?Hm;
    cbn [item mbind attempt_bind];
    (destruct Hside as [[L _] | [L [_ Hw]]];
     [destruct (Hlow L) as [-> ->] | destruct (Hhigh L) as [-> ->]]);
    try congruence;
    (eexists _, _; split; [reflexivity|];
     split; [vm_compute; reflexivity|]);
    cbn [head];
    repeat split; intros;
    repeat match goal with
    | H : _ /\ _ |- _ => destruct H
    | H : is_infix _ _ = true |- _ => vm_compute in H
    end;
    try discriminate; try reflexivity; try lra.
Qed.

End Recommendations.

(** ** Sample runs of the analyses *)

Section AnalysisSamples.

Import ParameterAnalyzer.

(** X4 on the scenario readings: ph 6.2 with dissolved oxygen 5.5 is
    critical. *)
Lemma holistic_status_witness :
  exists h,
    analyze_system_holistic scenario_readings = Ok h /\
    h_overall_status h = "critical"%string.
Proof.
  destruct (holistic_status scenario_readings 6.2 22.0 5.5
              eq_refl eq_refl eq_refl) as (h & Hrun & Hcritical & _).
  exists h. split; [exact Hrun|].
  apply Hcritical. split; vm_compute; reflexivity.
Defined.

(** X5 on warm water: the smaller time, 6 hours, is the urgency figure. *)
Lemma temperature_cascade_witness :
  exists a,
    analyze_correlations_advanced heat_readings heat_trends = Ok a /\
    system_state a = "temperature_oxygen_cascade"%string /\
    fields (explanation a) = [(1%nat, 6%Q)].
Proof.
  assert (N : ~ biofilter_pattern heat_readings heat_trends).
  { intros (_ & H & _). vm_compute in H. discriminate. }
  assert (P : temperature_pattern heat_readings heat_trends).
  { split; [|split; [|split]]; [exists 27%Q | | exists 6%Q |];
      repeat split; vm_compute; reflexivity. }
  destruct (proj1 (temperature_cascade heat_readings heat_trends 7.0 27 6
                     (conj eq_refl (conj eq_refl eq_refl)) N P)
              9%Q 6%Q eq_refl eq_refl)
    as (a & Hrun & Hstate & _ & _ & _ & Hfields).
  exists a. split; [exact Hrun|]. split; [exact Hstate | exact Hfields].
Defined.

(** X6 on the slow drift: the deadline is the 10 hours of the trend. *)
Lemma predictive_ph_warning_witness :
  exists a,
    analyze_correlations_advanced drift_readings drift_trends = Ok a /\
    system_state a = "preventive_action_needed"%string /\
    fields (explanation a) = [(3%nat, speed drift_trends "ph"); (1%nat, 10%Q)].
Proof.
  assert (N1 : ~ biofilter_pattern drift_readings drift_trends).
  { intros ((ph & H & Hlt) & _). vm_compute in H. injection H as <-.
    vm_compute in Hlt. discriminate. }
  assert (N2 : ~ temperature_pattern drift_readings drift_trends).
  { intros (_ & H & _). vm_compute in H. discriminate. }
  assert (P : predictive_pattern drift_trends).
  { split; [|left]; vm_compute; reflexivity. }
  destruct (proj1 (predictive_ph_warning drift_readings drift_trends
                     6.7 22.0 7.5 (conj eq_refl (conj eq_refl eq_refl))
                     N1 N2 P) 10%Q eq_refl)
    as (a & Hrun & Hstate & _ & _ & Hfields).
  exists a. split; [exact Hrun|]. split; [exact Hstate | exact Hfields].
Defined.

(** X7 with nothing reported: the fallbacks are optimal, but no trend is
    stable, so no pattern holds. *)
Lemma no_pattern_is_unknown_witness :
  exists a,
    analyze_correlations_advanced no_readings no_trends = Ok a /\
    system_state a = "unknown"%string /\
    root_cause a = None /\
    cascading_effects a = [] /\
    intervention_priority a = [].
Proof.
  refine (no_pattern_is_unknown no_readings no_trends 7.0 22.0 7.5
            (conj eq_refl (conj eq_refl eq_refl)) _ _ _ _).
  - intros (_ & H & _). vm_compute in H. discriminate.
  - intros (_ & H & _). vm_compute in H. discriminate.
  - intros (H & _). vm_compute in H. discriminate.
  - intros (_ & _ & _ & H & _). vm_compute in H. discriminate.
Defined.

(** X8 on the failed probe. *)
Lemma missing_ph_reading_raises_witness :
  analyze_correlations_advanced failed_probe no_trends = Raise TypeError /\
  analyze_system_holistic failed_probe = Raise TypeError.
Proof.
  refine (missing_ph_reading_raises failed_probe no_trends _).
  vm_compute. reflexivity.
Defined.

(** X9 on the calm readings. *)
Lemma holistic_excellent_iff_all_good_witness :
  exists h,
    analyze_system_holistic calm_readings = Ok h /\
    h_overall_status h = "excellent"%string.
Proof.
  destruct (holistic_excellent_iff_all_good calm_readings 7.0 21 7.5
              "aquaponics" "rainbow_trout"
              (conj eq_refl (conj eq_refl eq_refl))) as (h & Hrun & Hiff).
  exists h. split; [exact Hrun|].
  apply Hiff. repeat split; vm_compute; reflexivity.
Defined.

(** X10 on the calm readings and trends. *)
Lemma optimal_stable_is_sound_witness :
  optimal_pattern calm_readings calm_trends /\
  pa_status (analyze_ph 7.0 "aquaponics") = "good"%string.
Proof.
  destruct (analyze_correlations_advanced calm_readings calm_trends)
    as [a|e] eqn:E; [|vm_compute in E; discriminate].
  refine (let H := optimal_stable_is_sound calm_readings calm_trends
                     7.0 21 7.5 "aquaponics" "rainbow_trout" a
                     (conj eq_refl (conj eq_refl eq_refl)) E _ in
          conj (proj1 H) (proj1 (proj2 H))).
  vm_compute in E. injection E as <-. reflexivity.
Defined.

End AnalysisSamples.

(** ** Sample runs of the trend analysis and of the alert manager *)

Section TrendSamples.

Import TrendAnalyzer ParameterAnalyzer.


(** X17 on the collapsing day: the biofilter pattern holds and the ph
    trend, already below its critical bound, is not urgent, so the engine
    raises. *)
Lemma predictive_analysis_outcome_witness :
  exists r,
    analyze_all_trends sqrt_micro collapsing_history 0 = Done r /\
    analyze_correlations_advanced collapsing_readings (trends r)
    = Raise TypeError.
Proof.
  destruct (predictive_analysis_outcome sqrt_micro collapsing_history 0
              collapsing_readings 5.9 22.0 5.5
              (conj eq_refl (conj eq_refl eq_refl)))
    as (r & Hrun & Hbiofilter & _).
  exists r. split; [exact Hrun|].
  vm_compute in Hrun. injection Hrun as <-.
  apply Hbiofilter.
  - split; [|split; [|split]]; [exists 5.9%Q | | exists 5.5%Q |];
      repeat split; vm_compute; reflexivity.
  - intros [(d & Hd & [U | U]) _]; vm_compute in Hd; injection Hd as <-;
      vm_compute in U; discriminate.
Defined.

End TrendSamples.

Section AlertSamples.

Import AlertManager.

(** X20 on the idle manager: the critical ph alert is accepted once, and
    the repeated call is silent. *)
Lemma repeated_call_is_silent_witness :
  let first := check_thresholds burst_clock [("ph", Some 4.0%Q)] idle in
  let second :=
    check_thresholds burst_clock [("ph", Some 4.0%Q)] (snd first) in
  fst second = [] /\
  alert_history (snd second) = alert_history (snd first) /\
  dispatched (snd second) = dispatched (snd first).
Proof.
  refine (proj2 (repeated_call_is_silent burst_clock
                   [("ph", Some 4.0%Q)] idle _ _)).
  - intros i j. unfold burst_clock, window, timedelta_minutes,
      cooldown_minutes. lia.
  - intros k t H. unfold idle in H. cbn [alert_history] in H.
    rewrite lookup_empty in H. discriminate.
Defined.

(** X21 on the critical ph alert: the advice is to raise the ph. *)
Lemma recommendations_match_the_alert_witness :
  exists recs html,
    recommendations (ph_alert 0) = Done recs /\
    _get_recommendations_html (ph_alert 0) = Done html /\
    html <> EmptyString /\
    head recs
    = Some "Add pH Up solution slowly (0.2 units at a time)"%string.
Proof.
  destruct (recommendations_match_the_alert sample_clock "ph" 4.0
              ph_thresholds (ph_alert 0) idle)
    as (recs & html & Hrecs & Hhtml & Hne & _ & _ & Hph & _).
  - vm_compute. reflexivity.
  - vm_compute. reflexivity.
  - exists recs, html. repeat (split; [assumption|]).
    exact (Hph eq_refl).
Defined.

End AlertSamples.
